(** * Job tracker core: normalizer, matcher and classifier

    A shallow embedding of [src/processing/normalizer.py],
    [src/processing/matcher.py] and [src/processing/classifier.py],
    followed by the properties of the classification engine.

    Conventions of the embedding:
    - a Python [str] is a [string] whose characters are the code points
      below 256; character classes ([\w], [\s], [str.isspace], [str.lower])
      are the ones CPython uses on that range;
    - a Python [float] score or threshold is the rational number it denotes
      ([Q]); comparisons are [Qle_bool] and [Qlt] on those values;
    - a naive [datetime] is the number of microseconds since
      0001-01-01T00:00:00, with the range check of [datetime] arithmetic
      written out ([OverflowError]);
    - the insertion-ordered [dict] of tracked jobs is an association list
      in insertion order; a reference to a job object held by the dict is its
      position in that order, and an in-place mutation rewrites that position;
    - [uuid.uuid4()] is an input of the operation that draws it, and
      [current_time] is always supplied by the caller;
    - logging has no effect on the state and is left out. *)

From Stdlib Require Import ZArith QArith Lqa List String Ascii Bool Lia DecimalString.
From Stdlib Require PrimFloat.
From Stdlib Require Import Sorted Permutation.
Import ListNotations.

Open Scope string_scope.
Open Scope Z_scope.

(** ** Python string primitives used by the sources *)

Module PyStr.

Definition ord (c : ascii) : Z := Z.of_N (N_of_ascii c).

Definition between (lo hi : Z) (n : Z) : bool := (lo <=? n) && (n <=? hi).

(** [str.isspace] on one character; also the class [\s] of [re]. *)
Definition isspace (c : ascii) : bool :=
  let n := ord c in
  between 9 13 n || between 28 32 n || (n =? 133) || (n =? 160).

(** The class [\w] of [re] on a [str] pattern: alphanumeric or underscore. *)
Definition isword (c : ascii) : bool :=
  let n := ord c in
  between 48 57 n || between 65 90 n || (n =? 95) || between 97 122 n
  || (n =? 170) || between 178 179 n || (n =? 181) || between 185 186 n
  || between 188 190 n || between 192 214 n || between 216 246 n
  || between 248 255 n.

Definition lower_char (c : ascii) : ascii :=
  let n := ord c in
  if between 65 90 n || between 192 214 n || between 216 222 n
  then ascii_of_N (Z.to_N (n + 32))
  else c.

Fixpoint map_chars (f : ascii -> ascii) (s : string) : string :=
  match s with
  | EmptyString => EmptyString
  | String c s' => String (f c) (map_chars f s')
  end.

(** [s.lower()] *)
Definition lower (s : string) : string := map_chars lower_char s.

(** Truthiness of a [str]: the empty string is falsy. *)
Definition truthy (s : string) : bool :=
  match s with
  | EmptyString => false
  | String _ _ => true
  end.

(** [re.sub("[^...]", " ", s)] for a negated character class [keep]. *)
Definition sub_not_in (keep : ascii -> bool) (s : string) : string :=
  map_chars (fun c => if keep c then c else " "%char) s.

(** [s.replace(a, b)] for one-character [a] and [b]. *)
Definition replace_char (a b : ascii) (s : string) : string :=
  map_chars (fun c => if Ascii.eqb c a then b else c) s.

Definition snoc (s : string) (c : ascii) : string := s ++ String c EmptyString.

(** [s.split()]: the maximal runs of non-whitespace characters. *)
Fixpoint split_ws_from (acc : string) (s : string) : list string :=
  match s with
  | EmptyString => if truthy acc then [acc] else []
  | String c s' =>
      if isspace c
      then (if truthy acc then acc :: split_ws_from EmptyString s'
            else split_ws_from EmptyString s')
      else split_ws_from (snoc acc c) s'
  end.

Definition split_ws (s : string) : list string := split_ws_from EmptyString s.

(** [s.split(sep)] for a one-character separator: empty fields are kept. *)
Fixpoint split_on_from (sep : ascii) (acc : string) (s : string) : list string :=
  match s with
  | EmptyString => [acc]
  | String c s' =>
      if Ascii.eqb c sep
      then acc :: split_on_from sep EmptyString s'
      else split_on_from sep (snoc acc c) s'
  end.

Definition split_on (sep : ascii) (s : string) : list string :=
  split_on_from sep EmptyString s.

(** [sep.join(parts)] *)
Definition join (sep : string) (parts : list string) : string :=
  String.concat sep parts.

Fixpoint lstrip (p : ascii -> bool) (s : string) : string :=
  match s with
  | EmptyString => EmptyString
  | String c s' => if p c then lstrip p s' else s
  end.

Fixpoint rstrip (p : ascii -> bool) (s : string) : string :=
  match s with
  | EmptyString => EmptyString
  | String c s' =>
      let r := rstrip p s' in
      if p c && negb (truthy r) then EmptyString else String c r
  end.

(** [s.strip()] and [s.strip(chars)] *)
Definition strip_by (p : ascii -> bool) (s : string) : string :=
  rstrip p (lstrip p s).

Definition strip (s : string) : string := strip_by isspace s.

(** [re.sub("\s+", " ", s)]: every maximal whitespace run becomes one space. *)
Fixpoint collapse_ws_from (in_run : bool) (s : string) : string :=
  match s with
  | EmptyString => EmptyString
  | String c s' =>
      if isspace c
      then (if in_run then collapse_ws_from true s'
            else String " "%char (collapse_ws_from true s'))
      else String c (collapse_ws_from false s')
  end.

Definition collapse_ws (s : string) : string := collapse_ws_from false s.

(** Lookup in a [dict] literal with [str] keys. *)
Fixpoint dict_get (d : list (string * string)) (k : string) : option string :=
  match d with
  | [] => None
  | (k', v) :: d' => if String.eqb k k' then Some v else dict_get d' k
  end.

(** Comparison of two [str] as [sorted] uses it: lexicographic on code points. *)
Fixpoint leb (a b : string) : bool :=
  match a, b with
  | EmptyString, _ => true
  | String _ _, EmptyString => false
  | String x a', String y b' =>
      if ord x <? ord y then true
      else if ord y <? ord x then false
      else leb a' b'
  end.

Fixpoint insert_sorted (x : string) (l : list string) : list string :=
  match l with
  | [] => [x]
  | y :: l' => if leb x y then x :: l else y :: insert_sorted x l'
  end.

(** [sorted(l)] on a list of [str]. *)
Definition sorted (l : list string) : list string :=
  fold_right insert_sorted [] l.

Definition len (s : string) : Z := Z.of_nat (String.length s).

(** Whether some character of [s] is not whitespace. *)
Fixpoint has_nonspace (s : string) : bool :=
  match s with
  | EmptyString => false
  | String c s' => negb (isspace c) || has_nonspace s'
  end.

End PyStr.

(** ** normalizer.py *)

Module JobNormalizer.

Definition TITLE_ABBREVIATIONS : list (string * string) :=
  [ ("sr", "senior"); ("sr.", "senior"); ("jr", "junior"); ("jr.", "junior");
    ("mgr", "manager"); ("mgr.", "manager"); ("eng", "engineer");
    ("engr", "engineer"); ("engr.", "engineer"); ("dev", "developer");
    ("devops", "development operations"); ("sre", "site reliability engineer");
    ("qa", "quality assurance"); ("ui", "user interface");
    ("ux", "user experience"); ("vp", "vice president");
    ("cto", "chief technology officer"); ("ceo", "chief executive officer");
    ("cfo", "chief financial officer"); ("coo", "chief operating officer");
    ("svp", "senior vice president"); ("evp", "executive vice president");
    ("assoc", "associate"); ("asst", "assistant"); ("dir", "director");
    ("dir.", "director"); ("admin", "administrator"); ("coord", "coordinator");
    ("coord.", "coordinator"); ("acct", "account"); ("dept", "department");
    ("ops", "operations"); ("spec", "specialist") ].

Definition LOCATION_NORMALIZATIONS : list (string * string) :=
  [ ("sf", "san francisco"); ("ny", "new york"); ("nyc", "new york city");
    ("la", "los angeles"); ("dc", "washington dc"); ("remote us", "remote");
    ("remote - us", "remote"); ("remote (us)", "remote");
    ("work from home", "remote"); ("wfh", "remote") ].

Definition STATE_ABBREVIATIONS : list (string * string) :=
  [ ("ca", "california"); ("ny", "new york"); ("tx", "texas");
    ("fl", "florida"); ("il", "illinois"); ("ma", "massachusetts");
    ("wa", "washington"); ("pa", "pennsylvania"); ("oh", "ohio");
    ("ga", "georgia"); ("nc", "north carolina"); ("mi", "michigan");
    ("nj", "new jersey"); ("va", "virginia"); ("az", "arizona");
    ("co", "colorado"); ("or", "oregon"); ("md", "maryland");
    ("tn", "tennessee"); ("in", "indiana") ].

Definition is_hyphen (c : ascii) : bool := Ascii.eqb c "-"%char.
Definition is_comma (c : ascii) : bool := Ascii.eqb c ","%char.
Definition is_dot (c : ascii) : bool := Ascii.eqb c "."%char.

Definition expand_title_word (word : string) : string :=
  let clean_word := PyStr.strip_by is_dot word in
  match PyStr.dict_get TITLE_ABBREVIATIONS clean_word with
  | Some full => full
  | None => word
  end.

Definition normalize_title (title : string) : string :=
  if negb (PyStr.truthy title) then ""
  else
    let normalized := PyStr.lower title in
    let normalized :=
      PyStr.sub_not_in
        (fun c => PyStr.isword c || PyStr.isspace c || is_hyphen c) normalized in
    let words := PyStr.split_ws normalized in
    let expanded_words := map expand_title_word words in
    let normalized := PyStr.join " " expanded_words in
    let normalized := PyStr.replace_char "-"%char " "%char normalized in
    PyStr.strip (PyStr.collapse_ws normalized).

Definition expand_location_word (word : string) : string :=
  match (if PyStr.len word =? 2 then PyStr.dict_get STATE_ABBREVIATIONS word
         else None) with
  | Some state => state
  | None =>
      match PyStr.dict_get LOCATION_NORMALIZATIONS word with
      | Some place => place
      | None => word
      end
  end.

Definition normalize_location (location : string) : string :=
  if negb (PyStr.truthy location) then "unknown"
  else
    let normalized := PyStr.lower location in
    match PyStr.dict_get LOCATION_NORMALIZATIONS normalized with
    | Some place => place
    | None =>
        let normalized :=
          PyStr.sub_not_in
            (fun c => PyStr.isword c || PyStr.isspace c || is_comma c) normalized in
        let parts := map PyStr.strip (PyStr.split_on ","%char normalized) in
        let processed_parts :=
          map (fun part =>
                 PyStr.join " " (map expand_location_word (PyStr.split_ws part)))
              parts in
        let normalized := PyStr.join " " processed_parts in
        let normalized := PyStr.strip (PyStr.collapse_ws normalized) in
        if PyStr.truthy normalized then normalized else "unknown"
    end.

Definition create_signature (company_id title location : string) : string :=
  let norm_title := normalize_title title in
  let norm_location := normalize_location location in
  company_id ++ "|" ++ norm_title ++ "|" ++ norm_location.

End JobNormalizer.

(** ** Outcomes of fallible Python code *)

Inductive PyError : Type :=
| OverflowError
| ValueError (offending : Q).

Inductive result (A : Type) : Type :=
| Ok (a : A)
| Raise (e : PyError).

Arguments Ok {A} a.
Arguments Raise {A} e.

Definition bind {A B : Type} (r : result A) (k : A -> result B) : result B :=
  match r with
  | Ok a => k a
  | Raise e => Raise e
  end.

Notation "x <- r ;; k" := (bind r (fun x => k))
  (at level 61, r at next level, right associativity).

(** ** datetime, timedelta(days=...) and the two renderings the sources use *)

Module PyTime.

Definition datetime : Type := Z.

Definition us_per_second : Z := 1000000.
Definition us_per_day : Z := 86400 * us_per_second.

(** [date.max.toordinal()] *)
Definition max_ordinal : Z := 3652059.

Definition in_range (t : Z) : bool :=
  (0 <=? t) && (t <? max_ordinal * us_per_day).

(** [timedelta(days=d)], as microseconds. *)
Definition timedelta_days (d : Z) : result Z :=
  if Z.abs d <=? 999999999 then Ok (d * us_per_day) else Raise OverflowError.

(** [t - delta] on a [datetime]. *)
Definition sub (t : datetime) (delta : Z) : result datetime :=
  let r := t - delta in
  if in_range r then Ok r else Raise OverflowError.

(** Year, month and day of the day numbered [n] from 0001-01-01 (n = 0). *)
Definition civil_of_days (n : Z) : Z * Z * Z :=
  let z := n + 306 in
  let era := z / 146097 in
  let doe := z - era * 146097 in
  let yoe := (doe - doe / 1460 + doe / 36524 - doe / 146096) / 365 in
  let doy := doe - (365 * yoe + yoe / 4 - yoe / 100) in
  let mp := (5 * doy + 2) / 153 in
  let d := doy - (153 * mp + 2) / 5 + 1 in
  let m := if mp <? 10 then mp + 3 else mp - 9 in
  let y := yoe + era * 400 + (if m <=? 2 then 1 else 0) in
  (y, m, d).

Definition decimal (n : Z) : string := NilZero.string_of_int (Z.to_int n).

Fixpoint zeros (k : nat) : string :=
  match k with
  | O => EmptyString
  | S k' => String "0"%char (zeros k')
  end.

(** ["%0wd" % n] for a non-negative [n]. *)
Definition zfill (w : nat) (n : Z) : string :=
  let s := decimal n in
  zeros (w - String.length s) ++ s.

(** [str(t.date())] *)
Definition date_str (t : datetime) : string :=
  let '(y, m, d) := civil_of_days (t / us_per_day) in
  zfill 4 y ++ "-" ++ zfill 2 m ++ "-" ++ zfill 2 d.

(** [t.isoformat()] *)
Definition isoformat (t : datetime) : string :=
  let us_of_day := t mod us_per_day in
  let secs := us_of_day / us_per_second in
  let us := us_of_day mod us_per_second in
  date_str t ++ "T" ++ zfill 2 (secs / 3600) ++ ":"
    ++ zfill 2 ((secs / 60) mod 60) ++ ":" ++ zfill 2 (secs mod 60)
    ++ (if us =? 0 then "" else "." ++ zfill 6 us).

(** [datetime(y, m, d, hh, mm, ss)] through the inverse day count. *)
Definition days_before_year (y : Z) : Z :=
  let y' := y - 1 in
  y' * 365 + y' / 4 - y' / 100 + y' / 400.

Definition is_leap (y : Z) : bool :=
  ((y mod 4 =? 0) && negb (y mod 100 =? 0)) || (y mod 400 =? 0).

Definition days_before_month (y m : Z) : Z :=
  nth (Z.to_nat (m - 1)) [0; 31; 59; 90; 120; 151; 181; 212; 243; 273; 304; 334] 0
  + (if (2 <? m) && is_leap y then 1 else 0).

Definition mk (y m d hh mm ss : Z) : datetime :=
  (days_before_year y + days_before_month y m + (d - 1)) * us_per_day
  + ((hh * 60 + mm) * 60 + ss) * us_per_second.

End PyTime.

(** ** The string metrics of the fuzzy-matching library

    [matcher.py] delegates string similarity to three functions of the
    external library rapidfuzz, each returning a score on the scale 0..100.
    The matcher and the classifier are written against this interface. *)

Module Fuzz.

Class StringMetric : Type := {
  ratio : string -> string -> Q;
  token_sort_ratio : string -> string -> Q;
  token_set_ratio : string -> string -> Q
}.

(** What the matcher relies on: the scale, full score on equal inputs, and
    the library's convention that [token_set_ratio] scores 0 against a
    string without tokens. *)
Class Lawful (M : StringMetric) : Prop := {
  ratio_range : forall a b, (0 <= ratio a b /\ ratio a b <= 100)%Q;
  token_sort_range :
    forall a b, (0 <= token_sort_ratio a b /\ token_sort_ratio a b <= 100)%Q;
  token_set_range :
    forall a b, (0 <= token_set_ratio a b /\ token_set_ratio a b <= 100)%Q;
  ratio_same : forall a, (ratio a a == 100)%Q;
  token_sort_same : forall a, (token_sort_ratio a a == 100)%Q;
  token_set_same :
    forall a, PyStr.split_ws a <> [] -> (token_set_ratio a a == 100)%Q;
  token_set_no_tokens :
    forall a b, PyStr.split_ws a = [] \/ PyStr.split_ws b = [] ->
                (token_set_ratio a b == 0)%Q
}.

End Fuzz.

(** The library's algorithms (rapidfuzz 3.x, default arguments: no processor,
    no score cutoff): [ratio] is the normalized Indel similarity, computed
    from the length of a longest common subsequence. *)

Module RapidFuzz.

(** Length of a longest common subsequence, by the textbook recurrence. *)
Fixpoint lcs_spec (x y : string) {struct x} : Z :=
  match x with
  | EmptyString => 0
  | String a x' =>
      (fix against (y : string) : Z :=
         match y with
         | EmptyString => 0
         | String b y' =>
             if Ascii.eqb a b then 1 + lcs_spec x' y'
             else Z.max (lcs_spec x' y) (against y')
         end) y
  end.

(** A string and its suffixes, longest first. *)
Fixpoint suffixes (y : string) : list string :=
  match y with
  | EmptyString => [EmptyString]
  | String _ y' => y :: suffixes y'
  end.

(** The same length by dynamic programming, one row per character of [x];
    a row lists the values for [y] and each of its suffixes. *)
Fixpoint zero_row (y : string) : list Z :=
  match y with
  | EmptyString => [0]
  | String _ y' => 0 :: zero_row y'
  end.

Fixpoint lcs_row (a : ascii) (y : string) (prev : list Z) : list Z :=
  match y, prev with
  | String b y', p :: prev' =>
      let rest := lcs_row a y' prev' in
      (if Ascii.eqb a b then 1 + hd 0 prev' else Z.max p (hd 0 rest)) :: rest
  | _, _ => [0]
  end.

Fixpoint lcs_rows (x y : string) : list Z :=
  match x with
  | EmptyString => zero_row y
  | String a x' => lcs_row a y (lcs_rows x' y)
  end.

Definition lcs (x y : string) : Z := hd 0 (lcs_rows x y).

Definition indel_distance (s1 s2 : string) : Z :=
  PyStr.len s1 + PyStr.len s2 - 2 * lcs s1 s2.

(** [100 - 100 * dist / lensum], or 100 when [lensum] is 0. *)
Definition norm_distance (dist lensum : Z) : Q :=
  if lensum =? 0 then 100%Q
  else Qmake (100 * (lensum - dist)) (Z.to_pos lensum).

Definition ratio (s1 s2 : string) : Q :=
  norm_distance (indel_distance s1 s2) (PyStr.len s1 + PyStr.len s2).

Definition token_sort_ratio (s1 s2 : string) : Q :=
  let sorted_s1 := PyStr.join " " (PyStr.sorted (PyStr.split_ws s1)) in
  let sorted_s2 := PyStr.join " " (PyStr.sorted (PyStr.split_ws s2)) in
  ratio sorted_s1 sorted_s2.

Fixpoint mem (x : string) (l : list string) : bool :=
  match l with
  | [] => false
  | y :: l' => String.eqb x y || mem x l'
  end.

(** [set(tokens)], kept as a duplicate-free list. *)
Fixpoint to_set (l : list string) : list string :=
  match l with
  | [] => []
  | x :: l' => if mem x l' then to_set l' else x :: to_set l'
  end.

Definition intersection (a b : list string) : list string :=
  filter (fun x => mem x b) a.

Definition difference (a b : list string) : list string :=
  filter (fun x => negb (mem x b)) a.

Definition is_empty {A : Type} (l : list A) : bool :=
  match l with [] => true | _ => false end.

Definition qmax (a b : Q) : Q := if Qle_bool a b then b else a.

Definition token_set_ratio (s1 s2 : string) : Q :=
  if negb (PyStr.truthy s1) || negb (PyStr.truthy s2) then 0%Q
  else
    let tokens_a := to_set (PyStr.split_ws s1) in
    let tokens_b := to_set (PyStr.split_ws s2) in
    if is_empty tokens_a || is_empty tokens_b then 0%Q
    else
      let intersect := intersection tokens_a tokens_b in
      let diff_ab := difference tokens_a tokens_b in
      let diff_ba := difference tokens_b tokens_a in
      if negb (is_empty intersect) && (is_empty diff_ab || is_empty diff_ba)
      then 100%Q
      else
        let diff_ab_joined := PyStr.join " " (PyStr.sorted diff_ab) in
        let diff_ba_joined := PyStr.join " " (PyStr.sorted diff_ba) in
        let ab_len := PyStr.len diff_ab_joined in
        let ba_len := PyStr.len diff_ba_joined in
        let sect_len := PyStr.len (PyStr.join " " intersect) in
        let sep := if sect_len =? 0 then 0 else 1 in
        let sect_ab_len := sect_len + sep + ab_len in
        let sect_ba_len := sect_len + sep + ba_len in
        let dist := indel_distance diff_ab_joined diff_ba_joined in
        let result := norm_distance dist (sect_ab_len + sect_ba_len) in
        if sect_len =? 0 then result
        else
          let sect_ab_ratio := norm_distance (sep + ab_len) (sect_len + sect_ab_len) in
          let sect_ba_ratio := norm_distance (sep + ba_len) (sect_len + sect_ba_len) in
          qmax (qmax result sect_ab_ratio) sect_ba_ratio.

#[export] Instance metric : Fuzz.StringMetric := {|
  Fuzz.ratio := ratio;
  Fuzz.token_sort_ratio := token_sort_ratio;
  Fuzz.token_set_ratio := token_set_ratio
|}.

End RapidFuzz.

(** ** matcher.py *)

(** The weighted sum of [calculate_similarity] as CPython evaluates it, in
    binary64 arithmetic, kept beside the rational model to check the two agree
    where a claim speaks of an exact value. *)
Module Binary64.

Import PrimFloat.

#[warning="-inexact-float"]
Definition combined (company_score title_score location_score : float) : float :=
  ((0.10 * company_score + 0.60 * title_score + 0.30 * location_score)
   / 100)%float.

End Binary64.

Module JobMatcher.

Record t : Type := { similarity_threshold : Q }.

(** [JobMatcher.__init__] *)
Definition init (similarity_threshold : Q) : result t :=
  if negb (Qle_bool 0 similarity_threshold && Qle_bool similarity_threshold 1)
  then Raise (ValueError similarity_threshold)
  else Ok {| similarity_threshold := similarity_threshold |}.

(** [a > b] on scores. *)
Definition Qgtb (a b : Q) : bool := negb (Qle_bool a b).

Section WithMetric.

Context {M : Fuzz.StringMetric}.

Definition calculate_similarity (signature1 signature2 : string) : Q :=
  let parts1 := PyStr.split_on "|"%char signature1 in
  let parts2 := PyStr.split_on "|"%char signature2 in
  if negb (Nat.eqb (List.length parts1) 3) || negb (Nat.eqb (List.length parts2) 3)
  then
    let score := Fuzz.token_set_ratio signature1 signature2 in
    (score / 100)%Q
  else
    let company1 := nth 0 parts1 "" in
    let title1 := nth 1 parts1 "" in
    let location1 := nth 2 parts1 "" in
    let company2 := nth 0 parts2 "" in
    let title2 := nth 1 parts2 "" in
    let location2 := nth 2 parts2 "" in
    let company_score := Fuzz.ratio company1 company2 in
    let title_score := Fuzz.token_sort_ratio title1 title2 in
    let location_score := Fuzz.ratio location1 location2 in
    let combined_score :=
      ((1 # 10) * company_score + (6 # 10) * title_score
       + (3 # 10) * location_score)%Q in
    (combined_score / 100)%Q.

Definition is_match (self : t) (signature1 signature2 : string) : bool :=
  let similarity := calculate_similarity signature1 signature2 in
  Qle_bool (similarity_threshold self) similarity.

(** The scan of [find_best_match]: the running best match and score. *)
Fixpoint scan (query_signature : string) (candidate_signatures : list string)
         (best_match : option string) (best_score : Q) : option string * Q :=
  match candidate_signatures with
  | [] => (best_match, best_score)
  | candidate :: rest =>
      let score := calculate_similarity query_signature candidate in
      if Qgtb score best_score
      then scan query_signature rest (Some candidate) score
      else scan query_signature rest best_match best_score
  end.

(** [find_best_match(..., return_score=True)] *)
Definition find_best_match_with_score (self : t) (query_signature : string)
           (candidate_signatures : list string) : option string * Q :=
  match candidate_signatures with
  | [] => (None, 0%Q)
  | _ =>
      let '(best_match, best_score) :=
        scan query_signature candidate_signatures None 0%Q in
      if Qle_bool (similarity_threshold self) best_score
      then (best_match, best_score)
      else (None, best_score)
  end.

(** [find_best_match(...)] with the default [return_score=False] *)
Definition find_best_match (self : t) (query_signature : string)
           (candidate_signatures : list string) : option string :=
  fst (find_best_match_with_score self query_signature candidate_signatures).

(** [matches.sort(key=lambda x: x[1], reverse=True)]: by score, highest
    first; the sort is stable, equal scores keep their order. *)
Fixpoint insert_by_score (x : string * Q) (l : list (string * Q))
  : list (string * Q) :=
  match l with
  | [] => [x]
  | y :: l' =>
      if Qle_bool (snd y) (snd x) then x :: l else y :: insert_by_score x l'
  end.

Definition sort_by_score_desc (l : list (string * Q)) : list (string * Q) :=
  fold_right insert_by_score [] l.

Definition find_all_matches (self : t) (query_signature : string)
           (candidate_signatures : list string) (limit : option Z)
  : list (string * Q) :=
  match candidate_signatures with
  | [] => []
  | _ =>
      let scored :=
        map (fun candidate =>
               (candidate, calculate_similarity query_signature candidate))
            candidate_signatures in
      let matches :=
        filter (fun m => Qle_bool (similarity_threshold self) (snd m)) scored in
      let matches := sort_by_score_desc matches in
      match limit with
      | Some n => if 0 <? n then firstn (Z.to_nat n) matches else matches
      | None => matches
      end
  end.

End WithMetric.

End JobMatcher.

(** ** adapters/base.py: the raw observation *)

Module RawJob.

Record t : Type := {
  company_id : string;
  company_name : string;
  title : string;
  location : string;
  url : string;
  source_identifier : option string;
  posted_date : option PyTime.datetime;
  updated_date : option PyTime.datetime;
  department : option string;
  description : option string
}.

End RawJob.

(** ** classifier.py: the tracked job *)

Inductive JobClassification : Type := NEW | REPOST | EXISTING.

Inductive JobStatus : Type := ACTIVE | MISSING | CLOSED | REOPENED.

Definition JobStatus_eqb (a b : JobStatus) : bool :=
  match a, b with
  | ACTIVE, ACTIVE | MISSING, MISSING | CLOSED, CLOSED | REOPENED, REOPENED => true
  | _, _ => false
  end.

(** One entry of [observations]: the keys "timestamp", "source_identifier",
    "url" and, on reopening only, "note". *)
Record Observation : Type := {
  timestamp : string;
  obs_source_identifier : option string;
  obs_url : string;
  note : option string
}.

Module ClassifiedJob.

Record t : Type := {
  id : string;
  company_id : string;
  company_name : string;
  title : string;
  location : string;
  url : string;
  signature : string;
  classification : JobClassification;
  classification_reasoning : string;
  status : JobStatus;
  first_seen : PyTime.datetime;
  last_seen : PyTime.datetime;
  observations : list Observation;
  source_identifier : option string;
  department : option string;
  description : option string;
  created_at : option PyTime.datetime;
  updated_at : option PyTime.datetime
}.

(** Attribute assignments [job.field = v]. *)
Definition set_status (v : JobStatus) (j : t) : t :=
  {| id := id j; company_id := company_id j; company_name := company_name j;
     title := title j; location := location j; url := url j;
     signature := signature j; classification := classification j;
     classification_reasoning := classification_reasoning j; status := v;
     first_seen := first_seen j; last_seen := last_seen j;
     observations := observations j; source_identifier := source_identifier j;
     department := department j; description := description j;
     created_at := created_at j; updated_at := updated_at j |}.

Definition set_last_seen (v : PyTime.datetime) (j : t) : t :=
  {| id := id j; company_id := company_id j; company_name := company_name j;
     title := title j; location := location j; url := url j;
     signature := signature j; classification := classification j;
     classification_reasoning := classification_reasoning j; status := status j;
     first_seen := first_seen j; last_seen := v;
     observations := observations j; source_identifier := source_identifier j;
     department := department j; description := description j;
     created_at := created_at j; updated_at := updated_at j |}.

Definition set_updated_at (v : PyTime.datetime) (j : t) : t :=
  {| id := id j; company_id := company_id j; company_name := company_name j;
     title := title j; location := location j; url := url j;
     signature := signature j; classification := classification j;
     classification_reasoning := classification_reasoning j; status := status j;
     first_seen := first_seen j; last_seen := last_seen j;
     observations := observations j; source_identifier := source_identifier j;
     department := department j; description := description j;
     created_at := created_at j; updated_at := Some v |}.

Definition set_url (v : string) (j : t) : t :=
  {| id := id j; company_id := company_id j; company_name := company_name j;
     title := title j; location := location j; url := v;
     signature := signature j; classification := classification j;
     classification_reasoning := classification_reasoning j; status := status j;
     first_seen := first_seen j; last_seen := last_seen j;
     observations := observations j; source_identifier := source_identifier j;
     department := department j; description := description j;
     created_at := created_at j; updated_at := updated_at j |}.

Definition set_source_identifier (v : option string) (j : t) : t :=
  {| id := id j; company_id := company_id j; company_name := company_name j;
     title := title j; location := location j; url := url j;
     signature := signature j; classification := classification j;
     classification_reasoning := classification_reasoning j; status := status j;
     first_seen := first_seen j; last_seen := last_seen j;
     observations := observations j; source_identifier := v;
     department := department j; description := description j;
     created_at := created_at j; updated_at := updated_at j |}.

Definition set_classification_reasoning (v : string) (j : t) : t :=
  {| id := id j; company_id := company_id j; company_name := company_name j;
     title := title j; location := location j; url := url j;
     signature := signature j; classification := classification j;
     classification_reasoning := v; status := status j;
     first_seen := first_seen j; last_seen := last_seen j;
     observations := observations j; source_identifier := source_identifier j;
     department := department j; description := description j;
     created_at := created_at j; updated_at := updated_at j |}.

(** [job.observations.append(o)] *)
Definition append_observation (o : Observation) (j : t) : t :=
  {| id := id j; company_id := company_id j; company_name := company_name j;
     title := title j; location := location j; url := url j;
     signature := signature j; classification := classification j;
     classification_reasoning := classification_reasoning j; status := status j;
     first_seen := first_seen j; last_seen := last_seen j;
     observations := observations j ++ [o];
     source_identifier := source_identifier j;
     department := department j; description := description j;
     created_at := created_at j; updated_at := updated_at j |}.

End ClassifiedJob.

(** ** The insertion-ordered dict [known_jobs] *)

Module JobDict.

Definition t : Type := list (string * ClassifiedJob.t).

(** A reference to a job object held by the dict: its position. *)
Definition ref : Type := (nat * ClassifiedJob.t)%type.

Fixpoint values_from (i : nat) (d : t) : list ref :=
  match d with
  | [] => []
  | (_, job) :: d' => (i, job) :: values_from (S i) d'
  end.

(** [d.values()], each job with its reference. *)
Definition values (d : t) : list ref := values_from 0 d.

(** [d[key] = job]: an existing key keeps its place, a new key goes last. *)
Fixpoint set (key : string) (job : ClassifiedJob.t) (d : t) : t :=
  match d with
  | [] => [(key, job)]
  | (k, j) :: d' =>
      if String.eqb k key then (k, job) :: d' else (k, j) :: set key job d'
  end.

(** The effect of mutating in place the job object at position [i]. *)
Fixpoint store (i : nat) (job : ClassifiedJob.t) (d : t) : t :=
  match d, i with
  | [], _ => []
  | (k, _) :: d', O => (k, job) :: d'
  | kj :: d', S i' => kj :: store i' job d'
  end.

End JobDict.

(** ** classifier.py: the classifier *)

Module JobClassifier.

Import ClassifiedJob.

Record t : Type := {
  repost_window_days : Z;
  matcher : JobMatcher.t;
  known_jobs : JobDict.t
}.

Definition with_known_jobs (self : t) (d : JobDict.t) : t :=
  {| repost_window_days := repost_window_days self;
     matcher := matcher self;
     known_jobs := d |}.

(** [JobClassifier.__init__] *)
Definition init (repost_window_days : Z) (similarity_threshold : Q) : result t :=
  m <- JobMatcher.init similarity_threshold ;;
  Ok {| repost_window_days := repost_window_days;
        matcher := m;
        known_jobs := [] |}.

Definition option_string_eqb (a b : option string) : bool :=
  match a, b with
  | Some x, Some y => String.eqb x y
  | None, None => true
  | _, _ => false
  end.

(** [f"{x:.2f}"] for a non-negative score: two decimals, ties to even. *)
Definition round_half_even (q : Q) : Z :=
  let n := Qnum q in
  let d := Zpos (Qden q) in
  let fl := n / d in
  let r := n mod d in
  if 2 * r <? d then fl
  else if d <? 2 * r then fl + 1
  else if Z.even fl then fl else fl + 1.

Definition format_2f (q : Q) : string :=
  let n := round_half_even (q * 100)%Q in
  PyTime.decimal (n / 100) ++ "." ++ PyTime.zfill 2 (n mod 100).

(** The observation every path records. *)
Definition observation_of (raw_job : RawJob.t) (current_time : PyTime.datetime)
           (note : option string) : Observation :=
  {| timestamp := PyTime.isoformat current_time;
     obs_source_identifier := RawJob.source_identifier raw_job;
     obs_url := RawJob.url raw_job;
     note := note |}.

(** The test of the scan of [_find_by_source_id] on one job. *)
Definition same_source (company_id : string) (sid : string) (job : ClassifiedJob.t)
  : bool :=
  String.eqb (ClassifiedJob.company_id job) company_id
  && option_string_eqb (ClassifiedJob.source_identifier job) (Some sid).

Definition _find_by_source_id (self : t) (company_id : string)
           (source_identifier : option string) : option JobDict.ref :=
  match source_identifier with
  | None => None
  | Some sid =>
      if negb (PyStr.truthy sid) then None
      else
        find (fun r : JobDict.ref => same_source company_id sid (snd r))
             (JobDict.values (known_jobs self))
  end.

(** The list comprehension [recent_jobs] of [_find_similar_recent_job]. *)
Definition recent_jobs (self : t) (company_id : string)
           (cutoff_time : PyTime.datetime) : list JobDict.ref :=
  filter (fun r : JobDict.ref =>
            String.eqb (ClassifiedJob.company_id (snd r)) company_id
            && (cutoff_time <=? last_seen (snd r))
            && negb (JobStatus_eqb (status (snd r)) CLOSED))
         (JobDict.values (known_jobs self)).

(** The list comprehension [closed_jobs] of [_find_closed_similar_job]. *)
Definition closed_jobs (self : t) (company_id : string) : list JobDict.ref :=
  filter (fun r : JobDict.ref =>
            String.eqb (ClassifiedJob.company_id (snd r)) company_id
            && JobStatus_eqb (status (snd r)) CLOSED)
         (JobDict.values (known_jobs self)).

(** [current_time - timedelta(days=days)] *)
Definition cutoff (current_time : PyTime.datetime) (days : Z)
  : result PyTime.datetime :=
  delta <- PyTime.timedelta_days days ;;
  PyTime.sub current_time delta.

Section WithMetric.

Context {M : Fuzz.StringMetric}.

(** The tail shared by the two similarity searches: best signature among
    the candidates, then the first candidate carrying it. *)
Definition best_among (self : t) (signature : string)
           (jobs : list JobDict.ref) : option JobDict.ref :=
  match jobs with
  | [] => None
  | _ =>
      let signatures := map (fun r : JobDict.ref => ClassifiedJob.signature (snd r)) jobs in
      match JobMatcher.find_best_match (matcher self) signature signatures with
      | Some best_match =>
          if PyStr.truthy best_match
          then find (fun r : JobDict.ref =>
                       String.eqb (ClassifiedJob.signature (snd r)) best_match)
                    jobs
          else None
      | None => None
      end
  end.

Definition _find_similar_recent_job (self : t) (signature company_id : string)
           (current_time : PyTime.datetime) : result (option JobDict.ref) :=
  cutoff_time <- cutoff current_time (repost_window_days self) ;;
  Ok (best_among self signature (recent_jobs self company_id cutoff_time)).

Definition _find_closed_similar_job (self : t) (signature company_id : string)
  : option JobDict.ref :=
  best_among self signature (closed_jobs self company_id).

Definition _update_existing_job (self : t) (existing_job : JobDict.ref)
           (raw_job : RawJob.t) (current_time : PyTime.datetime)
  : t * result ClassifiedJob.t :=
  let '(i, job) := existing_job in
  let job := set_last_seen current_time job in
  let job := set_updated_at current_time job in
  let job := append_observation (observation_of raw_job current_time None) job in
  let job :=
    if JobStatus_eqb (status job) MISSING then set_status ACTIVE job else job in
  (with_known_jobs self (JobDict.store i job (known_jobs self)), Ok job).

Definition fresh_job (raw_job : RawJob.t) (signature : string)
           (current_time : PyTime.datetime) (job_id : string)
           (classification : JobClassification) (reasoning : string)
  : ClassifiedJob.t :=
  {| id := job_id;
     company_id := RawJob.company_id raw_job;
     company_name := RawJob.company_name raw_job;
     title := RawJob.title raw_job;
     location := RawJob.location raw_job;
     url := RawJob.url raw_job;
     signature := signature;
     classification := classification;
     classification_reasoning := reasoning;
     status := ACTIVE;
     first_seen := current_time;
     last_seen := current_time;
     observations := [observation_of raw_job current_time None];
     source_identifier := RawJob.source_identifier raw_job;
     department := RawJob.department raw_job;
     description := RawJob.description raw_job;
     created_at := Some current_time;
     updated_at := Some current_time |}.

Definition _classify_as_new (self : t) (raw_job : RawJob.t) (signature : string)
           (current_time : PyTime.datetime) (uuid4 : string)
  : t * result ClassifiedJob.t :=
  let job_id := uuid4 in
  let classified :=
    fresh_job raw_job signature current_time job_id NEW
              "New job posting (no previous match found)" in
  (with_known_jobs self (JobDict.set job_id classified (known_jobs self)),
   Ok classified).

Definition _classify_as_repost (self : t) (raw_job : RawJob.t)
           (signature : string) (similar_job : JobDict.ref)
           (current_time : PyTime.datetime) (uuid4 : string)
  : t * result ClassifiedJob.t :=
  let job_id := uuid4 in
  let similarity :=
    JobMatcher.calculate_similarity signature
                                    (ClassifiedJob.signature (snd similar_job)) in
  let classified :=
    fresh_job raw_job signature current_time job_id REPOST
              ("Likely repost of job " ++ id (snd similar_job)
               ++ " (similarity: " ++ format_2f similarity
               ++ ", first seen: " ++ PyTime.date_str (first_seen (snd similar_job))
               ++ ")") in
  (with_known_jobs self (JobDict.set job_id classified (known_jobs self)),
   Ok classified).

Definition _classify_as_reopened (self : t) (raw_job : RawJob.t)
           (signature : string) (closed_job : JobDict.ref)
           (current_time : PyTime.datetime)
  : t * result ClassifiedJob.t :=
  let '(i, job) := closed_job in
  let job := set_status REOPENED job in
  let job := set_last_seen current_time job in
  let job := set_updated_at current_time job in
  let job := set_url (RawJob.url raw_job) job in
  let job := set_source_identifier (RawJob.source_identifier raw_job) job in
  let job :=
    append_observation
      (observation_of raw_job current_time (Some "Job reopened")) job in
  let job :=
    set_classification_reasoning
      ("Job reopened (was closed on " ++ PyTime.date_str (last_seen job)
       ++ ", originally first seen " ++ PyTime.date_str (first_seen job) ++ ")")
      job in
  (with_known_jobs self (JobDict.store i job (known_jobs self)), Ok job).

(** [classify_job(raw_job, current_time)]; [uuid4] is the identifier
    [uuid.uuid4()] yields if this call creates a record. *)
Definition classify_job (self : t) (raw_job : RawJob.t)
           (current_time : PyTime.datetime) (uuid4 : string)
  : t * result ClassifiedJob.t :=
  let signature :=
    JobNormalizer.create_signature (RawJob.company_id raw_job)
                                   (RawJob.title raw_job)
                                   (RawJob.location raw_job) in
  match _find_by_source_id self (RawJob.company_id raw_job)
                           (RawJob.source_identifier raw_job) with
  | Some existing_job =>
      _update_existing_job self existing_job raw_job current_time
  | None =>
      match _find_similar_recent_job self signature
                                     (RawJob.company_id raw_job) current_time with
      | Raise e => (self, Raise e)
      | Ok (Some similar_job) =>
          _classify_as_repost self raw_job signature similar_job
                              current_time uuid4
      | Ok None =>
          match _find_closed_similar_job self signature
                                         (RawJob.company_id raw_job) with
          | Some closed_job =>
              _classify_as_reopened self raw_job signature closed_job
                                    current_time
          | None => _classify_as_new self raw_job signature current_time uuid4
          end
      end
  end.

End WithMetric.

(** [job_id not in observed_job_ids] *)
Definition observed (observed_job_ids : list string) (job_id : string) : bool :=
  existsb (String.eqb job_id) observed_job_ids.

(** The loop of [mark_missing_jobs] over [known_jobs.items()]. *)
Fixpoint mark_missing_loop (items : JobDict.t) (observed_job_ids : list string)
         (current_time : PyTime.datetime) : JobDict.t * Z :=
  match items with
  | [] => ([], 0)
  | (job_id, job) :: rest =>
      let '(rest', marked_count) :=
        mark_missing_loop rest observed_job_ids current_time in
      if negb (observed observed_job_ids job_id)
         && JobStatus_eqb (status job) ACTIVE
      then ((job_id, set_updated_at current_time (set_status MISSING job)) :: rest',
            marked_count + 1)
      else ((job_id, job) :: rest', marked_count)
  end.

Definition mark_missing_jobs (self : t) (observed_job_ids : list string)
           (current_time : PyTime.datetime) : t * Z :=
  let '(jobs, marked_count) :=
    mark_missing_loop (known_jobs self) observed_job_ids current_time in
  (with_known_jobs self jobs, marked_count).

(** The loop of [close_old_missing_jobs] over [known_jobs.values()]. *)
Fixpoint close_old_loop (items : JobDict.t) (cutoff_time : PyTime.datetime)
         (current_time : PyTime.datetime) : JobDict.t * Z :=
  match items with
  | [] => ([], 0)
  | (job_id, job) :: rest =>
      let '(rest', closed_count) := close_old_loop rest cutoff_time current_time in
      if JobStatus_eqb (status job) MISSING && (last_seen job <? cutoff_time)
      then ((job_id, set_updated_at current_time (set_status CLOSED job)) :: rest',
            closed_count + 1)
      else ((job_id, job) :: rest', closed_count)
  end.

Definition close_old_missing_jobs (self : t) (timeout_days : Z)
           (current_time : PyTime.datetime) : t * result Z :=
  match cutoff current_time timeout_days with
  | Raise e => (self, Raise e)
  | Ok cutoff_time =>
      let '(jobs, closed_count) :=
        close_old_loop (known_jobs self) cutoff_time current_time in
      (with_known_jobs self jobs, Ok closed_count)
  end.

(** The key and the [classification] of every tracked job, in dict order. *)
Definition classifications (self : t) : list (string * JobClassification) :=
  map (fun kj : string * ClassifiedJob.t => (fst kj, classification (snd kj)))
      (known_jobs self).

End JobClassifier.

(** ** Predicates on text used to state properties of the normalizer *)

Module Text.

Fixpoint all_chars (p : ascii -> bool) (s : string) : bool :=
  match s with
  | EmptyString => true
  | String c s' => p c && all_chars p s'
  end.

(** A word character of [\w] or a blank. *)
Definition clean (c : ascii) : bool := PyStr.isword c || Ascii.eqb c " "%char.

Definition not_pipe (c : ascii) : bool := negb (Ascii.eqb c "|"%char).

(** Every whitespace character is a blank that does not follow another
    whitespace character ([prev_space] tells what precedes [s]). *)
Fixpoint spaced (prev_space : bool) (s : string) : bool :=
  match s with
  | EmptyString => true
  | String c s' =>
      if PyStr.isspace c
      then Ascii.eqb c " "%char && negb prev_space && spaced true s'
      else spaced false s'
  end.

Fixpoint no_trailing_space (s : string) : bool :=
  match s with
  | EmptyString => true
  | String c s' =>
      match s' with
      | EmptyString => negb (PyStr.isspace c)
      | String _ _ => no_trailing_space s'
      end
  end.

Definition nonword (c : ascii) : bool := negb (PyStr.isword c).

Fixpoint has_word (s : string) : bool :=
  match s with
  | EmptyString => false
  | String c s' => PyStr.isword c || has_word s'
  end.

(** The words of [s] joined by single blanks. *)
Definition rejoined (s : string) : string := PyStr.join " " (PyStr.split_ws s).

(** A non-empty text of word characters and single blanks between words. *)
Definition well_formed (v : string) : bool :=
  all_chars clean v && String.eqb (rejoined v) v && PyStr.truthy v.

End Text.

(** ** The order of the list [find_all_matches] returns *)

Module Ranking.

(** [a] may stand before [b]: its score is not lower. *)
Definition before (a b : string * Q) : Prop := (snd b <= snd a)%Q.

End Ranking.

(** ** Vocabulary for the properties of the tracked jobs *)

Module Tracked.

Import ClassifiedJob.

(** The fields no operation assigns once the record exists. *)
Definition identity (j : ClassifiedJob.t) :=
  (id j, company_id j, company_name j, title j, location j, signature j,
   classification j, first_seen j, department j, description j, created_at j).

(** Everything the end-of-cycle sweeps leave alone: all fields but [status]
    and [updated_at]. *)
Definition unswept (j : ClassifiedJob.t) :=
  (identity j, url j, classification_reasoning j, last_seen j, observations j,
   source_identifier j).

(** The status changes [classify_job] can make to a tracked job. *)
Definition observed_step (before after : JobStatus) : Prop :=
  before = after
  \/ (before = MISSING /\ after = ACTIVE)
  \/ (before = CLOSED /\ after = REOPENED).

Definition keys (d : JobDict.t) : list string := map fst d.

(** Every job is stored under its own [id]. *)
Definition keyed_by_id (d : JobDict.t) : Prop :=
  Forall (fun kj : string * ClassifiedJob.t => fst kj = id (snd kj)) d.

(** No two jobs of one company carry the same non-empty source identifier. *)
Definition unique_source_ids (d : JobDict.t) : Prop :=
  forall i i' k k' j j' sid,
    nth_error d i = Some (k, j) ->
    nth_error d i' = Some (k', j') ->
    company_id j = company_id j' ->
    source_identifier j = Some sid ->
    source_identifier j' = Some sid ->
    sid <> "" ->
    i = i'.

(** The signature [classify_job] computes for a raw job. *)
Definition signature_of (raw_job : RawJob.t) : string :=
  JobNormalizer.create_signature (RawJob.company_id raw_job)
                                 (RawJob.title raw_job)
                                 (RawJob.location raw_job).

(** The job [_update_existing_job] leaves in place of [j]. *)
Definition observed_again (raw_job : RawJob.t) (current_time : PyTime.datetime)
           (j : ClassifiedJob.t) : ClassifiedJob.t :=
  let j1 :=
    append_observation (JobClassifier.observation_of raw_job current_time None)
                       (set_updated_at current_time (set_last_seen current_time j)) in
  if JobStatus_eqb (status j1) MISSING then set_status ACTIVE j1 else j1.

(** The job [_classify_as_reopened] leaves in place of [j]. *)
Definition reopened (raw_job : RawJob.t) (current_time : PyTime.datetime)
           (j : ClassifiedJob.t) : ClassifiedJob.t :=
  let j5 :=
    append_observation
      (JobClassifier.observation_of raw_job current_time (Some "Job reopened"))
      (set_source_identifier (RawJob.source_identifier raw_job)
         (set_url (RawJob.url raw_job)
            (set_updated_at current_time
               (set_last_seen current_time (set_status REOPENED j))))) in
  set_classification_reasoning
    ("Job reopened (was closed on " ++ PyTime.date_str (last_seen j5)
     ++ ", originally first seen " ++ PyTime.date_str (first_seen j5) ++ ")")
    j5.


(** A key that holds a job which is not Missing. *)
Definition seen (d : JobDict.t) (job_id : string) : Prop :=
  exists i j, nth_error d i = Some (job_id, j) /\ status j <> MISSING.

(** No job carries the classification EXISTING. *)
Definition none_existing (d : JobDict.t) : Prop :=
  Forall (fun kj : string * ClassifiedJob.t => classification (snd kj) <> EXISTING) d.

(** The job [mark_missing_jobs] marks. *)
Definition unobserved_active (observed_job_ids : list string)
           (kj : string * ClassifiedJob.t) : bool :=
  negb (JobClassifier.observed observed_job_ids (fst kj))
  && JobStatus_eqb (status (snd kj)) ACTIVE.

(** The job [close_old_missing_jobs] closes. *)
Definition stale_missing (cutoff_time : PyTime.datetime)
           (kj : string * ClassifiedJob.t) : bool :=
  JobStatus_eqb (status (snd kj)) MISSING && (last_seen (snd kj) <? cutoff_time).

End Tracked.

(** ** orchestrator.py: the classification loop and the lifecycle sweeps

    The adapters and the crawler are outside the model: the loop receives the
    raw jobs they fetched, each with the identifier [uuid.uuid4()] yields if
    [classify_job] creates a record for it. *)

Module Orchestrator.

(** [JobClassification.value] *)
Definition JobClassification_value (c : JobClassification) : string :=
  match c with
  | NEW => "new"
  | REPOST => "repost"
  | EXISTING => "existing"
  end.

(** The dict [classification_counts]. *)
Record counts : Type := { new : Z; repost : Z; existing : Z }.

Definition no_counts : counts := {| new := 0; repost := 0; existing := 0 |}.

(** The jobs counted under any of the three keys. *)
Definition counted (c : counts) : Z := new c + repost c + existing c.

(** [classification_counts[classification_type] += 1] *)
Definition count (classification_type : string) (c : counts) : counts :=
  if String.eqb classification_type "new"
  then {| new := new c + 1; repost := repost c; existing := existing c |}
  else if String.eqb classification_type "repost"
  then {| new := new c; repost := repost c + 1; existing := existing c |}
  else if String.eqb classification_type "existing"
  then {| new := new c; repost := repost c; existing := existing c + 1 |}
  else c.

Section WithMetric.

Context {M : Fuzz.StringMetric}.

(** The loop "for raw_job in all_raw_jobs" of [_process_company]: a call
    that raises is logged and skipped. *)
Fixpoint classify_all (classifier : JobClassifier.t)
         (all_raw_jobs : list (RawJob.t * string))
         (current_time : PyTime.datetime)
         (classified_job_ids : list string) (classification_counts : counts)
  : JobClassifier.t * list string * counts :=
  match all_raw_jobs with
  | [] => (classifier, classified_job_ids, classification_counts)
  | (raw_job, uuid4) :: rest =>
      match JobClassifier.classify_job classifier raw_job current_time uuid4 with
      | (classifier', Ok classified_job) =>
          classify_all classifier' rest current_time
                       (classified_job_ids ++ [ClassifiedJob.id classified_job])
                       (count (JobClassification_value
                                 (ClassifiedJob.classification classified_job))
                              classification_counts)
      | (classifier', Raise _) =>
          classify_all classifier' rest current_time
                       classified_job_ids classification_counts
      end
  end.

(** The lifecycle management of [run]: the two sweeps, at the start time of
    the run, over the ids observed in it. An exception of the second sweep
    is not caught. *)
Definition lifecycle (classifier : JobClassifier.t)
           (all_observed_job_ids : list string) (start_time : PyTime.datetime)
           (close_timeout_days : Z) : JobClassifier.t * result (Z * Z) :=
  let '(classifier, missing_count) :=
    JobClassifier.mark_missing_jobs classifier all_observed_job_ids start_time in
  match JobClassifier.close_old_missing_jobs classifier close_timeout_days
                                             start_time with
  | (classifier, Ok closed_count) => (classifier, Ok (missing_count, closed_count))
  | (classifier, Raise e) => (classifier, Raise e)
  end.

(** What [_process_company] reports on success. *)
Record company_result : Type := {
  jobs_fetched : Z;
  jobs_classified : Z;
  new_jobs : Z;
  repost_jobs : Z;
  existing_jobs : Z;
  observed_job_ids : list string
}.

(** [_process_company] from the fetched jobs on: the classification loop and
    the result returned after it. *)
Definition classify_fetched (classifier : JobClassifier.t)
           (all_raw_jobs : list (RawJob.t * string))
           (current_time : PyTime.datetime) : JobClassifier.t * company_result :=
  let '(classifier, classified_job_ids, classification_counts) :=
    classify_all classifier all_raw_jobs current_time [] no_counts in
  (classifier,
   {| jobs_fetched := Z.of_nat (List.length all_raw_jobs);
      jobs_classified := Z.of_nat (List.length classified_job_ids);
      new_jobs := new classification_counts;
      repost_jobs := repost classification_counts;
      existing_jobs := existing classification_counts;
      observed_job_ids := classified_job_ids |}).

End WithMetric.

End Orchestrator.

(** ** utils/validation.py *)

Module Validation.

Definition is_company_char (c : ascii) : bool :=
  let n := PyStr.ord c in
  PyStr.between 97 122 n || PyStr.between 48 57 n || (n =? 45).

(** [re.match("^[a-z0-9-]+$", s)]: a non-empty run of the class up to the
    end of the string, or up to a newline that ends the string. *)
Fixpoint match_company_pattern_from (seen_one : bool) (s : string) : bool :=
  match s with
  | EmptyString => seen_one
  | String c s' =>
      if is_company_char c then match_company_pattern_from true s'
      else seen_one && Ascii.eqb c "010"%char && negb (PyStr.truthy s')
  end.

Definition match_company_pattern (s : string) : bool :=
  match_company_pattern_from false s.

(** [s.startswith(c)] and [s.endswith(c)] for a one-character [c]. *)
Definition startswith (c : ascii) (s : string) : bool :=
  match s with
  | String d _ => Ascii.eqb d c
  | EmptyString => false
  end.

Fixpoint endswith (c : ascii) (s : string) : bool :=
  match s with
  | EmptyString => false
  | String d s' =>
      match s' with
      | EmptyString => Ascii.eqb d c
      | String _ _ => endswith c s'
      end
  end.

(** ["--" in s] *)
Fixpoint has_double_hyphen (s : string) : bool :=
  match s with
  | EmptyString => false
  | String c s' =>
      (Ascii.eqb c "-"%char && startswith "-"%char s') || has_double_hyphen s'
  end.

Definition validate_company_id (company_id : string) : bool * option string :=
  if negb (PyStr.truthy company_id)
  then (false, Some "Company ID must be a non-empty string")
  else if negb (match_company_pattern company_id)
  then (false, Some "Company ID must be lowercase alphanumeric with hyphens only")
  else if startswith "-"%char company_id || endswith "-"%char company_id
  then (false, Some "Company ID cannot start or end with a hyphen")
  else if has_double_hyphen company_id
  then (false, Some "Company ID cannot contain consecutive hyphens")
  else (true, None).

Definition validate_adapter_type (adapter : string) : bool * option string :=
  let valid_adapters := ["greenhouse"; "lever"; "workday"] in
  if negb (existsb (String.eqb adapter) valid_adapters)
  then (false,
        Some ("Invalid adapter '" ++ adapter ++ "'. Valid: "
              ++ PyStr.join ", " valid_adapters))
  else (true, None).

End Validation.

(** ** storage/job_store.py: loading the tracked jobs *)

Module JobStore.



End JobStore.

(** ** storage/archival.py: retention *)

Module JobArchiver.

Import ClassifiedJob.

Record t : Type := { retention_days : Z }.

(** [key in d] *)
Definition has_key (key : string) (d : JobDict.t) : bool :=
  existsb (fun kj : string * ClassifiedJob.t => String.eqb (fst kj) key) d.

(** [del d[key]] for a key the dict holds. *)
Fixpoint del (key : string) (d : JobDict.t) : JobDict.t :=
  match d with
  | [] => []
  | (k, j) :: d' => if String.eqb k key then d' else (k, j) :: del key d'
  end.

(** The test that puts a job on the list [to_archive]. *)
Definition eligible (cutoff_date : PyTime.datetime)
           (kj : string * ClassifiedJob.t) : bool :=
  JobStatus_eqb (status (snd kj)) CLOSED && (last_seen (snd kj) <? cutoff_date).

(** The loop over [to_archive]. Writing the archive file is an input:
    [written n] tells whether the call of [_archive_job] for the job at
    position [n] of the list returned without an exception. After a write
    that failed, and after a [KeyError] of the [del], the job is logged and
    the loop goes on. *)
Fixpoint archive_loop (to_archive : list ClassifiedJob.t) (written : nat -> bool)
         (n : nat) (jobs : JobDict.t) (archived_count : Z) : JobDict.t * Z :=
  match to_archive with
  | [] => (jobs, archived_count)
  | job :: rest =>
      if written n && has_key (id job) jobs
      then archive_loop rest written (S n) (del (id job) jobs) (archived_count + 1)
      else archive_loop rest written (S n) jobs archived_count
  end.

(** The statistics [archive_old_jobs] returns; the key "cutoff_date" is
    absent when nothing was eligible. *)
Record stats : Type := {
  archived : Z;
  remaining : Z;
  cutoff_date : option string
}.

Definition archive_old_jobs (self : t) (written : nat -> bool) (jobs : JobDict.t)
           (current_time : PyTime.datetime) : JobDict.t * result stats :=
  match JobClassifier.cutoff current_time (retention_days self) with
  | Raise e => (jobs, Raise e)
  | Ok cutoff_date =>
      let to_archive := map snd (filter (eligible cutoff_date) jobs) in
      match to_archive with
      | [] =>
          (jobs,
           Ok {| archived := 0;
                 remaining := Z.of_nat (List.length jobs);
                 cutoff_date := None |})
      | _ =>
          let '(jobs, archived_count) := archive_loop to_archive written 0 jobs 0 in
          (jobs,
           Ok {| archived := archived_count;
                 remaining := Z.of_nat (List.length jobs);
                 cutoff_date := Some (PyTime.isoformat cutoff_date) |})
      end
  end.

End JobArchiver.

(** ** Concrete runs used to exercise the classifier *)

Definition ok_value {A : Type} (r : result A) : option A :=
  match r with
  | Ok a => Some a
  | Raise _ => None
  end.

Module Scenario.

Definition jan15 : PyTime.datetime := PyTime.mk 2024 1 15 12 0 0.
Definition feb01 : PyTime.datetime := PyTime.mk 2024 2 1 9 30 0.
Definition mar15 : PyTime.datetime := PyTime.mk 2024 3 15 12 0 0.

Definition days (n : Z) : Z := n * PyTime.us_per_day.

(** A raw observation of company "acme". *)
Definition observation (title location url : string) (sid : option string)
  : RawJob.t :=
  {| RawJob.company_id := "acme";
     RawJob.company_name := "Acme Corp";
     RawJob.title := title;
     RawJob.location := location;
     RawJob.url := url;
     RawJob.source_identifier := sid;
     RawJob.posted_date := None;
     RawJob.updated_date := None;
     RawJob.department := None;
     RawJob.description := None |}.

(** A tracked job of company "acme", as [_classify_as_new] created it at
    [first_seen] for "Senior Software Engineer" in "San Francisco, CA". *)
Definition tracked (id : string) (status : JobStatus)
           (first_seen last_seen : PyTime.datetime) (sid : option string)
  : ClassifiedJob.t :=
  {| ClassifiedJob.id := id;
     ClassifiedJob.company_id := "acme";
     ClassifiedJob.company_name := "Acme Corp";
     ClassifiedJob.title := "Senior Software Engineer";
     ClassifiedJob.location := "San Francisco, CA";
     ClassifiedJob.url := "https://acme.com/jobs/123";
     ClassifiedJob.signature :=
       "acme|senior software engineer|san francisco california";
     ClassifiedJob.classification := NEW;
     ClassifiedJob.classification_reasoning :=
       "New job posting (no previous match found)";
     ClassifiedJob.status := status;
     ClassifiedJob.first_seen := first_seen;
     ClassifiedJob.last_seen := last_seen;
     ClassifiedJob.observations :=
       [ {| timestamp := PyTime.isoformat first_seen;
            obs_source_identifier := sid;
            obs_url := "https://acme.com/jobs/123";
            note := None |} ];
     ClassifiedJob.source_identifier := sid;
     ClassifiedJob.department := None;
     ClassifiedJob.description := None;
     ClassifiedJob.created_at := Some first_seen;
     ClassifiedJob.updated_at := Some last_seen |}.

(** A classifier with the default window and threshold (30 days, 0.90). *)
Definition classifier (jobs : JobDict.t) : JobClassifier.t :=
  {| JobClassifier.repost_window_days := 30;
     JobClassifier.matcher := {| JobMatcher.similarity_threshold := 9 # 10 |};
     JobClassifier.known_jobs := jobs |}.

Definition same_posting (sid : option string) : RawJob.t :=
  observation "Senior Software Engineer" "San Francisco, CA"
              "https://acme.com/jobs/456" sid.

(** The same role with the state left out of the location. *)
Definition reworded_posting (sid : option string) : RawJob.t :=
  observation "Sr. Software Engineer" "San Francisco"
              "https://acme.com/jobs/789" sid.

Definition closed_job : ClassifiedJob.t :=
  tracked "j1" CLOSED jan15 feb01 (Some "job-123").

Definition reopened_job : ClassifiedJob.t :=
  tracked "j1" REOPENED jan15 mar15 (Some "job-789").

Definition active_job : ClassifiedJob.t :=
  tracked "j1" ACTIVE jan15 jan15 (Some "job-123").

(** A closed job whose source identifier is the empty string. *)
Definition closed_unidentified : ClassifiedJob.t :=
  tracked "j1" CLOSED jan15 feb01 (Some "").

(** A missing job carrying the same source identifier as [closed_job]. *)
Definition missing_twin : ClassifiedJob.t :=
  tracked "j0" MISSING jan15 jan15 (Some "job-123").

(** [closed_job] after the observation [reworded_posting (Some "job-789")] of
    [mar15] reopened it. *)
Definition tracked_after_reopening : ClassifiedJob.t :=
  {| ClassifiedJob.id := "j1";
     ClassifiedJob.company_id := "acme";
     ClassifiedJob.company_name := "Acme Corp";
     ClassifiedJob.title := "Senior Software Engineer";
     ClassifiedJob.location := "San Francisco, CA";
     ClassifiedJob.url := "https://acme.com/jobs/789";
     ClassifiedJob.signature :=
       "acme|senior software engineer|san francisco california";
     ClassifiedJob.classification := NEW;
     ClassifiedJob.classification_reasoning :=
       "Job reopened (was closed on 2024-03-15, originally first seen 2024-01-15)";
     ClassifiedJob.status := REOPENED;
     ClassifiedJob.first_seen := jan15;
     ClassifiedJob.last_seen := mar15;
     ClassifiedJob.observations :=
       [ {| timestamp := "2024-01-15T12:00:00";
            obs_source_identifier := Some "job-123";
            obs_url := "https://acme.com/jobs/123";
            note := None |};
         {| timestamp := "2024-03-15T12:00:00";
            obs_source_identifier := Some "job-789";
            obs_url := "https://acme.com/jobs/789";
            note := Some "Job reopened" |} ];
     ClassifiedJob.source_identifier := Some "job-789";
     ClassifiedJob.department := None;
     ClassifiedJob.description := None;
     ClassifiedJob.created_at := Some jan15;
     ClassifiedJob.updated_at := Some mar15 |}.

(** The signature [create_signature] gives [reworded_posting]. *)
Definition reworded_signature : string :=
  JobNormalizer.create_signature "acme" "Sr. Software Engineer" "San Francisco".

(** [classify_job] with rapidfuzz as the metric. *)
Definition classify (self : JobClassifier.t) (raw_job : RawJob.t)
           (current_time : PyTime.datetime) (uuid4 : string)
  : JobClassifier.t * result ClassifiedJob.t :=
  @JobClassifier.classify_job RapidFuzz.metric self raw_job current_time uuid4.

End Scenario.

(** * Properties *)

(** ** The embedding on the examples of the sources *)

Module Sanity.

(** The docstring examples of [normalizer.py]. *)
Example normalize_title_docstring :
  JobNormalizer.normalize_title "Sr. Software Engineer" = "senior software engineer"
  /\ JobNormalizer.normalize_title "DevOps  Engineer"
     = "development operations engineer"
  /\ JobNormalizer.normalize_title "QA Engineer - Backend"
     = "quality assurance engineer backend".
Proof. repeat split; vm_compute; reflexivity. Qed.

Example normalize_location_docstring :
  JobNormalizer.normalize_location "San Francisco, CA" = "san francisco california"
  /\ JobNormalizer.normalize_location "Remote - US" = "remote"
  /\ JobNormalizer.normalize_location "NYC" = "new york city"
  /\ JobNormalizer.normalize_location "" = "unknown".
Proof. repeat split; vm_compute; reflexivity. Qed.

Example create_signature_docstring :
  JobNormalizer.create_signature "acme-corp" "Sr. Software Engineer"
                                 "San Francisco, CA"
  = "acme-corp|senior software engineer|san francisco california".
Proof. vm_compute; reflexivity. Qed.

(** Dates and timestamps as the tests print them. *)
Example isoformat_examples :
  PyTime.isoformat (PyTime.mk 2024 1 15 12 0 0) = "2024-01-15T12:00:00"
  /\ PyTime.isoformat (PyTime.mk 9999 12 31 23 59 59 + 5)
     = "9999-12-31T23:59:59.000005"
  /\ PyTime.isoformat 0 = "0001-01-01T00:00:00"
  /\ PyTime.date_str (PyTime.mk 2024 2 29 0 0 0) = "2024-02-29"
  /\ PyTime.date_str (PyTime.mk 1900 3 1 0 0 0 - 1) = "1900-02-28".
Proof. repeat split; vm_compute; reflexivity. Qed.

(** [test_calculate_similarity_identical], [test_calculate_similarity_partial]
    and [test_find_best_match_found] of the repository's matcher tests. *)
Example matcher_tests :
  (@JobMatcher.calculate_similarity RapidFuzz.metric
     "acme|senior engineer|san francisco" "acme|senior engineer|san francisco"
   == 1)%Q
  /\ ((7 # 10)
      < @JobMatcher.calculate_similarity RapidFuzz.metric
          "acme|senior engineer|san francisco" "acme|junior engineer|san francisco"
      < 1)%Q
  /\ @JobMatcher.find_best_match RapidFuzz.metric
       {| JobMatcher.similarity_threshold := 85 # 100 |}
       "acme|senior engineer|san francisco"
       ["acme|engineer|boston"; "acme|senior engineer|san francisco";
        "acme|manager|new york"]
     = Some "acme|senior engineer|san francisco".
Proof. repeat split. Qed.

(** [JobClassifier(30, 0.90)] and the refusal of a threshold of 1.5. *)
Example classifier_init :
  JobClassifier.init 30 (9 # 10) = Ok (Scenario.classifier [])
  /\ JobClassifier.init 30 (3 # 2) = Raise (ValueError (3 # 2)).
Proof. split; reflexivity. Qed.

(** [test_classify_repost_outside_window]: 40 days later, New. *)
Example repost_outside_window :
  option_map ClassifiedJob.classification
    (ok_value (snd (Scenario.classify
                      (Scenario.classifier [("j1", Scenario.active_job)])
                      (Scenario.reworded_posting (Some "job-456"))
                      (Scenario.jan15 + Scenario.days 40) "u2")))
  = Some NEW.
Proof. vm_compute; reflexivity. Qed.

End Sanity.

Module Binary64Facts.

Import PrimFloat.

(** In binary64 too, three full component scores combine to exactly 1.0 and
    three zero scores to 0.0. *)
Example combined_binary64 :
  Binary64.combined 100 100 100 = 1%float
  /\ Binary64.combined 0 0 0 = 0%float.
Proof. split; reflexivity. Qed.

End Binary64Facts.

(** ** The string metrics of rapidfuzz satisfy the interface laws *)

Module RapidFuzzFacts.

Import RapidFuzz.

Lemma lcs_spec_nil_r : forall x, lcs_spec x "" = 0.
Proof. destruct x; reflexivity. Qed.

Lemma lcs_spec_cons :
  forall a x b y,
    lcs_spec (String a x) (String b y) =
    if Ascii.eqb a b then 1 + lcs_spec x y
    else Z.max (lcs_spec x (String b y)) (lcs_spec (String a x) y).
Proof. reflexivity. Qed.

Lemma hd_suffixes :
  forall (f : string -> Z) y, hd 0 (map f (suffixes y)) = f y.
Proof. destruct y; reflexivity. Qed.

Lemma zero_row_spec : forall y, zero_row y = map (lcs_spec "") (suffixes y).
Proof. induction y as [|b y IH]; simpl; [reflexivity | now rewrite IH]. Qed.

Lemma lcs_row_spec :
  forall a x y,
    lcs_row a y (map (lcs_spec x) (suffixes y)) =
    map (lcs_spec (String a x)) (suffixes y).
Proof.
  intros a x; induction y as [|b y IH].
  - reflexivity.
  - cbn [suffixes map lcs_row]. rewrite IH, !hd_suffixes, lcs_spec_cons.
    reflexivity.
Qed.

Lemma lcs_rows_spec : forall x y, lcs_rows x y = map (lcs_spec x) (suffixes y).
Proof.
  induction x as [|a x IH]; intro y; cbn [lcs_rows].
  - apply zero_row_spec.
  - rewrite IH. apply lcs_row_spec.
Qed.

(** The dynamic program computes the textbook recurrence. *)
Lemma lcs_correct : forall x y, lcs x y = lcs_spec x y.
Proof. intros; unfold lcs; rewrite lcs_rows_spec; apply hd_suffixes. Qed.

Lemma lcs_spec_bounds :
  forall x y, 0 <= lcs_spec x y /\ lcs_spec x y <= PyStr.len x
              /\ lcs_spec x y <= PyStr.len y.
Proof.
  unfold PyStr.len.
  induction x as [|a x IHx]; intro y.
  - cbn; lia.
  - induction y as [|b y IHy].
    + cbn; lia.
    + rewrite lcs_spec_cons.
      pose proof (IHx y) as H1. pose proof (IHx (String b y)) as H2.
      cbn [String.length] in *.
      destruct (Ascii.eqb a b); lia.
Qed.

Lemma lcs_spec_same : forall s, lcs_spec s s = PyStr.len s.
Proof.
  unfold PyStr.len; induction s as [|a s IH].
  - reflexivity.
  - rewrite lcs_spec_cons, Ascii.eqb_refl, IH. cbn [String.length]. lia.
Qed.

Lemma len_nonneg : forall s, 0 <= PyStr.len s.
Proof. intro; unfold PyStr.len; lia. Qed.

Lemma indel_distance_bounds :
  forall a b, 0 <= indel_distance a b <= PyStr.len a + PyStr.len b.
Proof.
  intros a b; unfold indel_distance; rewrite lcs_correct.
  pose proof (lcs_spec_bounds a b); lia.
Qed.

Lemma norm_distance_range :
  forall dist lensum,
    0 <= dist <= lensum ->
    (0 <= norm_distance dist lensum /\ norm_distance dist lensum <= 100)%Q.
Proof.
  intros dist lensum H; unfold norm_distance.
  destruct (Z.eqb_spec lensum 0) as [E|E].
  - split; unfold Qle; cbn; lia.
  - unfold Qle; cbn [Qnum Qden]. rewrite Z2Pos.id by lia. split; nia.
Qed.

Lemma norm_distance_zero : forall lensum, 0 <= lensum -> (norm_distance 0 lensum == 100)%Q.
Proof.
  intros lensum H; unfold norm_distance.
  destruct (Z.eqb_spec lensum 0) as [E|E]; [reflexivity|].
  unfold Qeq; cbn [Qnum Qden]. rewrite Z2Pos.id by lia. lia.
Qed.

Lemma ratio_range : forall a b, (0 <= ratio a b /\ ratio a b <= 100)%Q.
Proof. intros; apply norm_distance_range, indel_distance_bounds. Qed.

Lemma ratio_same : forall a, (ratio a a == 100)%Q.
Proof.
  intro a; unfold ratio, indel_distance.
  rewrite lcs_correct, lcs_spec_same.
  replace (PyStr.len a + PyStr.len a - 2 * PyStr.len a) with 0 by lia.
  apply norm_distance_zero. pose proof (len_nonneg a); lia.
Qed.

Lemma mem_In : forall x l, mem x l = true <-> In x l.
Proof.
  induction l as [|y l IH]; cbn.
  - split; [discriminate | tauto].
  - rewrite orb_true_iff, IH, String.eqb_eq. split; intros [H|H]; auto.
Qed.

Lemma intersection_same : forall l, intersection l l = l.
Proof.
  intro l; unfold intersection.
  apply forallb_filter_id, forallb_forall. intros x Hx; now apply mem_In.
Qed.

Lemma difference_same : forall l, difference l l = [].
Proof.
  intro l; unfold difference.
  assert (H : forall l0, (forall x, In x l0 -> In x l) ->
                         filter (fun x => negb (mem x l)) l0 = []).
  { induction l0 as [|x l0 IH]; intro Hin; cbn; [reflexivity|].
    assert (Hx : mem x l = true) by (apply mem_In, Hin; now left).
    rewrite Hx; cbn. apply IH; intros; apply Hin; now right. }
  apply H; auto.
Qed.

Lemma to_set_nonempty : forall l, l <> [] -> to_set l <> [].
Proof.
  induction l as [|x l IH]; intro H; [congruence|]. cbn.
  destruct (mem x l) eqn:E; [|discriminate].
  apply IH. destruct l; [discriminate | discriminate].
Qed.

Lemma qmax_range :
  forall a b, (0 <= a /\ a <= 100)%Q -> (0 <= b /\ b <= 100)%Q ->
              (0 <= qmax a b /\ qmax a b <= 100)%Q.
Proof. intros a b Ha Hb; unfold qmax; destruct (Qle_bool a b); assumption. Qed.

Lemma token_set_ratio_range :
  forall a b, (0 <= token_set_ratio a b /\ token_set_ratio a b <= 100)%Q.
Proof.
  intros a b; unfold token_set_ratio.
  assert (Z0 : (0 <= 0 /\ 0 <= 100)%Q) by (split; unfold Qle; cbn; lia).
  assert (Z100 : (0 <= 100 /\ 100 <= 100)%Q) by (split; unfold Qle; cbn; lia).
  destruct (negb (PyStr.truthy a) || negb (PyStr.truthy b)); [exact Z0|].
  destruct (is_empty _ || is_empty _); [exact Z0|].
  destruct (negb _ && _); [exact Z100|].
  set (ab := PyStr.join " " (PyStr.sorted _)).
  set (ba := PyStr.join " " (PyStr.sorted _)).
  set (sect := PyStr.len (PyStr.join " " _)).
  pose proof (indel_distance_bounds ab ba) as Hd.
  pose proof (len_nonneg ab) as Hab. pose proof (len_nonneg ba) as Hba.
  assert (Hs : 0 <= sect) by apply len_nonneg.
  destruct (Z.eqb_spec sect 0) as [E|E].
  - apply norm_distance_range; lia.
  - repeat apply qmax_range; apply norm_distance_range; lia.
Qed.

Lemma split_ws_truthy : forall s, PyStr.split_ws s <> [] -> PyStr.truthy s = true.
Proof. destruct s; [intro H; now contradiction H | reflexivity]. Qed.

Lemma token_set_ratio_same :
  forall a, PyStr.split_ws a <> [] -> (token_set_ratio a a == 100)%Q.
Proof.
  intros a H; unfold token_set_ratio.
  rewrite (split_ws_truthy a H); cbn [negb orb].
  pose proof (to_set_nonempty _ H) as Hne.
  rewrite intersection_same, difference_same.
  destruct (to_set (PyStr.split_ws a)); [congruence|]. reflexivity.
Qed.

Lemma token_set_ratio_no_tokens :
  forall a b, PyStr.split_ws a = [] \/ PyStr.split_ws b = [] ->
              (token_set_ratio a b == 0)%Q.
Proof.
  intros a b H; unfold token_set_ratio.
  destruct (negb (PyStr.truthy a) || negb (PyStr.truthy b)); [reflexivity|].
  destruct H as [H|H]; rewrite H; cbn [to_set is_empty orb];
    [|rewrite orb_true_r]; reflexivity.
Qed.

#[export] Instance lawful : Fuzz.Lawful RapidFuzz.metric.
Proof.
  constructor; cbn [Fuzz.ratio Fuzz.token_sort_ratio Fuzz.token_set_ratio metric].
  - apply ratio_range.
  - intros; apply ratio_range.
  - apply token_set_ratio_range.
  - apply ratio_same.
  - intros; apply ratio_same.
  - apply token_set_ratio_same.
  - apply token_set_ratio_no_tokens.
Qed.

End RapidFuzzFacts.

(** ** The matcher *)

Module MatcherFacts.

Import JobMatcher.

Lemma Qgtb_true : forall a b, Qgtb a b = true <-> (b < a)%Q.
Proof.
  intros a b; unfold Qgtb. rewrite negb_true_iff.
  destruct (Qle_bool a b) eqn:E.
  - apply Qle_bool_iff in E. split; [discriminate | intro H].
    exfalso; apply (Qlt_not_le _ _ H E).
  - split; [intros _ | reflexivity].
    apply Qnot_le_lt. intro H. apply Qle_bool_iff in H. congruence.
Qed.

Lemma Qgtb_false : forall a b, Qgtb a b = false <-> (a <= b)%Q.
Proof.
  intros a b; unfold Qgtb. rewrite negb_false_iff. apply Qle_bool_iff.
Qed.

Lemma split_ws_from_nonempty :
  forall s acc,
    PyStr.truthy acc = true \/ PyStr.has_nonspace s = true ->
    PyStr.split_ws_from acc s <> [].
Proof.
  induction s as [|c s IH]; intros acc H; cbn [PyStr.split_ws_from].
  - destruct H as [H|H]; [rewrite H; discriminate | discriminate].
  - destruct (PyStr.isspace c) eqn:E.
    + destruct (PyStr.truthy acc); [discriminate|].
      apply IH. right. destruct H as [H|H]; [discriminate|].
      cbn in H. now rewrite E in H.
    + apply IH. left. unfold PyStr.snoc. destruct acc; reflexivity.
Qed.

Lemma split_ws_nonempty :
  forall s, PyStr.has_nonspace s = true -> PyStr.split_ws s <> [].
Proof. intros s H; apply split_ws_from_nonempty; now right. Qed.

Lemma has_nonspace_app_pipe :
  forall a b, PyStr.has_nonspace (a ++ String "|"%char b) = true.
Proof.
  induction a as [|c a IH]; intro b; cbn.
  - reflexivity.
  - rewrite IH. apply orb_true_r.
Qed.

Lemma signature_has_token :
  forall company_id title location,
    PyStr.split_ws (JobNormalizer.create_signature company_id title location) <> [].
Proof.
  intros; apply split_ws_nonempty. unfold JobNormalizer.create_signature.
  apply has_nonspace_app_pipe.
Qed.

Section WithLawfulMetric.

Context {M : Fuzz.StringMetric} {L : Fuzz.Lawful M}.

Lemma weighted_range :
  forall c t l : Q,
    (0 <= c /\ c <= 100)%Q -> (0 <= t /\ t <= 100)%Q -> (0 <= l /\ l <= 100)%Q ->
    (0 <= ((1 # 10) * c + (6 # 10) * t + (3 # 10) * l) / 100
     /\ ((1 # 10) * c + (6 # 10) * t + (3 # 10) * l) / 100 <= 1)%Q.
Proof.
  intros c t l [? ?] [? ?] [? ?]. unfold Qdiv. change (/ 100)%Q with (1 # 100)%Q.
  split; lra.
Qed.

Lemma scaled_range :
  forall s : Q, (0 <= s /\ s <= 100)%Q -> (0 <= s / 100 /\ s / 100 <= 1)%Q.
Proof.
  intros s [? ?]. unfold Qdiv. change (/ 100)%Q with (1 # 100)%Q. split; lra.
Qed.

Lemma calculate_similarity_range :
  forall a b,
    (0 <= calculate_similarity a b /\ calculate_similarity a b <= 1)%Q.
Proof.
  intros a b; unfold calculate_similarity.
  destruct (negb _ || negb _).
  - apply scaled_range, Fuzz.token_set_range.
  - apply weighted_range;
      [apply Fuzz.ratio_range | apply Fuzz.token_sort_range | apply Fuzz.ratio_range].
Qed.

Lemma calculate_similarity_same :
  forall s,
    List.length (PyStr.split_on "|"%char s) = 3%nat \/ PyStr.split_ws s <> [] ->
    (calculate_similarity s s == 1)%Q.
Proof.
  intros s H; unfold calculate_similarity.
  destruct (Nat.eqb (List.length (PyStr.split_on "|"%char s)) 3) eqn:E; cbn [negb orb].
  - rewrite !Fuzz.ratio_same, Fuzz.token_sort_same. reflexivity.
  - destruct H as [H|H].
    + rewrite H in E. discriminate.
    + rewrite (Fuzz.token_set_same _ H). reflexivity.
Qed.

(** Against a string without tokens a three-part signature scores 0. *)
Lemma calculate_similarity_empty :
  forall q, (calculate_similarity q "" == 0)%Q.
Proof.
  intro q; unfold calculate_similarity. cbn [PyStr.split_on PyStr.split_on_from].
  cbn [List.length Nat.eqb negb]. rewrite orb_true_r.
  rewrite Fuzz.token_set_no_tokens by (right; reflexivity). reflexivity.
Qed.

End WithLawfulMetric.

Section Scan.

Context {M : Fuzz.StringMetric}.

(** What the scan returns: the running score never decreases, bounds every
    candidate's score, and a changed match is a candidate with that score. *)
Lemma scan_result :
  forall q cands bm bs,
    (bs <= snd (scan q cands bm bs))%Q
    /\ (forall c, In c cands -> (calculate_similarity q c <= snd (scan q cands bm bs))%Q)
    /\ (scan q cands bm bs = (bm, bs)
        \/ exists c, In c cands
                     /\ scan q cands bm bs = (Some c, calculate_similarity q c)).
Proof.
  intros q; induction cands as [|x cands IH]; intros bm bs; cbn [scan].
  - split; [apply Qle_refl|]. split; [intros c []|]. now left.
  - destruct (Qgtb (calculate_similarity q x) bs) eqn:E.
    + apply Qgtb_true in E.
      destruct (IH (Some x) (calculate_similarity q x)) as (H1 & H2 & H3).
      split; [apply Qlt_le_weak; eapply Qlt_le_trans; eauto|].
      split.
      * intros c [<-|Hc]; auto.
      * right. destruct H3 as [H3|(c & Hc & H3)].
        -- exists x; split; [now left | exact H3].
        -- exists c; split; [now right | exact H3].
    + apply Qgtb_false in E.
      destruct (IH bm bs) as (H1 & H2 & H3).
      split; [exact H1|]. split.
      * intros c [<-|Hc]; [eapply Qle_trans; eauto | auto].
      * destruct H3 as [H3|(c & Hc & H3)]; [now left|].
        right; exists c; split; [now right | exact H3].
Qed.




End Scan.

End MatcherFacts.

(** ** The dict of tracked jobs *)

Module JobDictFacts.

Import JobDict.

Lemma values_from_In :
  forall d n i j,
    In (i, j) (values_from n d) ->
    exists k, (n <= i)%nat /\ nth_error d (i - n) = Some (k, j).
Proof.
  induction d as [|[k0 j0] d IH]; intros n i j H; cbn in H; [contradiction|].
  destruct H as [H|H].
  - inversion H; subst. exists k0. rewrite Nat.sub_diag. split; [lia | reflexivity].
  - destruct (IH _ _ _ H) as (k & Hle & Hn). exists k. split; [lia|].
    replace (i - n)%nat with (S (i - S n)) by lia. exact Hn.
Qed.

Lemma values_In :
  forall d i j, In (i, j) (values d) -> exists k, nth_error d i = Some (k, j).
Proof.
  intros d i j H. destruct (values_from_In d 0 i j H) as (k & _ & Hn).
  exists k. now rewrite Nat.sub_0_r in Hn.
Qed.

Lemma nth_error_values_from :
  forall d n i k j,
    nth_error d i = Some (k, j) -> In ((n + i)%nat, j) (values_from n d).
Proof.
  induction d as [|[k0 j0] d IH]; intros n i k j H.
  - destruct i; discriminate.
  - destruct i as [|i]; cbn in H |- *.
    + inversion H; subst. left. f_equal. lia.
    + right. replace (n + S i)%nat with (S n + i)%nat by lia. eapply IH; eauto.
Qed.

Lemma nth_error_values :
  forall d i k j, nth_error d i = Some (k, j) -> In (i, j) (values d).
Proof. intros d i k j H. exact (nth_error_values_from d 0 i k j H). Qed.

(** [find] over the values returns the first position whose job passes. *)
Lemma find_values_from_first :
  forall (p : ClassifiedJob.t -> bool) d n i k j,
    nth_error d i = Some (k, j) ->
    p j = true ->
    (forall i' k' j', (i' < i)%nat -> nth_error d i' = Some (k', j') -> p j' = false) ->
    find (fun r : ref => p (snd r)) (values_from n d) = Some ((n + i)%nat, j).
Proof.
  intros p; induction d as [|[k0 j0] d IH]; intros n i k j Hn Hp Hfirst.
  - destruct i; discriminate.
  - destruct i as [|i]; cbn in Hn; cbn [values_from find snd].
    + inversion Hn; subst. rewrite Hp. f_equal. f_equal. lia.
    + rewrite (Hfirst 0%nat k0 j0 ltac:(lia) eq_refl).
      replace (n + S i)%nat with (S n + i)%nat by lia.
      apply (IH (S n) i k j Hn Hp).
      intros i' k' j' Hlt Hn'. apply (Hfirst (S i') k' j'); [lia | exact Hn'].
Qed.

Lemma store_nth_same :
  forall d i k j0 j,
    nth_error d i = Some (k, j0) -> nth_error (store i j d) i = Some (k, j).
Proof.
  induction d as [|[k0 j1] d IH]; intros i k j0 j H.
  - destruct i; discriminate.
  - destruct i as [|i]; cbn in H |- *.
    + now inversion H.
    + eapply IH; eauto.
Qed.

Lemma store_nth_other :
  forall d i i' j, i' <> i -> nth_error (store i j d) i' = nth_error d i'.
Proof.
  induction d as [|[k0 j1] d IH]; intros i i' j H.
  - destruct i; reflexivity.
  - destruct i as [|i], i' as [|i']; cbn; try reflexivity; try congruence.
    apply IH. congruence.
Qed.

Lemma store_map_key :
  forall (A : Type) (f : ClassifiedJob.t -> A) d i k j0 j,
    nth_error d i = Some (k, j0) ->
    f j = f j0 ->
    map (fun kj : string * ClassifiedJob.t => (fst kj, f (snd kj))) (store i j d)
    = map (fun kj : string * ClassifiedJob.t => (fst kj, f (snd kj))) d.
Proof.
  intros A f; induction d as [|[k0 j1] d IH]; intros i k j0 j Hn Hf.
  - destruct i; discriminate.
  - destruct i as [|i]; cbn in Hn |- *.
    + inversion Hn; subst. now rewrite Hf.
    + f_equal. eapply IH; eauto.
Qed.

(** After [d[key] = job] every old position holds its old job or [job]. *)
Lemma set_nth :
  forall d key job i k j,
    nth_error d i = Some (k, j) ->
    nth_error (set key job d) i = Some (k, j)
    \/ nth_error (set key job d) i = Some (k, job).
Proof.
  induction d as [|[k0 j1] d IH]; intros key job i k j H.
  - destruct i; discriminate.
  - cbn [set]. destruct (String.eqb k0 key).
    + destruct i as [|i]; cbn in H |- *; [inversion H; subst; now right | now left].
    + destruct i as [|i]; cbn in H |- *; [now left | now apply IH].
Qed.

Lemma set_nth_other_key :
  forall d key job i k j,
    nth_error d i = Some (k, j) ->
    k <> key ->
    nth_error (set key job d) i = Some (k, j).
Proof.
  induction d as [|[k0 j1] d IH]; intros key job i k j H Hk.
  - destruct i; discriminate.
  - cbn [set]. destruct (String.eqb_spec k0 key) as [E|E].
    + destruct i as [|i]; cbn in H |- *; [|exact H].
      inversion H; subst. contradiction.
    + destruct i as [|i]; cbn in H |- *; [exact H | now apply IH].
Qed.

(** A store that keeps [f] at its position keeps [f] at every position. *)
Lemma store_nth_preserved :
  forall (A : Type) (f : ClassifiedJob.t -> A) d i0 k0 j0 j0' i k j,
    nth_error d i0 = Some (k0, j0) ->
    f j0' = f j0 ->
    nth_error d i = Some (k, j) ->
    exists j', nth_error (store i0 j0' d) i = Some (k, j') /\ f j' = f j.
Proof.
  intros A f d i0 k0 j0 j0' i k j H0 Hf Hn.
  destruct (Nat.eq_dec i i0) as [->|Hi].
  - rewrite H0 in Hn. inversion Hn; subst.
    exists j0'. split; [eapply store_nth_same; eauto | exact Hf].
  - exists j. split; [rewrite store_nth_other by exact Hi; exact Hn | reflexivity].
Qed.

End JobDictFacts.

(** ** The classifier: lookups *)

Module ClassifierFacts.

Import ClassifiedJob JobClassifier JobDictFacts.

Lemma JobStatus_eqb_eq : forall a b, JobStatus_eqb a b = true <-> a = b.
Proof. intros [] []; cbn; split; congruence. Qed.

Lemma option_string_eqb_eq :
  forall a b, option_string_eqb a b = true <-> a = b.
Proof.
  intros [x|] [y|]; cbn; try (split; congruence).
  rewrite String.eqb_eq. split; congruence.
Qed.

Lemma truthy_false : forall s, PyStr.truthy s = false <-> s = "".
Proof. intros [|c s]; cbn; split; congruence. Qed.

Lemma same_source_true :
  forall c sid j,
    same_source c sid j = true
    <-> ClassifiedJob.company_id j = c /\ ClassifiedJob.source_identifier j = Some sid.
Proof.
  intros; unfold same_source.
  now rewrite andb_true_iff, String.eqb_eq, option_string_eqb_eq.
Qed.

Lemma find_by_source_id_first :
  forall self c sid i k j,
    sid <> "" ->
    nth_error (known_jobs self) i = Some (k, j) ->
    ClassifiedJob.company_id j = c ->
    ClassifiedJob.source_identifier j = Some sid ->
    (forall i' k' j',
        (i' < i)%nat -> nth_error (known_jobs self) i' = Some (k', j') ->
        ~ (ClassifiedJob.company_id j' = c
           /\ ClassifiedJob.source_identifier j' = Some sid)) ->
    _find_by_source_id self c (Some sid) = Some (i, j).
Proof.
  intros self c sid i k j Hsid Hn Hc Hs Hfirst. unfold _find_by_source_id.
  destruct (PyStr.truthy sid) eqn:E; [|apply truthy_false in E; contradiction].
  cbn [negb]. unfold JobDict.values.
  apply (find_values_from_first (same_source c sid) (known_jobs self) 0 i k j Hn).
  - apply same_source_true; auto.
  - intros i' k' j' Hlt Hn'. destruct (same_source c sid j') eqn:E'; [|reflexivity].
    apply same_source_true in E'. exfalso; eapply Hfirst; eauto.
Qed.

Lemma find_by_source_id_Some :
  forall self c sid i j,
    _find_by_source_id self c sid = Some (i, j) ->
    exists k s,
      nth_error (known_jobs self) i = Some (k, j)
      /\ sid = Some s /\ s <> ""
      /\ ClassifiedJob.company_id j = c
      /\ ClassifiedJob.source_identifier j = Some s.
Proof.
  intros self c [s|] i j H; unfold _find_by_source_id in H; [|discriminate].
  destruct (PyStr.truthy s) eqn:E; [|discriminate]. cbn [negb] in H.
  apply find_some in H. destruct H as [Hin Hp]. cbn [snd] in Hp.
  destruct (values_In _ _ _ Hin) as [k Hk].
  apply (same_source_true c s j) in Hp. destruct Hp as [Hc Hs].
  exists k, s. repeat split; auto. intros ->; discriminate.
Qed.

Lemma find_by_source_id_None :
  forall self c sid,
    _find_by_source_id self c sid = None ->
    sid = None \/ sid = Some ""
    \/ forall i k j,
        nth_error (known_jobs self) i = Some (k, j) ->
        ClassifiedJob.company_id j = c ->
        ClassifiedJob.source_identifier j <> sid.
Proof.
  intros self c [s|] H; [|now left]. right.
  unfold _find_by_source_id in H.
  destruct (PyStr.truthy s) eqn:E; [|apply truthy_false in E; subst; now left].
  right. cbn [negb] in H. intros i k j Hn Hc Hs.
  pose proof (find_none _ _ H (i, j) (nth_error_values _ _ _ _ Hn)) as Hp.
  cbn [snd] in Hp.
  assert (Ht : same_source c s j = true) by (apply same_source_true; auto).
  congruence.
Qed.

Lemma closed_jobs_In :
  forall self c r,
    In r (closed_jobs self c) ->
    In r (JobDict.values (known_jobs self))
    /\ ClassifiedJob.company_id (snd r) = c /\ status (snd r) = CLOSED.
Proof.
  intros self c r H. unfold closed_jobs in H. apply filter_In in H.
  destruct H as [Hin Hp]. apply andb_true_iff in Hp. destruct Hp as [Hc Hs].
  apply String.eqb_eq in Hc. apply JobStatus_eqb_eq in Hs. auto.
Qed.

Lemma recent_jobs_In :
  forall self c cutoff_time r,
    In r (recent_jobs self c cutoff_time)
    <-> In r (JobDict.values (known_jobs self))
        /\ ClassifiedJob.company_id (snd r) = c
        /\ cutoff_time <= last_seen (snd r)
        /\ status (snd r) <> CLOSED.
Proof.
  intros self c cutoff_time r. unfold recent_jobs.
  rewrite filter_In, !andb_true_iff, String.eqb_eq, Z.leb_le, negb_true_iff.
  split.
  - intros (Hin & (Hc & Hl) & Hs). repeat split; auto.
    intro E. apply JobStatus_eqb_eq in E. congruence.
  - intros (Hin & Hc & Hl & Hs). repeat split; auto.
    destruct (JobStatus_eqb (status (snd r)) CLOSED) eqn:E; [|reflexivity].
    apply JobStatus_eqb_eq in E. contradiction.
Qed.

Section WithMetric.

Context {M : Fuzz.StringMetric}.

Lemma best_among_In :
  forall self signature jobs r,
    best_among self signature jobs = Some r -> In r jobs.
Proof.
  intros self signature jobs r H. unfold best_among in H.
  destruct jobs as [|r0 jobs]; [discriminate|].
  destruct (JobMatcher.find_best_match _ _ _) as [bm|]; [|discriminate].
  destruct (PyStr.truthy bm); [|discriminate].
  apply find_some in H. tauto.
Qed.

Lemma find_closed_similar_job_Some :
  forall self signature c i j,
    _find_closed_similar_job self signature c = Some (i, j) ->
    exists k,
      nth_error (known_jobs self) i = Some (k, j)
      /\ ClassifiedJob.company_id j = c /\ status j = CLOSED.
Proof.
  intros self signature c i j H. unfold _find_closed_similar_job in H.
  apply best_among_In, closed_jobs_In in H. cbn [snd] in H.
  destruct H as (Hin & Hc & Hs). destruct (values_In _ _ _ Hin) as [k Hk].
  exists k; auto.
Qed.

End WithMetric.

(** ** The classifier: the end-of-cycle sweeps *)

Lemma mark_missing_loop_again :
  forall items ids t1 t2,
    mark_missing_loop (fst (mark_missing_loop items ids t1)) ids t2
    = (fst (mark_missing_loop items ids t1), 0).
Proof.
  induction items as [|[job_id job] items IH]; intros ids t1 t2.
  - reflexivity.
  - cbn [mark_missing_loop]. specialize (IH ids t1 t2).
    destruct (mark_missing_loop items ids t1) as [rest' n] eqn:E.
    cbn [fst] in IH.
    destruct (negb (observed ids job_id) && JobStatus_eqb (status job) ACTIVE) eqn:C;
      cbn [fst mark_missing_loop]; rewrite IH.
    + cbn [status set_updated_at set_status JobStatus_eqb].
      rewrite andb_false_r. reflexivity.
    + rewrite C. reflexivity.
Qed.

Lemma mark_missing_loop_map :
  forall (A : Type) (f : ClassifiedJob.t -> A),
    (forall v j, f (set_status v j) = f j) ->
    (forall v j, f (set_updated_at v j) = f j) ->
    forall items ids now,
      map (fun kj : string * ClassifiedJob.t => (fst kj, f (snd kj)))
          (fst (mark_missing_loop items ids now))
      = map (fun kj : string * ClassifiedJob.t => (fst kj, f (snd kj))) items.
Proof.
  intros A f H1 H2; induction items as [|[job_id job] items IH]; intros ids now.
  - reflexivity.
  - cbn [mark_missing_loop]. specialize (IH ids now).
    destruct (mark_missing_loop items ids now) as [rest' n].
    cbn [fst] in IH.
    destruct (negb _ && _); cbn [fst map snd]; rewrite IH, ?H2, ?H1; reflexivity.
Qed.

Lemma close_old_loop_map :
  forall (A : Type) (f : ClassifiedJob.t -> A),
    (forall v j, f (set_status v j) = f j) ->
    (forall v j, f (set_updated_at v j) = f j) ->
    forall items cutoff_time now,
      map (fun kj : string * ClassifiedJob.t => (fst kj, f (snd kj)))
          (fst (close_old_loop items cutoff_time now))
      = map (fun kj : string * ClassifiedJob.t => (fst kj, f (snd kj))) items.
Proof.
  intros A f H1 H2; induction items as [|[job_id job] items IH]; intros c now.
  - reflexivity.
  - cbn [close_old_loop]. specialize (IH c now).
    destruct (close_old_loop items c now) as [rest' n].
    cbn [fst] in IH.
    destruct (_ && _); cbn [fst map snd]; rewrite IH, ?H2, ?H1; reflexivity.
Qed.

End ClassifierFacts.

(** * The claims *)

Import ClassifiedJob JobClassifier.

(** ** Matcher construction *)

(** C7. [JobMatcher(similarity_threshold)] raises the invalid-configuration
    error ([ValueError]) for every threshold outside [0, 1]; for every
    threshold inside [0, 1] it succeeds and stores that very value. *)
Theorem JobMatcher_init_checks_threshold :
  forall threshold : Q,
    ((0 <= threshold /\ threshold <= 1)%Q ->
     exists m, JobMatcher.init threshold = Ok m
               /\ JobMatcher.similarity_threshold m = threshold)
    /\ (~ (0 <= threshold /\ threshold <= 1)%Q ->
        JobMatcher.init threshold = Raise (ValueError threshold)).
Proof.
  intro threshold; unfold JobMatcher.init. split.
  - intros [H0 H1]. apply Qle_bool_iff in H0, H1. rewrite H0, H1. cbn.
    eexists; split; reflexivity.
  - intro H.
    destruct (Qle_bool 0 threshold) eqn:E0; [|reflexivity].
    destruct (Qle_bool threshold 1) eqn:E1; [|reflexivity].
    exfalso; apply H; split; now apply Qle_bool_iff.
Qed.

Lemma JobMatcher_init_checks_threshold_witness :
  (exists m, JobMatcher.init (9 # 10) = Ok m
             /\ JobMatcher.similarity_threshold m = 9 # 10)
  /\ JobMatcher.init (3 # 2) = Raise (ValueError (3 # 2)).
Proof.
  split.
  - apply (proj1 (JobMatcher_init_checks_threshold (9 # 10))).
    split; unfold Qle; cbn; lia.
  - apply (proj2 (JobMatcher_init_checks_threshold (3 # 2))).
    intros [_ H]; unfold Qle in H; cbn in H; lia.
Defined.

(** ** Similarity scores *)

(** C5, as the code has it. For every pair of signatures the score lies in
    [0, 1]. A signature scores exactly 1 against itself when it splits into
    three parts on the pipe or contains a token; this covers every signature
    [create_signature] builds. (The empty string is outside: see the
    counterexample.) *)
Theorem calculate_similarity_identical_and_range :
  forall (M : Fuzz.StringMetric) (L : Fuzz.Lawful M),
    (forall a b,
        (0 <= JobMatcher.calculate_similarity a b
         /\ JobMatcher.calculate_similarity a b <= 1)%Q)
    /\ (forall s,
           List.length (PyStr.split_on "|"%char s) = 3%nat
           \/ PyStr.split_ws s <> [] ->
           (JobMatcher.calculate_similarity s s == 1)%Q)
    /\ (forall company_id title location,
           let s := JobNormalizer.create_signature company_id title location in
           (JobMatcher.calculate_similarity s s == 1)%Q).
Proof.
  intros M L. split; [|split].
  - apply MatcherFacts.calculate_similarity_range.
  - apply MatcherFacts.calculate_similarity_same.
  - intros. apply MatcherFacts.calculate_similarity_same.
    right. apply MatcherFacts.signature_has_token.
Qed.

Lemma calculate_similarity_identical_and_range_witness :
  (@JobMatcher.calculate_similarity RapidFuzz.metric
     "acme|senior engineer|san francisco" "acme|senior engineer|san francisco"
   == 1)%Q
  /\ (0 <= @JobMatcher.calculate_similarity RapidFuzz.metric
             "acme|engineer|san francisco" "different|manager|new york"
      <= 1)%Q.
Proof.
  pose proof (calculate_similarity_identical_and_range
                RapidFuzz.metric RapidFuzzFacts.lawful) as (Hrange & Hsame & _).
  split.
  - apply Hsame. left. reflexivity.
  - apply Hrange.
Defined.

(** C5 as stated fails on the empty signature: it has one part, the
    whole-string fallback runs, and rapidfuzz scores two token-less strings 0. *)
Lemma calculate_similarity_empty_not_one :
  (@JobMatcher.calculate_similarity RapidFuzz.metric "" "" == 0)%Q
  /\ ~ (@JobMatcher.calculate_similarity RapidFuzz.metric "" "" == 1)%Q.
Proof. split; [reflexivity | intro H; vm_compute in H; discriminate]. Qed.

(** ** Best match *)

(** C6 at threshold 0.0 with two candidates that both score 0.0, the maximal
    score: each of them is a match for [is_match] and [find_all_matches]
    lists both, first one first, but the scan never replaces its initial
    [None], and [find_best_match] returns no candidate instead of the first
    one. *)
Theorem find_best_match_zero_scores_returns_None :
  Forall (fun c => (@JobMatcher.calculate_similarity RapidFuzz.metric "a|b|c" c
                    == 0)%Q)
         ["x|y|z"; "u|v|w"]
  /\ Forall (fun c => @JobMatcher.is_match
                        RapidFuzz.metric {| JobMatcher.similarity_threshold := 0 |}
                        "a|b|c" c = true)
            ["x|y|z"; "u|v|w"]
  /\ map fst (@JobMatcher.find_all_matches
                RapidFuzz.metric {| JobMatcher.similarity_threshold := 0 |}
                "a|b|c" ["x|y|z"; "u|v|w"] None)
     = ["x|y|z"; "u|v|w"]
  /\ @JobMatcher.find_best_match_with_score
       RapidFuzz.metric {| JobMatcher.similarity_threshold := 0 |}
       "a|b|c" ["x|y|z"; "u|v|w"]
     = (None, 0%Q)
  /\ @JobMatcher.find_best_match
       RapidFuzz.metric {| JobMatcher.similarity_threshold := 0 |}
       "a|b|c" ["x|y|z"; "u|v|w"]
     = None.
Proof. repeat split; repeat constructor. Qed.

(** ** The paths of [classify_job] *)

Section Paths.

Context {M : Fuzz.StringMetric}.

Variables (self : JobClassifier.t) (raw_job : RawJob.t)
          (current_time : PyTime.datetime) (uuid4 : string).

Let signature_of_raw : string :=
  JobNormalizer.create_signature (RawJob.company_id raw_job)
                                 (RawJob.title raw_job)
                                 (RawJob.location raw_job).

Lemma classify_job_exact :
  forall r,
    _find_by_source_id self (RawJob.company_id raw_job)
                       (RawJob.source_identifier raw_job) = Some r ->
    classify_job self raw_job current_time uuid4
    = _update_existing_job self r raw_job current_time.
Proof. intros r H. unfold classify_job. now rewrite H. Qed.

Lemma classify_job_reopened :
  forall r,
    _find_by_source_id self (RawJob.company_id raw_job)
                       (RawJob.source_identifier raw_job) = None ->
    _find_similar_recent_job self signature_of_raw (RawJob.company_id raw_job)
                             current_time = Ok None ->
    _find_closed_similar_job self signature_of_raw (RawJob.company_id raw_job)
    = Some r ->
    classify_job self raw_job current_time uuid4
    = _classify_as_reopened self raw_job signature_of_raw r current_time.
Proof.
  intros r H1 H2 H3. unfold classify_job.
  fold signature_of_raw. now rewrite H1, H2, H3.
Qed.

Lemma classify_job_repost :
  forall r,
    _find_by_source_id self (RawJob.company_id raw_job)
                       (RawJob.source_identifier raw_job) = None ->
    _find_similar_recent_job self signature_of_raw (RawJob.company_id raw_job)
                             current_time = Ok (Some r) ->
    classify_job self raw_job current_time uuid4
    = _classify_as_repost self raw_job signature_of_raw r current_time uuid4.
Proof.
  intros r H1 H2. unfold classify_job.
  fold signature_of_raw. now rewrite H1, H2.
Qed.

End Paths.

(** ** The sweeps *)

(** C8. [mark_missing_jobs] is idempotent: called again with the same
    observed ids right after a first call (at any two times), it returns 0 and
    leaves the tracked jobs, so in particular every status, as they were. *)
Theorem mark_missing_jobs_idempotent :
  forall (self : JobClassifier.t) (observed_job_ids : list string)
         (t1 t2 : PyTime.datetime),
    let after_first := fst (mark_missing_jobs self observed_job_ids t1) in
    snd (mark_missing_jobs after_first observed_job_ids t2) = 0
    /\ fst (mark_missing_jobs after_first observed_job_ids t2) = after_first
    /\ map (fun kj => status (snd kj))
           (known_jobs (fst (mark_missing_jobs after_first observed_job_ids t2)))
       = map (fun kj => status (snd kj)) (known_jobs after_first).
Proof.
  intros self ids t1 t2 after_first.
  assert (E : mark_missing_jobs after_first ids t2 = (after_first, 0)).
  { unfold after_first, mark_missing_jobs.
    pose proof (ClassifierFacts.mark_missing_loop_again (known_jobs self) ids t1 t2)
      as H.
    destruct (mark_missing_loop (known_jobs self) ids t1) as [jobs n].
    cbn [fst known_jobs with_known_jobs] in H |- *. rewrite H. reflexivity. }
  rewrite E. auto.
Qed.

(** ** The classification field *)

(** C9. No core operation mutates the [classification] of a tracked job:
    [classify_job] on an exact-identifier match, [classify_job] on the
    reopening path, [mark_missing_jobs] and [close_old_missing_jobs] leave
    the classification of every job of the dict as it was, and the job the
    first two return carries the classification it had. On every path of
    [classify_job], each job already in the dict under a key other than the
    identifier drawn for a new record keeps its classification. *)
Theorem classification_never_mutated :
  forall (M : Fuzz.StringMetric) (self : JobClassifier.t) (raw_job : RawJob.t)
         (current_time : PyTime.datetime) (uuid4 : string)
         (observed_job_ids : list string) (timeout_days : Z),
    let signature :=
      JobNormalizer.create_signature (RawJob.company_id raw_job)
                                     (RawJob.title raw_job)
                                     (RawJob.location raw_job) in
    let exact :=
      _find_by_source_id self (RawJob.company_id raw_job)
                         (RawJob.source_identifier raw_job) in
    let after := classify_job self raw_job current_time uuid4 in
    (forall r,
        exact = Some r ->
        classifications (fst after) = classifications self
        /\ option_map classification (ok_value (snd after))
           = Some (classification (snd r)))
    /\ (forall r,
           exact = None ->
           _find_similar_recent_job self signature (RawJob.company_id raw_job)
                                    current_time = Ok None ->
           _find_closed_similar_job self signature (RawJob.company_id raw_job)
           = Some r ->
           classifications (fst after) = classifications self
           /\ option_map classification (ok_value (snd after))
              = Some (classification (snd r)))
    /\ classifications (fst (mark_missing_jobs self observed_job_ids current_time))
       = classifications self
    /\ classifications (fst (close_old_missing_jobs self timeout_days current_time))
       = classifications self
    /\ (forall i k job,
           nth_error (known_jobs self) i = Some (k, job) ->
           k <> uuid4 ->
           exists job',
             nth_error (known_jobs (fst after)) i = Some (k, job')
             /\ classification job' = classification job).
Proof.
  intros M self raw now uuid ids timeout signature exact after.
  split; [|split; [|split; [|split]]].
  - intros [i j] H. unfold after. rewrite (classify_job_exact _ _ _ _ _ H).
    apply ClassifierFacts.find_by_source_id_Some in H.
    destruct H as (k & s & Hn & _).
    unfold _update_existing_job, classifications.
    cbn [fst snd known_jobs with_known_jobs ok_value option_map]. split.
    + apply (JobDictFacts.store_map_key _ classification _ _ _ _ _ Hn).
      destruct (JobStatus_eqb _ MISSING); reflexivity.
    + destruct (JobStatus_eqb _ MISSING); reflexivity.
  - intros [i j] H1 H2 H3. unfold after.
    rewrite (classify_job_reopened _ _ _ _ _ H1 H2 H3).
    apply ClassifierFacts.find_closed_similar_job_Some in H3.
    destruct H3 as (k & Hn & _).
    unfold _classify_as_reopened, classifications.
    cbn [fst snd known_jobs with_known_jobs ok_value option_map]. split.
    + apply (JobDictFacts.store_map_key _ classification _ _ _ _ _ Hn). reflexivity.
    + reflexivity.
  - unfold mark_missing_jobs, classifications.
    pose proof (ClassifierFacts.mark_missing_loop_map _ classification
                  (fun _ _ => eq_refl) (fun _ _ => eq_refl)
                  (known_jobs self) ids now) as H.
    destruct (mark_missing_loop (known_jobs self) ids now) as [jobs n].
    exact H.
  - unfold close_old_missing_jobs, classifications.
    destruct (cutoff now timeout) as [c|e]; [|reflexivity].
    pose proof (ClassifierFacts.close_old_loop_map _ classification
                  (fun _ _ => eq_refl) (fun _ _ => eq_refl)
                  (known_jobs self) c now) as H.
    destruct (close_old_loop (known_jobs self) c now) as [jobs n].
    exact H.
  - intros i k job Hn Hk. unfold after, classify_job. fold signature. fold exact.
    destruct exact as [[i0 j0]|] eqn:Hexact.
    + destruct (ClassifierFacts.find_by_source_id_Some _ _ _ _ _ Hexact)
        as (k0 & s & Hn0 & _).
      unfold _update_existing_job. cbn [fst known_jobs with_known_jobs].
      eapply JobDictFacts.store_nth_preserved; eauto.
      destruct (JobStatus_eqb _ MISSING); reflexivity.
    + destruct (_find_similar_recent_job self signature (RawJob.company_id raw) now)
        as [[r|]|e].
      * unfold _classify_as_repost. cbn [fst known_jobs with_known_jobs].
        exists job. split; [now apply JobDictFacts.set_nth_other_key | reflexivity].
      * destruct (_find_closed_similar_job self signature (RawJob.company_id raw))
          as [[i0 j0]|] eqn:Hclosed.
        -- destruct (ClassifierFacts.find_closed_similar_job_Some _ _ _ _ _ Hclosed)
             as (k0 & Hn0 & _).
           unfold _classify_as_reopened. cbn [fst known_jobs with_known_jobs].
           eapply JobDictFacts.store_nth_preserved; eauto.
        -- unfold _classify_as_new. cbn [fst known_jobs with_known_jobs].
           exists job. split; [now apply JobDictFacts.set_nth_other_key | reflexivity].
      * exists job. split; [exact Hn | reflexivity].
Qed.

(** ** Reopening *)

(** What [_classify_as_reopened] leaves in the job it mutates. *)
Lemma classify_as_reopened_result :
  forall (M : Fuzz.StringMetric) (self : JobClassifier.t) (raw_job : RawJob.t)
         (signature : string) (i : nat) (closed_job : ClassifiedJob.t)
         (current_time : PyTime.datetime) (k : string),
    nth_error (known_jobs self) i = Some (k, closed_job) ->
    exists job,
      _classify_as_reopened self raw_job signature (i, closed_job) current_time
      = (with_known_jobs self (JobDict.store i job (known_jobs self)), Ok job)
      /\ nth_error (JobDict.store i job (known_jobs self)) i = Some (k, job)
      /\ ClassifiedJob.signature job = ClassifiedJob.signature closed_job
      /\ status job = REOPENED
      /\ id job = id closed_job
      /\ first_seen job = first_seen closed_job
      /\ last_seen job = current_time
      /\ classification_reasoning job
         = "Job reopened (was closed on " ++ PyTime.date_str current_time
           ++ ", originally first seen "
           ++ PyTime.date_str (first_seen closed_job) ++ ")".
Proof.
  intros M self raw signature i closed_job now k Hn.
  unfold _classify_as_reopened. eexists. split; [reflexivity|].
  split; [eapply JobDictFacts.store_nth_same; eauto|].
  repeat split; reflexivity.
Qed.

(** C2, as the code has it. On the reopening path the job returned keeps the
    signature stored in the closed job: [_classify_as_reopened] receives the
    fresh signature and does not assign it. *)
Theorem reopening_keeps_stored_signature :
  forall (M : Fuzz.StringMetric) (self : JobClassifier.t) (raw_job : RawJob.t)
         (current_time : PyTime.datetime) (uuid4 : string)
         (i : nat) (closed_job : ClassifiedJob.t),
    let signature :=
      JobNormalizer.create_signature (RawJob.company_id raw_job)
                                     (RawJob.title raw_job)
                                     (RawJob.location raw_job) in
    _find_by_source_id self (RawJob.company_id raw_job)
                       (RawJob.source_identifier raw_job) = None ->
    _find_similar_recent_job self signature (RawJob.company_id raw_job)
                             current_time = Ok None ->
    _find_closed_similar_job self signature (RawJob.company_id raw_job)
    = Some (i, closed_job) ->
    exists job,
      snd (classify_job self raw_job current_time uuid4) = Ok job
      /\ status job = REOPENED
      /\ id job = id closed_job
      /\ ClassifiedJob.signature job = ClassifiedJob.signature closed_job.
Proof.
  intros M self raw now uuid i closed_job signature H1 H2 H3.
  rewrite (classify_job_reopened _ _ _ _ _ H1 H2 H3).
  destruct (ClassifierFacts.find_closed_similar_job_Some _ _ _ _ _ H3)
    as (k & Hn & _).
  destruct (classify_as_reopened_result M self raw
              (JobNormalizer.create_signature (RawJob.company_id raw)
                 (RawJob.title raw) (RawJob.location raw))
              i closed_job now k Hn)
    as (job & E & _ & Hsig & Hst & Hid & _).
  exists job. rewrite E. auto.
Qed.

Lemma reopening_keeps_stored_signature_witness :
  exists job,
    snd (Scenario.classify
           (Scenario.classifier [("j1", Scenario.closed_job)])
           (Scenario.reworded_posting (Some "job-789")) Scenario.mar15 "u2")
    = Ok job
    /\ status job = REOPENED
    /\ id job = "j1"
    /\ ClassifiedJob.signature job
       = "acme|senior software engineer|san francisco california".
Proof.
  apply (reopening_keeps_stored_signature
           RapidFuzz.metric
           (Scenario.classifier [("j1", Scenario.closed_job)])
           (Scenario.reworded_posting (Some "job-789")) Scenario.mar15 "u2"
           0%nat Scenario.closed_job);
    vm_compute; reflexivity.
Defined.

(** C2 as stated fails: a closed "... san francisco california" job is
    reopened by an observation whose fresh signature ends in
    "san francisco" (similarity 0.91), and the job returned still carries the
    stored signature. *)
Lemma reopening_signature_not_recomputed :
  _find_by_source_id (Scenario.classifier [("j1", Scenario.closed_job)])
                     "acme" (Some "job-789") = None
  /\ @_find_similar_recent_job RapidFuzz.metric
       (Scenario.classifier [("j1", Scenario.closed_job)])
       Scenario.reworded_signature "acme" Scenario.mar15
     = Ok None
  /\ @_find_closed_similar_job RapidFuzz.metric
       (Scenario.classifier [("j1", Scenario.closed_job)])
       Scenario.reworded_signature "acme"
     = Some (0%nat, Scenario.closed_job)
  /\ Scenario.reworded_signature = "acme|senior software engineer|san francisco"
  /\ option_map ClassifiedJob.signature
       (ok_value (snd (Scenario.classify
                         (Scenario.classifier [("j1", Scenario.closed_job)])
                         (Scenario.reworded_posting (Some "job-789"))
                         Scenario.mar15 "u2")))
     = Some "acme|senior software engineer|san francisco california"
  /\ option_map ClassifiedJob.signature
       (ok_value (snd (Scenario.classify
                         (Scenario.classifier [("j1", Scenario.closed_job)])
                         (Scenario.reworded_posting (Some "job-789"))
                         Scenario.mar15 "u2")))
     <> Some Scenario.reworded_signature.
Proof.
  repeat split; try (vm_compute; reflexivity).
  vm_compute. discriminate.
Qed.

(** C4 at a closed job last seen on 2024-02-01 (first seen 2024-01-15) and
    reopened by an observation of 2024-03-15: [last_seen] is overwritten
    before the reasoning is built, so the text gives the observation's date
    as the close date. *)
Theorem reopened_reasoning_shows_observation_date :
  PyTime.date_str (last_seen Scenario.closed_job) = "2024-02-01"
  /\ PyTime.date_str Scenario.mar15 = "2024-03-15"
  /\ option_map status
       (ok_value (snd (Scenario.classify
                         (Scenario.classifier [("j1", Scenario.closed_job)])
                         (Scenario.reworded_posting (Some "job-789"))
                         Scenario.mar15 "u2")))
     = Some REOPENED
  /\ option_map classification_reasoning
       (ok_value (snd (Scenario.classify
                         (Scenario.classifier [("j1", Scenario.closed_job)])
                         (Scenario.reworded_posting (Some "job-789"))
                         Scenario.mar15 "u2")))
     = Some "Job reopened (was closed on 2024-03-15, originally first seen 2024-01-15)".
Proof. repeat split; vm_compute; reflexivity. Qed.

(** ** Re-observation by source identifier *)

(** What [_update_existing_job] leaves in the job it mutates. *)
Lemma update_existing_job_result :
  forall (M : Fuzz.StringMetric) (self : JobClassifier.t) (raw_job : RawJob.t)
         (i : nat) (existing_job : ClassifiedJob.t)
         (current_time : PyTime.datetime) (k : string),
    nth_error (known_jobs self) i = Some (k, existing_job) ->
    exists job,
      _update_existing_job self (i, existing_job) raw_job current_time
      = (with_known_jobs self (JobDict.store i job (known_jobs self)), Ok job)
      /\ nth_error (JobDict.store i job (known_jobs self)) i = Some (k, job)
      /\ status job
         = (if JobStatus_eqb (status existing_job) MISSING then ACTIVE
            else status existing_job)
      /\ id job = id existing_job
      /\ last_seen job = current_time
      /\ observations job
         = (observations existing_job
              ++ [observation_of raw_job current_time None])%list.
Proof.
  intros M self raw i existing_job now k Hn.
  unfold _update_existing_job. eexists. split; [reflexivity|].
  split; [eapply JobDictFacts.store_nth_same; eauto|].
  cbn [status set_last_seen set_updated_at append_observation].
  destruct (JobStatus_eqb (status existing_job) MISSING); repeat split; reflexivity.
Qed.

(** C3, as the code has it. When the exact-identifier lookup resolves to a
    job whose status is Reopened, [classify_job] returns that job with its
    status still Reopened: only a Missing job is put back to Active. *)
Theorem reopened_job_stays_reopened :
  forall (M : Fuzz.StringMetric) (self : JobClassifier.t) (raw_job : RawJob.t)
         (current_time : PyTime.datetime) (uuid4 : string)
         (i : nat) (tracked_job : ClassifiedJob.t),
    _find_by_source_id self (RawJob.company_id raw_job)
                       (RawJob.source_identifier raw_job)
    = Some (i, tracked_job) ->
    status tracked_job = REOPENED ->
    exists k job,
      snd (classify_job self raw_job current_time uuid4) = Ok job
      /\ nth_error (known_jobs (fst (classify_job self raw_job current_time uuid4))) i
         = Some (k, job)
      /\ id job = id tracked_job
      /\ last_seen job = current_time
      /\ status job = REOPENED.
Proof.
  intros M self raw now uuid i tracked_job H Hst.
  rewrite (classify_job_exact _ _ _ _ _ H).
  destruct (ClassifierFacts.find_by_source_id_Some _ _ _ _ _ H) as (k & s & Hn & _).
  destruct (update_existing_job_result M self raw i tracked_job now k Hn)
    as (job & E & Hn' & Hs & Hid & Hl & _).
  exists k, job. rewrite E. cbn [fst snd known_jobs with_known_jobs].
  rewrite Hst in Hs. auto.
Qed.

Lemma reopened_job_stays_reopened_witness :
  exists k job,
    snd (Scenario.classify (Scenario.classifier [("j1", Scenario.reopened_job)])
           (Scenario.reworded_posting (Some "job-789"))
           (Scenario.mar15 + Scenario.days 1) "u3")
    = Ok job
    /\ nth_error
         (known_jobs
            (fst (Scenario.classify
                    (Scenario.classifier [("j1", Scenario.reopened_job)])
                    (Scenario.reworded_posting (Some "job-789"))
                    (Scenario.mar15 + Scenario.days 1) "u3")))
         0
       = Some (k, job)
    /\ id job = "j1"
    /\ last_seen job = Scenario.mar15 + Scenario.days 1
    /\ status job = REOPENED.
Proof.
  apply (reopened_job_stays_reopened
           RapidFuzz.metric (Scenario.classifier [("j1", Scenario.reopened_job)])
           (Scenario.reworded_posting (Some "job-789"))
           (Scenario.mar15 + Scenario.days 1) "u3" 0%nat Scenario.reopened_job);
    reflexivity.
Defined.

(** C3 as stated fails: a Reopened job observed again under its own source
    identifier is returned with status Reopened, not Active. *)
Lemma reopened_job_not_back_to_active :
  status Scenario.reopened_job = REOPENED
  /\ ClassifiedJob.company_id Scenario.reopened_job
     = RawJob.company_id (Scenario.reworded_posting (Some "job-789"))
  /\ ClassifiedJob.source_identifier Scenario.reopened_job
     = RawJob.source_identifier (Scenario.reworded_posting (Some "job-789"))
  /\ option_map status
       (ok_value (snd (Scenario.classify
                         (Scenario.classifier [("j1", Scenario.reopened_job)])
                         (Scenario.reworded_posting (Some "job-789"))
                         (Scenario.mar15 + Scenario.days 1) "u3")))
     = Some REOPENED
  /\ map (fun kj => status (snd kj))
         (known_jobs
            (fst (Scenario.classify
                    (Scenario.classifier [("j1", Scenario.reopened_job)])
                    (Scenario.reworded_posting (Some "job-789"))
                    (Scenario.mar15 + Scenario.days 1) "u3")))
     = [REOPENED].
Proof. repeat split. Qed.

(** C10, as the code has it. When a Closed job is the first job of the dict
    carrying the observation's company id and its non-empty source
    identifier, [classify_job] takes the exact-identifier path: it returns
    that job, still Closed, with [last_seen] bumped and one observation
    appended. Whenever a call turns a Closed job into a Reopened one, the
    observation's source identifier is absent, empty, or differs from the one
    stored in that job. *)
Theorem closed_job_exact_match_stays_closed :
  forall (M : Fuzz.StringMetric) (self : JobClassifier.t) (raw_job : RawJob.t)
         (current_time : PyTime.datetime) (uuid4 : string),
    (forall i k closed_job sid,
        nth_error (known_jobs self) i = Some (k, closed_job) ->
        status closed_job = CLOSED ->
        ClassifiedJob.company_id closed_job = RawJob.company_id raw_job ->
        RawJob.source_identifier raw_job = Some sid ->
        sid <> "" ->
        ClassifiedJob.source_identifier closed_job = Some sid ->
        (forall i' k' job',
            (i' < i)%nat -> nth_error (known_jobs self) i' = Some (k', job') ->
            ~ (ClassifiedJob.company_id job' = RawJob.company_id raw_job
               /\ ClassifiedJob.source_identifier job' = Some sid)) ->
        exists job,
          snd (classify_job self raw_job current_time uuid4) = Ok job
          /\ nth_error
               (known_jobs (fst (classify_job self raw_job current_time uuid4))) i
             = Some (k, job)
          /\ id job = id closed_job
          /\ status job = CLOSED
          /\ last_seen job = current_time
          /\ observations job
             = (observations closed_job
                  ++ [observation_of raw_job current_time None])%list)
    /\ (forall i k closed_job job,
           nth_error (known_jobs self) i = Some (k, closed_job) ->
           status closed_job = CLOSED ->
           nth_error
             (known_jobs (fst (classify_job self raw_job current_time uuid4))) i
           = Some (k, job) ->
           status job = REOPENED ->
           RawJob.source_identifier raw_job = None
           \/ RawJob.source_identifier raw_job = Some ""
           \/ ClassifiedJob.source_identifier closed_job
              <> RawJob.source_identifier raw_job).
Proof.
  intros M self raw now uuid. split.
  - intros i k closed_job sid Hn Hst Hc Hsid Hne Hjs Hfirst.
    assert (H : _find_by_source_id self (RawJob.company_id raw)
                                   (RawJob.source_identifier raw)
                = Some (i, closed_job)).
    { rewrite Hsid. eapply ClassifierFacts.find_by_source_id_first; eauto. }
    rewrite (classify_job_exact _ _ _ _ _ H).
    destruct (update_existing_job_result M self raw i closed_job now k Hn)
      as (job & E & Hn' & Hs & Hid & Hl & Ho).
    exists job. rewrite E. cbn [fst snd known_jobs with_known_jobs].
    rewrite Hst in Hs. cbn in Hs. auto 10.
  - intros i k closed_job job Hn Hst Hn' Hre.
    unfold classify_job in Hn'.
    destruct (_find_by_source_id self (RawJob.company_id raw)
                                 (RawJob.source_identifier raw))
      as [[i0 j0]|] eqn:Hexact.
    + exfalso.
      destruct (ClassifierFacts.find_by_source_id_Some _ _ _ _ _ Hexact)
        as (k0 & s & Hn0 & _).
      destruct (update_existing_job_result M self raw i0 j0 now k0 Hn0)
        as (job0 & E & Hs0 & Hs & _).
      rewrite E in Hn'. cbn [fst known_jobs with_known_jobs] in Hn'.
      destruct (Nat.eq_dec i i0) as [->|Hi].
      * rewrite Hs0 in Hn'. rewrite Hn0 in Hn. inversion Hn; subst.
        inversion Hn'; subst. rewrite Hst in Hs. cbn in Hs. congruence.
      * rewrite JobDictFacts.store_nth_other in Hn' by exact Hi. congruence.
    + destruct (_find_similar_recent_job self _ (RawJob.company_id raw) now)
        as [[r|]|e].
      * exfalso. unfold _classify_as_repost in Hn'.
        cbn [fst known_jobs with_known_jobs] in Hn'.
        destruct (JobDictFacts.set_nth _ uuid
                    (fresh_job raw
                       (JobNormalizer.create_signature (RawJob.company_id raw)
                          (RawJob.title raw) (RawJob.location raw))
                       now uuid REPOST
                       ("Likely repost of job " ++ id (snd r)
                        ++ " (similarity: "
                        ++ format_2f
                             (JobMatcher.calculate_similarity
                                (JobNormalizer.create_signature
                                   (RawJob.company_id raw) (RawJob.title raw)
                                   (RawJob.location raw))
                                (ClassifiedJob.signature (snd r)))
                        ++ ", first seen: "
                        ++ PyTime.date_str (first_seen (snd r)) ++ ")"))
                    _ _ _ Hn) as [H|H];
          rewrite H in Hn'; inversion Hn'; subst; cbn in Hre; congruence.
      * destruct (_find_closed_similar_job self _ (RawJob.company_id raw))
          as [[i0 j0]|] eqn:Hclosed.
        -- destruct (ClassifierFacts.find_closed_similar_job_Some _ _ _ _ _ Hclosed)
             as (k0 & Hn0 & Hc0 & _).
           destruct (Nat.eq_dec i i0) as [->|Hi].
           ++ rewrite Hn0 in Hn. inversion Hn; subst.
              destruct (ClassifierFacts.find_by_source_id_None _ _ _ Hexact)
                as [H|[H|H]]; auto.
              right; right. eapply H; eauto.
           ++ exfalso. unfold _classify_as_reopened in Hn'.
              cbn [fst known_jobs with_known_jobs] in Hn'.
              rewrite JobDictFacts.store_nth_other in Hn' by exact Hi. congruence.
        -- exfalso. unfold _classify_as_new in Hn'.
           cbn [fst known_jobs with_known_jobs] in Hn'.
           destruct (JobDictFacts.set_nth _ uuid
                       (fresh_job raw
                          (JobNormalizer.create_signature (RawJob.company_id raw)
                             (RawJob.title raw) (RawJob.location raw))
                          now uuid NEW "New job posting (no previous match found)")
                       _ _ _ Hn) as [H|H];
             rewrite H in Hn'; inversion Hn'; subst; cbn in Hre; congruence.
      * exfalso. cbn [fst] in Hn'. congruence.
Qed.

Lemma closed_job_exact_match_stays_closed_witness :
  (exists job,
      snd (Scenario.classify (Scenario.classifier [("j1", Scenario.closed_job)])
             (Scenario.same_posting (Some "job-123")) Scenario.mar15 "u2")
      = Ok job
      /\ nth_error
           (known_jobs
              (fst (Scenario.classify
                      (Scenario.classifier [("j1", Scenario.closed_job)])
                      (Scenario.same_posting (Some "job-123")) Scenario.mar15 "u2")))
           0
         = Some ("j1", job)
      /\ id job = "j1"
      /\ status job = CLOSED
      /\ last_seen job = Scenario.mar15
      /\ observations job
         = (observations Scenario.closed_job
              ++ [observation_of (Scenario.same_posting (Some "job-123"))
                                 Scenario.mar15 None])%list)
  /\ (RawJob.source_identifier (Scenario.reworded_posting (Some "job-789")) = None
      \/ RawJob.source_identifier (Scenario.reworded_posting (Some "job-789"))
         = Some ""
      \/ ClassifiedJob.source_identifier Scenario.closed_job
         <> RawJob.source_identifier (Scenario.reworded_posting (Some "job-789"))).
Proof.
  split.
  - apply (proj1 (closed_job_exact_match_stays_closed
                    RapidFuzz.metric
                    (Scenario.classifier [("j1", Scenario.closed_job)])
                    (Scenario.same_posting (Some "job-123")) Scenario.mar15 "u2")
                 0%nat "j1" Scenario.closed_job "job-123");
      try reflexivity; [discriminate | intros i' k' job' Hlt; lia].
  - apply (proj2 (closed_job_exact_match_stays_closed
                    RapidFuzz.metric
                    (Scenario.classifier [("j1", Scenario.closed_job)])
                    (Scenario.reworded_posting (Some "job-789"))
                    Scenario.mar15 "u2")
                 0%nat "j1" Scenario.closed_job
                 (Scenario.tracked_after_reopening));
      vm_compute; reflexivity.
Defined.

(** C10 as stated fails twice. A Closed job whose stored source identifier is
    the empty string, observed again with that same non-null identifier, does
    not take the exact-identifier path ([if not source_identifier]) and is
    reopened. And when an earlier job carries the same company id and source
    identifier, the exact-identifier path returns that earlier job, not the
    Closed one. *)
Lemma closed_job_exact_match_counterexample :
  (status Scenario.closed_unidentified = CLOSED
   /\ ClassifiedJob.source_identifier Scenario.closed_unidentified
      = RawJob.source_identifier (Scenario.same_posting (Some ""))
   /\ RawJob.source_identifier (Scenario.same_posting (Some "")) <> None
   /\ _find_by_source_id
        (Scenario.classifier [("j1", Scenario.closed_unidentified)])
        "acme" (Some "")
      = None
   /\ option_map (fun job => (id job, status job))
        (ok_value (snd (Scenario.classify
                          (Scenario.classifier [("j1", Scenario.closed_unidentified)])
                          (Scenario.same_posting (Some "")) Scenario.mar15 "u2")))
      = Some ("j1", REOPENED))
  /\ (ClassifiedJob.source_identifier Scenario.closed_job
      = RawJob.source_identifier (Scenario.same_posting (Some "job-123"))
      /\ option_map (fun job => (id job, status job))
           (ok_value (snd (Scenario.classify
                             (Scenario.classifier
                                [("j0", Scenario.missing_twin);
                                 ("j1", Scenario.closed_job)])
                             (Scenario.same_posting (Some "job-123"))
                             Scenario.mar15 "u2")))
         = Some ("j0", ACTIVE)
      /\ nth_error
           (known_jobs
              (fst (Scenario.classify
                      (Scenario.classifier
                         [("j0", Scenario.missing_twin);
                          ("j1", Scenario.closed_job)])
                      (Scenario.same_posting (Some "job-123"))
                      Scenario.mar15 "u2")))
           1
         = Some ("j1", Scenario.closed_job)).
Proof.
  repeat split; try (vm_compute; reflexivity). discriminate.
Qed.

(** ** The repost window *)

Section PerfectMatch.

Context {M : Fuzz.StringMetric} {L : Fuzz.Lawful M}.

(** Among candidates that include one scoring 1 against the query, a
    matcher with threshold at most 1 always selects some candidate. *)
Lemma best_among_perfect :
  forall (self : JobClassifier.t) (signature : string)
         (jobs : list JobDict.ref) (r : JobDict.ref),
    In r jobs ->
    (JobMatcher.calculate_similarity signature (ClassifiedJob.signature (snd r))
     == 1)%Q ->
    (JobMatcher.similarity_threshold (matcher self) <= 1)%Q ->
    exists r', best_among self signature jobs = Some r'.
Proof.
  intros self signature jobs r Hin Hone Hthr. unfold best_among.
  destruct jobs as [|r0 jobs0] eqn:Ejobs; [contradiction|]. rewrite <- Ejobs in *.
  set (signatures := map (fun r1 : JobDict.ref => ClassifiedJob.signature (snd r1)) jobs).
  assert (Hc : In (ClassifiedJob.signature (snd r)) signatures)
    by (apply in_map_iff; exists r; auto).
  unfold JobMatcher.find_best_match, JobMatcher.find_best_match_with_score.
  destruct (MatcherFacts.scan_result signature signatures None 0%Q)
    as (_ & Hall & Hres).
  specialize (Hall _ Hc). rewrite Hone in Hall.
  destruct Hres as [Hres|(c & Hcin & Hres)].
  - rewrite Hres in Hall. cbn [snd] in Hall. exfalso.
    unfold Qle in Hall; cbn in Hall; lia.
  - rewrite Hres in *. cbn [snd] in Hall.
    assert (Hge : Qle_bool (JobMatcher.similarity_threshold (matcher self))
                           (JobMatcher.calculate_similarity signature c) = true)
      by (apply Qle_bool_iff; eapply Qle_trans; eauto).
    rewrite Hge.
    destruct signatures as [|s0 sigs] eqn:Es; [contradiction|]. cbn [fst].
    destruct (PyStr.truthy c) eqn:Et.
    + destruct (find _ jobs) as [r'|] eqn:Ef; [now exists r'|]. exfalso.
      rewrite <- Es in Hcin. apply in_map_iff in Hcin.
      destruct Hcin as (rc & Hrc & Hinc).
      pose proof (find_none _ _ Ef rc Hinc) as Hn. cbn in Hn.
      rewrite Hrc, String.eqb_refl in Hn. discriminate.
    + exfalso. apply ClassifierFacts.truthy_false in Et. subst c.
      rewrite MatcherFacts.calculate_similarity_empty in Hall.
      unfold Qle in Hall; cbn in Hall; lia.
Qed.

End PerfectMatch.

(** C1, as the code has it. A tracked job of the observation's company that
    is not Closed and whose [last_seen] equals exactly the cutoff
    [current_time - repost_window_days] is in the recent-similar candidate
    set: the comparison is [last_seen >= cutoff], so the window boundary is
    inclusive. An observation with the same signature and no exact-identifier
    match, arriving exactly [repost_window_days] after that job was last seen,
    is therefore classified Repost. *)
Theorem repost_window_boundary_inclusive :
  forall (M : Fuzz.StringMetric) (L : Fuzz.Lawful M)
         (self : JobClassifier.t) (raw_job : RawJob.t)
         (current_time : PyTime.datetime) (uuid4 : string)
         (i : nat) (k : string) (tracked_job : ClassifiedJob.t),
    let signature :=
      JobNormalizer.create_signature (RawJob.company_id raw_job)
                                     (RawJob.title raw_job)
                                     (RawJob.location raw_job) in
    nth_error (known_jobs self) i = Some (k, tracked_job) ->
    ClassifiedJob.company_id tracked_job = RawJob.company_id raw_job ->
    status tracked_job <> CLOSED ->
    cutoff current_time (repost_window_days self) = Ok (last_seen tracked_job) ->
    In (i, tracked_job)
       (recent_jobs self (RawJob.company_id raw_job) (last_seen tracked_job))
    /\ (ClassifiedJob.signature tracked_job = signature ->
        _find_by_source_id self (RawJob.company_id raw_job)
                           (RawJob.source_identifier raw_job) = None ->
        (JobMatcher.similarity_threshold (matcher self) <= 1)%Q ->
        exists job,
          snd (classify_job self raw_job current_time uuid4) = Ok job
          /\ classification job = REPOST
          /\ id job = uuid4).
Proof.
  intros M L self raw now uuid i k tracked_job signature Hn Hc Hst Hcut.
  assert (Hin : In (i, tracked_job)
                   (recent_jobs self (RawJob.company_id raw) (last_seen tracked_job))).
  { apply ClassifierFacts.recent_jobs_In. cbn [snd].
    repeat split; auto; [eapply JobDictFacts.nth_error_values; eauto | lia]. }
  split; [exact Hin|].
  intros Hsig Hexact Hthr.
  assert (Hone : (JobMatcher.calculate_similarity
                    signature (ClassifiedJob.signature (snd (i, tracked_job)))
                  == 1)%Q).
  { cbn [snd]. rewrite Hsig. apply MatcherFacts.calculate_similarity_same.
    right. apply MatcherFacts.signature_has_token. }
  destruct (best_among_perfect self signature _ _ Hin Hone Hthr) as [r' Hr'].
  assert (Hsim : _find_similar_recent_job self signature (RawJob.company_id raw) now
                 = Ok (Some r')).
  { unfold _find_similar_recent_job. rewrite Hcut. cbn [bind]. now rewrite Hr'. }
  rewrite (classify_job_repost _ _ _ _ _ Hexact Hsim).
  unfold _classify_as_repost. cbn [snd]. eexists. split; [reflexivity|].
  split; reflexivity.
Qed.

Lemma repost_window_boundary_inclusive_witness :
  In (0%nat, Scenario.active_job)
     (recent_jobs (Scenario.classifier [("j1", Scenario.active_job)]) "acme"
                  Scenario.jan15)
  /\ exists job,
      snd (Scenario.classify (Scenario.classifier [("j1", Scenario.active_job)])
             (Scenario.same_posting (Some "job-456"))
             (Scenario.jan15 + Scenario.days 30) "u2")
      = Ok job
      /\ classification job = REPOST
      /\ id job = "u2".
Proof.
  pose proof (repost_window_boundary_inclusive
                RapidFuzz.metric RapidFuzzFacts.lawful
                (Scenario.classifier [("j1", Scenario.active_job)])
                (Scenario.same_posting (Some "job-456"))
                (Scenario.jan15 + Scenario.days 30) "u2"
                0%nat "j1" Scenario.active_job
                eq_refl eq_refl ltac:(discriminate) eq_refl) as [Hin Hrepost].
  split; [exact Hin|].
  apply Hrepost; [reflexivity | reflexivity | unfold Qle; cbn; lia].
Defined.

(** C1 as stated fails: with a 30-day window, a job last seen on 2024-01-15
    12:00 is a repost candidate for an observation of 2024-02-14 12:00,
    exactly 30 days later, and the otherwise-identical observation is
    classified Repost; one microsecond later it is classified New. *)
Lemma repost_window_boundary_counterexample :
  cutoff (Scenario.jan15 + Scenario.days 30) 30
  = Ok (last_seen Scenario.active_job)
  /\ recent_jobs (Scenario.classifier [("j1", Scenario.active_job)]) "acme"
                 (last_seen Scenario.active_job)
     = [(0%nat, Scenario.active_job)]
  /\ option_map classification
       (ok_value (snd (Scenario.classify
                         (Scenario.classifier [("j1", Scenario.active_job)])
                         (Scenario.same_posting (Some "job-456"))
                         (Scenario.jan15 + Scenario.days 30) "u2")))
     = Some REPOST
  /\ option_map classification
       (ok_value (snd (Scenario.classify
                         (Scenario.classifier [("j1", Scenario.active_job)])
                         (Scenario.same_posting (Some "job-456"))
                         (Scenario.jan15 + Scenario.days 30 + 1) "u2")))
     = Some NEW.
Proof. repeat split; vm_compute; reflexivity. Qed.

Lemma classification_never_mutated_witness :
  (classifications
     (fst (Scenario.classify (Scenario.classifier [("j1", Scenario.closed_job)])
             (Scenario.same_posting (Some "job-123")) Scenario.mar15 "u2"))
   = [("j1", NEW)]
   /\ option_map classification
        (ok_value
           (snd (Scenario.classify
                   (Scenario.classifier [("j1", Scenario.closed_job)])
                   (Scenario.same_posting (Some "job-123")) Scenario.mar15 "u2")))
      = Some NEW)
  /\ (classifications
        (fst (Scenario.classify (Scenario.classifier [("j1", Scenario.closed_job)])
                (Scenario.reworded_posting (Some "job-789")) Scenario.mar15 "u2"))
      = [("j1", NEW)]
      /\ option_map classification
           (ok_value
              (snd (Scenario.classify
                      (Scenario.classifier [("j1", Scenario.closed_job)])
                      (Scenario.reworded_posting (Some "job-789"))
                      Scenario.mar15 "u2")))
         = Some NEW).
Proof.
  split.
  - apply (proj1 (classification_never_mutated
                    RapidFuzz.metric
                    (Scenario.classifier [("j1", Scenario.closed_job)])
                    (Scenario.same_posting (Some "job-123")) Scenario.mar15 "u2"
                    [] 7)
                 (0%nat, Scenario.closed_job)).
    reflexivity.
  - apply (proj1 (proj2 (classification_never_mutated
                           RapidFuzz.metric
                           (Scenario.classifier [("j1", Scenario.closed_job)])
                           (Scenario.reworded_posting (Some "job-789"))
                           Scenario.mar15 "u2" [] 7))
                 (0%nat, Scenario.closed_job));
      vm_compute; reflexivity.
Defined.

(** * Further properties of the code *)

(** ** Text produced by the normalizer *)

Module TextFacts.

Import Text.

Lemma all_chars_app :
  forall p a b, all_chars p (a ++ b) = all_chars p a && all_chars p b.
Proof.
  intros p; induction a as [|c a IH]; intro b; cbn; [reflexivity|].
  now rewrite IH, andb_assoc.
Qed.

Lemma all_chars_weaken :
  forall (p q : ascii -> bool) s,
    (forall c, p c = true -> q c = true) ->
    all_chars p s = true -> all_chars q s = true.
Proof.
  intros p q s H; induction s as [|c s IH]; cbn; [reflexivity|].
  rewrite !andb_true_iff. intros [Hc Hs]. auto.
Qed.

Lemma all_chars_map :
  forall (p q : ascii -> bool) f s,
    (forall c, p c = true -> q (f c) = true) ->
    all_chars p s = true -> all_chars q (PyStr.map_chars f s) = true.
Proof.
  intros p q f s H; induction s as [|c s IH]; cbn; [reflexivity|].
  rewrite !andb_true_iff. intros [Hc Hs]. auto.
Qed.

Lemma all_chars_any : forall s, all_chars (fun _ => true) s = true.
Proof. induction s as [|c s IH]; cbn; auto. Qed.

Lemma all_chars_join :
  forall p sep parts,
    all_chars p sep = true ->
    Forall (fun w => all_chars p w = true) parts ->
    all_chars p (PyStr.join sep parts) = true.
Proof.
  intros p sep parts Hsep H; unfold PyStr.join.
  induction H as [|w parts Hw Hparts IH]; [reflexivity|].
  destruct parts as [|w' parts]; cbn [String.concat]; [exact Hw|].
  rewrite !all_chars_app, Hw, Hsep. exact IH.
Qed.

Lemma all_chars_snoc :
  forall p acc c,
    all_chars p acc = true -> p c = true -> all_chars p (PyStr.snoc acc c) = true.
Proof.
  intros p acc c Ha Hc. unfold PyStr.snoc. rewrite all_chars_app, Ha. cbn.
  now rewrite Hc.
Qed.

(** The words of [s.split()] consist of non-whitespace characters of [s]. *)
Lemma split_ws_from_chars :
  forall (p : ascii -> bool) s acc,
    all_chars (fun c => p c && negb (PyStr.isspace c)) acc = true ->
    all_chars p s = true ->
    Forall (fun w => all_chars (fun c => p c && negb (PyStr.isspace c)) w = true)
           (PyStr.split_ws_from acc s).
Proof.
  intros p; induction s as [|c s IH]; intros acc Ha Hs; cbn [PyStr.split_ws_from].
  - destruct (PyStr.truthy acc); auto.
  - cbn in Hs. apply andb_true_iff in Hs. destruct Hs as [Hc Hs].
    destruct (PyStr.isspace c) eqn:E.
    + destruct (PyStr.truthy acc); [constructor; auto|]; now apply IH.
    + apply IH; [|exact Hs]. apply all_chars_snoc; [exact Ha|].
      now rewrite Hc, E.
Qed.

Lemma split_ws_chars :
  forall (p : ascii -> bool) s,
    all_chars p s = true ->
    Forall (fun w => all_chars (fun c => p c && negb (PyStr.isspace c)) w = true)
           (PyStr.split_ws s).
Proof. intros; now apply split_ws_from_chars. Qed.

Lemma split_on_from_chars :
  forall (p : ascii -> bool) sep s acc,
    all_chars p acc = true ->
    all_chars (fun c => p c || Ascii.eqb c sep) s = true ->
    Forall (fun w => all_chars p w = true) (PyStr.split_on_from sep acc s).
Proof.
  intros p sep; induction s as [|c s IH]; intros acc Ha Hs; cbn [PyStr.split_on_from].
  - auto.
  - cbn in Hs. apply andb_true_iff in Hs. destruct Hs as [Hc Hs].
    destruct (Ascii.eqb c sep) eqn:E.
    + constructor; [exact Ha | now apply IH].
    + apply IH; [|exact Hs]. apply all_chars_snoc; [exact Ha|].
      now rewrite orb_false_r in Hc.
Qed.

Lemma lstrip_chars :
  forall p f s, all_chars p s = true -> all_chars p (PyStr.lstrip f s) = true.
Proof.
  intros p f; induction s as [|c s IH]; cbn; [reflexivity|].
  intro H. destruct (f c); [|exact H].
  apply andb_true_iff in H. now apply IH.
Qed.

Lemma rstrip_chars :
  forall p f s, all_chars p s = true -> all_chars p (PyStr.rstrip f s) = true.
Proof.
  intros p f; induction s as [|c s IH]; cbn; [reflexivity|].
  intro H. apply andb_true_iff in H. destruct H as [Hc Hs].
  destruct (f c && negb (PyStr.truthy (PyStr.rstrip f s))); [reflexivity|].
  cbn. now rewrite Hc, IH.
Qed.

Lemma strip_chars :
  forall p s, all_chars p s = true -> all_chars p (PyStr.strip s) = true.
Proof. intros; unfold PyStr.strip, PyStr.strip_by. now apply rstrip_chars, lstrip_chars. Qed.

Lemma collapse_ws_from_chars :
  forall (p : ascii -> bool) s r,
    p " "%char = true ->
    all_chars (fun c => p c || PyStr.isspace c) s = true ->
    all_chars p (PyStr.collapse_ws_from r s) = true.
Proof.
  intros p; induction s as [|c s IH]; intros r Hsp Hs; cbn; [reflexivity|].
  cbn in Hs. apply andb_true_iff in Hs. destruct Hs as [Hc Hs].
  destruct (PyStr.isspace c) eqn:E.
  - destruct r; cbn; [|rewrite Hsp]; now apply IH.
  - cbn. rewrite orb_false_r in Hc. rewrite Hc. now apply IH.
Qed.

(** Whitespace after [re.sub("\s+", " ", s).strip()]. *)
Lemma collapse_spaced :
  forall s r, spaced r (PyStr.collapse_ws_from r s) = true.
Proof.
  induction s as [|c s IH]; intro r; cbn; [reflexivity|].
  destruct (PyStr.isspace c) eqn:E.
  - destruct r; [apply IH|]. cbn. apply IH.
  - cbn. rewrite E. apply IH.
Qed.

Lemma lstrip_spaced :
  forall s r, spaced r s = true -> spaced true (PyStr.lstrip PyStr.isspace s) = true.
Proof.
  induction s as [|c s IH]; intros r H; cbn in *; [reflexivity|].
  destruct (PyStr.isspace c) eqn:E.
  - apply andb_true_iff in H. destruct H as [_ H]. now apply (IH true).
  - cbn. now rewrite E.
Qed.

Lemma rstrip_spaced :
  forall s r, spaced r s = true -> spaced r (PyStr.rstrip PyStr.isspace s) = true.
Proof.
  induction s as [|c s IH]; intros r H; cbn in *; [reflexivity|].
  destruct (PyStr.isspace c) eqn:E; cbn.
  - apply andb_true_iff in H. destruct H as [H1 H2].
    destruct (PyStr.truthy (PyStr.rstrip PyStr.isspace s)); cbn; [|reflexivity].
    rewrite E, H1. now apply IH.
  - rewrite E. now apply IH.
Qed.

Lemma rstrip_no_trailing_space :
  forall s, no_trailing_space (PyStr.rstrip PyStr.isspace s) = true.
Proof.
  induction s as [|c s IH]; cbn; [reflexivity|].
  destruct (PyStr.isspace c) eqn:Ec;
    destruct (PyStr.rstrip PyStr.isspace s) as [|d t] eqn:E; cbn.
  - reflexivity.
  - exact IH.
  - now rewrite Ec.
  - exact IH.
Qed.

Lemma strip_collapse_shape :
  forall s,
    spaced true (PyStr.strip (PyStr.collapse_ws s)) = true
    /\ no_trailing_space (PyStr.strip (PyStr.collapse_ws s)) = true.
Proof.
  intro s; unfold PyStr.strip, PyStr.strip_by, PyStr.collapse_ws. split.
  - apply rstrip_spaced. eapply lstrip_spaced. apply collapse_spaced.
  - apply rstrip_no_trailing_space.
Qed.

Lemma concat_cons_nonempty :
  forall sep x l, l <> [] -> String.concat sep (x :: l) = x ++ sep ++ String.concat sep l.
Proof. intros sep x [|y l] H; [congruence | reflexivity]. Qed.

Lemma append_snoc :
  forall acc c s, PyStr.snoc acc c ++ s = acc ++ String c s.
Proof.
  intros acc c s; unfold PyStr.snoc. induction acc as [|a acc IH]; cbn; [reflexivity|].
  now rewrite IH.
Qed.

Lemma truthy_snoc : forall acc c, PyStr.truthy (PyStr.snoc acc c) = true.
Proof. intros [|a acc] c; reflexivity. Qed.

(** A string in that shape is its words joined by single blanks. *)
Lemma split_ws_from_rejoin :
  forall s acc,
    spaced (negb (PyStr.truthy acc)) s = true ->
    no_trailing_space s = true ->
    PyStr.join " " (PyStr.split_ws_from acc s) = acc ++ s.
Proof.
  unfold PyStr.join.
  induction s as [|c s IH]; intros acc Hsp Hnt; cbn [PyStr.split_ws_from].
  - destruct (PyStr.truthy acc) eqn:Ea; cbn.
    + clear. induction acc as [|a acc IHa]; cbn; congruence.
    + destruct acc; [reflexivity | discriminate].
  - cbn [spaced] in Hsp.
    destruct (PyStr.isspace c) eqn:E.
    + apply andb_true_iff in Hsp. destruct Hsp as [Hsp Hs].
      apply andb_true_iff in Hsp. destruct Hsp as [Hc Hacc].
      rewrite negb_involutive in Hacc. rewrite Hacc.
      apply Ascii.eqb_eq in Hc. subst c.
      destruct s as [|d s']; [cbn in Hnt; discriminate|].
      assert (Hnt' : no_trailing_space (String d s') = true) by exact Hnt.
      assert (Hd : PyStr.isspace d = false).
      { cbn in Hs. destruct (PyStr.isspace d); [|reflexivity].
        rewrite andb_false_r in Hs. discriminate. }
      rewrite concat_cons_nonempty.
      * rewrite (IH EmptyString Hs Hnt'). reflexivity.
      * cbn [PyStr.split_ws_from]. rewrite Hd.
        apply MatcherFacts.split_ws_from_nonempty. left. apply truthy_snoc.
    + rewrite IH.
      * apply append_snoc.
      * now rewrite truthy_snoc.
      * destruct s; [reflexivity | exact Hnt].
Qed.

Lemma strip_collapse_rejoined :
  forall s, rejoined (PyStr.strip (PyStr.collapse_ws s)) = PyStr.strip (PyStr.collapse_ws s).
Proof.
  intro s. destruct (strip_collapse_shape s) as [H1 H2].
  unfold rejoined, PyStr.split_ws. now rewrite split_ws_from_rejoin.
Qed.

End TextFacts.

(** ** The normalizer *)

Module NormalizerFacts.

Import Text TextFacts JobNormalizer.

Lemma dict_get_forall :
  forall (P : string -> bool) d k v,
    forallb (fun kv : string * string => P (snd kv)) d = true ->
    PyStr.dict_get d k = Some v -> P v = true.
Proof.
  intros P; induction d as [|[k' v'] d IH]; intros k v Hall H; cbn in *; [discriminate|].
  apply andb_true_iff in Hall. destruct Hall as [Hv Hd].
  destruct (String.eqb k k'); [now inversion H; subst | eauto].
Qed.

Lemma tables_well_formed :
  forallb (fun kv : string * string => well_formed (snd kv)) TITLE_ABBREVIATIONS = true
  /\ forallb (fun kv : string * string => well_formed (snd kv)) LOCATION_NORMALIZATIONS
     = true
  /\ forallb (fun kv : string * string => well_formed (snd kv)) STATE_ABBREVIATIONS
     = true.
Proof. repeat split; vm_compute; reflexivity. Qed.

Lemma well_formed_spec :
  forall v, well_formed v = true ->
            all_chars clean v = true /\ rejoined v = v /\ v <> "".
Proof.
  intros v H. unfold well_formed in H.
  apply andb_true_iff in H. destruct H as [H H3].
  apply andb_true_iff in H. destruct H as [H1 H2].
  apply String.eqb_eq in H2. repeat split; auto. intros ->; discriminate.
Qed.

Lemma sub_not_in_chars :
  forall (keep : ascii -> bool) s,
    keep " "%char = true -> all_chars keep (PyStr.sub_not_in keep s) = true.
Proof.
  intros keep s Hsp. unfold PyStr.sub_not_in.
  apply (all_chars_map (fun _ => true)); [|apply all_chars_any].
  intros c _. destruct (keep c) eqn:E; auto.
Qed.

Lemma space_clean_or_space :
  forall c, clean c = true -> (clean c || PyStr.isspace c) = true.
Proof. intros c H; now rewrite H. Qed.

Lemma expand_title_word_chars :
  forall w,
    all_chars (fun c => (PyStr.isword c || PyStr.isspace c || is_hyphen c)
                        && negb (PyStr.isspace c)) w = true ->
    all_chars (fun c => clean c || is_hyphen c) (expand_title_word w) = true.
Proof.
  intros w H. unfold expand_title_word.
  destruct (PyStr.dict_get TITLE_ABBREVIATIONS _) as [full|] eqn:E.
  - apply (dict_get_forall well_formed) in E; [|apply tables_well_formed].
    apply well_formed_spec in E. destruct E as [E _].
    eapply all_chars_weaken; [|exact E]. intros c Hc; now rewrite Hc.
  - eapply all_chars_weaken; [|exact H]. intros c Hc. unfold clean.
    apply andb_true_iff in Hc. destruct Hc as [Hc Hn].
    destruct (PyStr.isword c); [reflexivity|].
    destruct (PyStr.isspace c); [discriminate|]. cbn in *. now rewrite Hc, orb_true_r.
Qed.

Lemma normalize_title_clean :
  forall title, all_chars clean (normalize_title title) = true.
Proof.
  intro title; unfold normalize_title.
  destruct (PyStr.truthy title); [|reflexivity]. cbn [negb].
  apply strip_chars. unfold PyStr.collapse_ws.
  apply collapse_ws_from_chars; [reflexivity|].
  unfold PyStr.replace_char.
  apply (all_chars_map (fun c => clean c || is_hyphen c)).
  { intros c Hc. unfold is_hyphen in Hc.
    destruct (Ascii.eqb c "-"%char); [reflexivity|].
    rewrite orb_false_r in Hc. now rewrite Hc. }
  apply all_chars_join; [reflexivity|].
  apply Forall_map.
  eapply Forall_impl; [intros w Hw; apply expand_title_word_chars; exact Hw|].
  apply split_ws_chars. apply sub_not_in_chars. reflexivity.
Qed.

Lemma expand_location_word_chars :
  forall w,
    all_chars (fun c => (PyStr.isword c || PyStr.isspace c) && negb (PyStr.isspace c))
              w = true ->
    all_chars clean (expand_location_word w) = true.
Proof.
  intros w H. unfold expand_location_word.
  destruct (if PyStr.len w =? 2 then _ else None) as [state|] eqn:E.
  - destruct (PyStr.len w =? 2); [|discriminate].
    apply (dict_get_forall well_formed) in E; [|apply tables_well_formed].
    now apply well_formed_spec in E.
  - destruct (PyStr.dict_get LOCATION_NORMALIZATIONS w) as [place|] eqn:E'.
    + apply (dict_get_forall well_formed) in E'; [|apply tables_well_formed].
      now apply well_formed_spec in E'.
    + eapply all_chars_weaken; [|exact H]. intros c Hc. unfold clean.
      apply andb_true_iff in Hc. destruct Hc as [Hc Hn].
      destruct (PyStr.isword c); [reflexivity|].
      destruct (PyStr.isspace c); discriminate.
Qed.

Lemma normalize_location_clean :
  forall location, all_chars clean (normalize_location location) = true.
Proof.
  intro location; unfold normalize_location.
  destruct (PyStr.truthy location); [|reflexivity]. cbn [negb].
  destruct (PyStr.dict_get LOCATION_NORMALIZATIONS _) as [place|] eqn:E.
  { apply (dict_get_forall well_formed) in E; [|apply tables_well_formed].
    now apply well_formed_spec in E. }
  match goal with |- all_chars clean (if PyStr.truthy ?n then _ else _) = true =>
    assert (H : all_chars clean n = true); [|destruct (PyStr.truthy n); [exact H | reflexivity]]
  end.
  apply strip_chars. unfold PyStr.collapse_ws.
  apply collapse_ws_from_chars; [reflexivity|].
  eapply all_chars_weaken; [apply space_clean_or_space|].
  apply all_chars_join; [reflexivity|].
  apply Forall_map.
  assert (Hparts :
            Forall (fun w => all_chars (fun c => PyStr.isword c || PyStr.isspace c) w = true)
                   (map PyStr.strip
                        (PyStr.split_on ","%char
                           (PyStr.sub_not_in
                              (fun c => PyStr.isword c || PyStr.isspace c || is_comma c)
                              (PyStr.lower location))))).
  { apply Forall_map.
    eapply Forall_impl; [intros w Hw; apply strip_chars; exact Hw|].
    unfold PyStr.split_on. apply split_on_from_chars; [reflexivity|].
    apply sub_not_in_chars. reflexivity. }
  eapply Forall_impl; [|exact Hparts].
  intros part Hpart. apply all_chars_join; [reflexivity|].
  apply Forall_map.
  eapply Forall_impl; [intros w Hw; apply expand_location_word_chars; exact Hw|].
  now apply split_ws_chars.
Qed.

Lemma clean_not_pipe : forall s, all_chars clean s = true -> all_chars not_pipe s = true.
Proof.
  intros s; apply all_chars_weaken. intros c H. unfold not_pipe.
  destruct (Ascii.eqb_spec c "|"%char) as [->|]; [discriminate H | reflexivity].
Qed.

Lemma split_on_from_free :
  forall sep a acc,
    all_chars (fun c => negb (Ascii.eqb c sep)) a = true ->
    PyStr.split_on_from sep acc a = [acc ++ a].
Proof.
  intros sep; induction a as [|c a IH]; intros acc H; cbn in *.
  - f_equal. clear. induction acc; cbn; congruence.
  - apply andb_true_iff in H. destruct H as [Hc Ha].
    apply negb_true_iff in Hc. rewrite Hc, IH by exact Ha.
    now rewrite append_snoc.
Qed.

Lemma split_on_from_app :
  forall sep a acc rest,
    all_chars (fun c => negb (Ascii.eqb c sep)) a = true ->
    PyStr.split_on_from sep acc (a ++ String sep rest)
    = (acc ++ a) :: PyStr.split_on_from sep EmptyString rest.
Proof.
  intros sep; induction a as [|c a IH]; intros acc rest H; cbn in *.
  - rewrite Ascii.eqb_refl. f_equal. clear. induction acc; cbn; congruence.
  - apply andb_true_iff in H. destruct H as [Hc Ha].
    apply negb_true_iff in Hc. rewrite Hc, IH by exact Ha.
    now rewrite append_snoc.
Qed.

Lemma lower_char_idempotent :
  forall c, PyStr.lower_char (PyStr.lower_char c) = PyStr.lower_char c.
Proof. intros [[] [] [] [] [] [] [] []]; vm_compute; reflexivity. Qed.

Lemma lower_idempotent : forall s, PyStr.lower (PyStr.lower s) = PyStr.lower s.
Proof.
  unfold PyStr.lower; induction s as [|c s IH]; cbn; [reflexivity|].
  now rewrite lower_char_idempotent, IH.
Qed.

Lemma truthy_lower : forall s, PyStr.truthy (PyStr.lower s) = PyStr.truthy s.
Proof. intros [|c s]; reflexivity. Qed.

End NormalizerFacts.

(** X1. [normalize_location] never returns the empty string: whatever the
    input, the location component of a signature is non-empty. *)
Theorem normalize_location_never_empty :
  forall location, JobNormalizer.normalize_location location <> "".
Proof.
  intro location. unfold JobNormalizer.normalize_location.
  destruct (PyStr.truthy location); cbn [negb]; [|discriminate].
  destruct (PyStr.dict_get _ _) as [place|] eqn:E.
  - apply (NormalizerFacts.dict_get_forall Text.well_formed) in E;
      [|apply NormalizerFacts.tables_well_formed].
    now apply NormalizerFacts.well_formed_spec in E.
  - match goal with |- (if PyStr.truthy ?n then _ else _) <> _ =>
      destruct n; cbn; discriminate end.
Qed.

(** X2. A normalized title and a normalized location consist of word
    characters and blanks only (no hyphen, comma, pipe or other punctuation),
    and each equals its own words joined by single blanks: no leading,
    trailing or repeated whitespace. *)
Theorem normalized_text_shape :
  forall text,
    (Text.all_chars Text.clean (JobNormalizer.normalize_title text) = true
     /\ Text.rejoined (JobNormalizer.normalize_title text)
        = JobNormalizer.normalize_title text)
    /\ (Text.all_chars Text.clean (JobNormalizer.normalize_location text) = true
        /\ Text.rejoined (JobNormalizer.normalize_location text)
           = JobNormalizer.normalize_location text).
Proof.
  intro text. split; split.
  - apply NormalizerFacts.normalize_title_clean.
  - unfold JobNormalizer.normalize_title.
    destruct (PyStr.truthy text); [|reflexivity].
    apply TextFacts.strip_collapse_rejoined.
  - apply NormalizerFacts.normalize_location_clean.
  - unfold JobNormalizer.normalize_location.
    destruct (PyStr.truthy text); [|reflexivity]. cbn [negb].
    destruct (PyStr.dict_get _ _) as [place|] eqn:E.
    + apply (NormalizerFacts.dict_get_forall Text.well_formed) in E;
        [|apply NormalizerFacts.tables_well_formed].
      now apply NormalizerFacts.well_formed_spec in E.
    + match goal with |- Text.rejoined (if PyStr.truthy ?n then _ else _) = _ =>
        pose proof (TextFacts.strip_collapse_rejoined
                      (PyStr.join " "
                         (map (fun part =>
                                 PyStr.join " "
                                   (map JobNormalizer.expand_location_word
                                        (PyStr.split_ws part)))
                              (map PyStr.strip
                                   (PyStr.split_on ","%char
                                      (PyStr.sub_not_in
                                         (fun c => PyStr.isword c || PyStr.isspace c
                                                   || JobNormalizer.is_comma c)
                                         (PyStr.lower text))))))) as H;
        destruct (PyStr.truthy n); [exact H | reflexivity]
      end.
Qed.

(** X3. For a company id without a pipe, splitting a signature on the pipe
    gives back exactly its three components, so [calculate_similarity]
    compares such signatures component by component. *)
Theorem signature_splits_into_components :
  forall company_id title location,
    Text.all_chars Text.not_pipe company_id = true ->
    PyStr.split_on "|"%char
                   (JobNormalizer.create_signature company_id title location)
    = [company_id; JobNormalizer.normalize_title title;
       JobNormalizer.normalize_location location].
Proof.
  intros company_id title location Hc.
  unfold JobNormalizer.create_signature, PyStr.split_on.
  pose proof (NormalizerFacts.clean_not_pipe _
                (NormalizerFacts.normalize_title_clean title)) as Ht.
  pose proof (NormalizerFacts.clean_not_pipe _
                (NormalizerFacts.normalize_location_clean location)) as Hl.
  change ("|" ++ ?x) with (String "|"%char x).
  rewrite (NormalizerFacts.split_on_from_app "|"%char company_id "" _ Hc).
  change ("|" ++ ?x) with (String "|"%char x).
  rewrite (NormalizerFacts.split_on_from_app "|"%char _ "" _ Ht).
  rewrite (NormalizerFacts.split_on_from_free "|"%char _ "" Hl).
  reflexivity.
Qed.

Lemma signature_splits_into_components_witness :
  PyStr.split_on "|"%char
                 (JobNormalizer.create_signature "acme-corp" "Sr. Engineer (Backend)"
                                                 "SF, CA")
  = ["acme-corp"; JobNormalizer.normalize_title "Sr. Engineer (Backend)";
     JobNormalizer.normalize_location "SF, CA"].
Proof.
  apply (signature_splits_into_components "acme-corp" "Sr. Engineer (Backend)"
                                          "SF, CA").
  reflexivity.
Defined.

(** X4. Signatures do not depend on the letter case of the title and of the
    location: two postings whose titles and locations agree after
    [str.lower] get the same signature. The company id is taken as it is. *)
Theorem signature_ignores_case :
  forall company_id title1 title2 location1 location2,
    PyStr.lower title1 = PyStr.lower title2 ->
    PyStr.lower location1 = PyStr.lower location2 ->
    JobNormalizer.create_signature company_id title1 location1
    = JobNormalizer.create_signature company_id title2 location2.
Proof.
  intros company_id t1 t2 l1 l2 Ht Hl.
  unfold JobNormalizer.create_signature,
    JobNormalizer.normalize_title, JobNormalizer.normalize_location.
  rewrite <- (NormalizerFacts.truthy_lower t1), <- (NormalizerFacts.truthy_lower t2).
  rewrite <- (NormalizerFacts.truthy_lower l1), <- (NormalizerFacts.truthy_lower l2).
  now rewrite Ht, Hl.
Qed.

Lemma signature_ignores_case_witness :
  JobNormalizer.create_signature "acme" "SENIOR Engineer" "Boston, MA"
  = JobNormalizer.create_signature "acme" "senior engineer" "boston, ma".
Proof.
  apply (signature_ignores_case "acme" "SENIOR Engineer" "senior engineer"
                                "Boston, MA" "boston, ma");
    reflexivity.
Defined.

(** X5. Normalization is not idempotent. A hyphen-joined abbreviation is
    split only after the abbreviation table was consulted ("Sr-Dev" gives
    "sr dev", which normalizes further to "senior developer"), and the
    location "DC" expands to a text that contains "dc" again. *)
Theorem normalization_not_idempotent :
  ~ (forall title,
        JobNormalizer.normalize_title (JobNormalizer.normalize_title title)
        = JobNormalizer.normalize_title title)
  /\ ~ (forall location,
           JobNormalizer.normalize_location (JobNormalizer.normalize_location location)
           = JobNormalizer.normalize_location location).
Proof.
  split; intro H.
  - specialize (H "Sr-Dev"). vm_compute in H. discriminate.
  - specialize (H "DC"). vm_compute in H. discriminate.
Qed.

Module BlankFacts.

Import Text TextFacts JobNormalizer.

Lemma lower_char_word : forall c, PyStr.isword (PyStr.lower_char c) = PyStr.isword c.
Proof. intros [[] [] [] [] [] [] [] []]; vm_compute; reflexivity. Qed.

Lemma lower_nonword :
  forall s, all_chars nonword s = true -> all_chars nonword (PyStr.lower s) = true.
Proof.
  intros s; unfold PyStr.lower. apply all_chars_map.
  intros c H. unfold nonword in *. now rewrite lower_char_word.
Qed.

Lemma dict_get_key :
  forall (P : string -> bool) d k v,
    forallb (fun kv : string * string => P (fst kv)) d = true ->
    PyStr.dict_get d k = Some v -> P k = true.
Proof.
  intros P; induction d as [|[k' v'] d IH]; intros k v Hall H; cbn in *; [discriminate|].
  apply andb_true_iff in Hall. destruct Hall as [Hk Hd].
  destruct (String.eqb_spec k k') as [->|]; [exact Hk | eauto].
Qed.

Lemma keys_have_word :
  forallb (fun kv : string * string => has_word (fst kv)) TITLE_ABBREVIATIONS = true
  /\ forallb (fun kv : string * string => has_word (fst kv)) LOCATION_NORMALIZATIONS
     = true.
Proof. split; vm_compute; reflexivity. Qed.

Lemma nonword_has_no_word :
  forall s, all_chars nonword s = true -> has_word s = false.
Proof.
  induction s as [|c s IH]; cbn; [reflexivity|]. unfold nonword at 1.
  rewrite andb_true_iff, negb_true_iff. intros [Hc Hs]. now rewrite Hc, IH.
Qed.

Lemma not_a_key :
  forall d k,
    forallb (fun kv : string * string => has_word (fst kv)) d = true ->
    all_chars nonword k = true -> PyStr.dict_get d k = None.
Proof.
  intros d k Hd Hk. destruct (PyStr.dict_get d k) as [v|] eqn:E; [|reflexivity].
  apply (dict_get_key has_word) in E; [|exact Hd].
  rewrite (nonword_has_no_word k Hk) in E. discriminate.
Qed.

Lemma split_ws_from_blank :
  forall s, all_chars PyStr.isspace s = true -> PyStr.split_ws_from "" s = [].
Proof.
  induction s as [|c s IH]; cbn; [reflexivity|].
  rewrite andb_true_iff. intros [Hc Hs]. rewrite Hc. now apply IH.
Qed.

Lemma collapse_blank :
  forall s r,
    all_chars PyStr.isspace s = true ->
    all_chars PyStr.isspace (PyStr.collapse_ws_from r s) = true.
Proof.
  induction s as [|c s IH]; intros r; cbn; [reflexivity|].
  rewrite andb_true_iff. intros [Hc Hs]. rewrite Hc.
  destruct r; cbn; auto.
Qed.

Lemma lstrip_blank :
  forall s, all_chars PyStr.isspace s = true -> PyStr.lstrip PyStr.isspace s = "".
Proof.
  induction s as [|c s IH]; cbn; [reflexivity|].
  rewrite andb_true_iff. intros [Hc Hs]. rewrite Hc. now apply IH.
Qed.

Lemma strip_blank :
  forall s, all_chars PyStr.isspace s = true -> PyStr.strip s = "".
Proof.
  intros s H. unfold PyStr.strip, PyStr.strip_by. now rewrite lstrip_blank.
Qed.

Lemma strip_collapse_blank :
  forall s, all_chars PyStr.isspace s = true ->
            PyStr.strip (PyStr.collapse_ws s) = "".
Proof. intros s H. apply strip_blank. now apply collapse_blank. Qed.

End BlankFacts.

(** X6. Text without any word character carries no information for the
    signature: such a title normalizes to the empty string and such a
    location to "unknown" (so the signature is the company id followed by
    "||unknown"). *)
Theorem text_without_words_normalizes_to_nothing :
  forall company_id text,
    Text.all_chars (fun c => negb (PyStr.isword c)) text = true ->
    JobNormalizer.normalize_title text = ""
    /\ JobNormalizer.normalize_location text = "unknown"
    /\ JobNormalizer.create_signature company_id text text
       = company_id ++ "||unknown".
Proof.
  intros company_id text H.
  change (Text.all_chars Text.nonword text = true) in H.
  pose proof (BlankFacts.lower_nonword text H) as Hl.
  assert (Ht : JobNormalizer.normalize_title text = "").
  { unfold JobNormalizer.normalize_title.
    destruct (PyStr.truthy text); [|reflexivity]. cbn [negb].
    apply BlankFacts.strip_collapse_blank.
    unfold PyStr.replace_char.
    apply (TextFacts.all_chars_map
             (fun c => PyStr.isspace c || JobNormalizer.is_hyphen c)).
    { intros c Hc. unfold JobNormalizer.is_hyphen in Hc.
      destruct (Ascii.eqb c "-"%char); [reflexivity|].
      now rewrite orb_false_r in Hc. }
    apply TextFacts.all_chars_join; [reflexivity|].
    apply Forall_map.
    assert (Hw : Forall
                   (fun w => Text.all_chars
                               (fun c => (Text.nonword c
                                          && (PyStr.isspace c
                                              || JobNormalizer.is_hyphen c))
                                         && negb (PyStr.isspace c)) w = true)
                   (PyStr.split_ws
                      (PyStr.sub_not_in
                         (fun c => PyStr.isword c || PyStr.isspace c
                                   || JobNormalizer.is_hyphen c)
                         (PyStr.lower text)))).
    { apply TextFacts.split_ws_chars. unfold PyStr.sub_not_in.
      apply (TextFacts.all_chars_map Text.nonword); [|exact Hl].
      intros c Hc. unfold Text.nonword in *.
      apply negb_true_iff in Hc. rewrite Hc. cbn [orb].
      destruct (PyStr.isspace c || JobNormalizer.is_hyphen c) eqn:E.
      - now rewrite Hc, E.
      - reflexivity. }
    eapply Forall_impl; [|exact Hw].
    intros w Hw'. unfold JobNormalizer.expand_title_word.
    rewrite BlankFacts.not_a_key.
    - eapply TextFacts.all_chars_weaken; [|exact Hw'].
      intros c Hc. apply andb_true_iff in Hc. destruct Hc as [Hc _].
      apply andb_true_iff in Hc. tauto.
    - apply BlankFacts.keys_have_word.
    - unfold PyStr.strip_by.
      apply TextFacts.rstrip_chars, TextFacts.lstrip_chars.
      eapply TextFacts.all_chars_weaken; [|exact Hw'].
      intros c Hc. apply andb_true_iff in Hc. destruct Hc as [Hc _].
      apply andb_true_iff in Hc. tauto. }
  assert (Hloc : JobNormalizer.normalize_location text = "unknown").
  { unfold JobNormalizer.normalize_location.
    destruct (PyStr.truthy text); [|reflexivity]. cbn [negb].
    rewrite BlankFacts.not_a_key;
      [|apply BlankFacts.keys_have_word | exact Hl].
    rewrite BlankFacts.strip_collapse_blank; [reflexivity|].
    apply TextFacts.all_chars_join; [reflexivity|].
    apply Forall_map. apply Forall_map.
    assert (Hp : Forall (fun w => Text.all_chars PyStr.isspace w = true)
                        (PyStr.split_on ","%char
                           (PyStr.sub_not_in
                              (fun c => PyStr.isword c || PyStr.isspace c
                                        || JobNormalizer.is_comma c)
                              (PyStr.lower text)))).
    { unfold PyStr.split_on. apply TextFacts.split_on_from_chars; [reflexivity|].
      unfold PyStr.sub_not_in.
      apply (TextFacts.all_chars_map Text.nonword); [|exact Hl].
      intros c Hc. unfold Text.nonword in Hc.
      apply negb_true_iff in Hc. rewrite Hc. cbn [orb].
      destruct (PyStr.isspace c || JobNormalizer.is_comma c) eqn:E;
        [exact E | reflexivity]. }
    eapply Forall_impl; [|exact Hp].
    intros part Hpart. unfold PyStr.split_ws.
    rewrite BlankFacts.split_ws_from_blank; [reflexivity|].
    now apply TextFacts.strip_chars. }
  repeat split; auto.
  unfold JobNormalizer.create_signature. now rewrite Ht, Hloc.
Qed.

Lemma text_without_words_normalizes_to_nothing_witness :
  JobNormalizer.normalize_title "?! - (...)" = ""
  /\ JobNormalizer.normalize_location "?! - (...)" = "unknown"
  /\ JobNormalizer.create_signature "acme" "?! - (...)" "?! - (...)"
     = "acme||unknown".
Proof.
  apply (text_without_words_normalizes_to_nothing "acme" "?! - (...)").
  reflexivity.
Defined.

(** ** The matcher: best match and all matches *)

Module BestMatchFacts.

Import JobMatcher MatcherFacts Ranking.

Section WithMetric.

Context {M : Fuzz.StringMetric}.

(** The scan either keeps its starting pair, or ends on the first candidate
    whose score is the greatest and exceeds the starting score. *)
Lemma scan_decompose :
  forall q cands bm bs,
    (scan q cands bm bs = (bm, bs)
     /\ forall x, In x cands -> (calculate_similarity q x <= bs)%Q)
    \/ (exists pre c post,
           cands = (pre ++ c :: post)%list
           /\ scan q cands bm bs = (Some c, calculate_similarity q c)
           /\ (bs < calculate_similarity q c)%Q
           /\ (forall x, In x pre ->
                         (calculate_similarity q x < calculate_similarity q c)%Q)
           /\ (forall x, In x post ->
                         (calculate_similarity q x <= calculate_similarity q c)%Q)).
Proof.
  intros q; induction cands as [|x cands IH]; intros bm bs; cbn [scan].
  - left. split; [reflexivity | intros x []].
  - destruct (Qgtb (calculate_similarity q x) bs) eqn:E.
    + apply Qgtb_true in E. right.
      destruct (IH (Some x) (calculate_similarity q x))
        as [[H1 H2]|(pre & c & post & Hc & Hs & Hlt & Hpre & Hpost)].
      * exists [], x, cands. repeat split; auto. intros y [].
      * exists (x :: pre), c, post. subst cands. repeat split; auto.
        -- eapply Qlt_trans; eauto.
        -- intros y [<-|Hy]; auto.
    + apply Qgtb_false in E.
      destruct (IH bm bs)
        as [[H1 H2]|(pre & c & post & Hc & Hs & Hlt & Hpre & Hpost)].
      * left. split; [exact H1|]. intros y [<-|Hy]; auto.
      * right. exists (x :: pre), c, post. subst cands. repeat split; auto.
        intros y [<-|Hy]; auto. eapply Qle_lt_trans; eauto.
Qed.

Lemma insert_by_score_perm :
  forall x l, Permutation (insert_by_score x l) (x :: l).
Proof.
  intros x; induction l as [|y l IH]; cbn; [reflexivity|].
  destruct (Qle_bool (snd y) (snd x)); [reflexivity|].
  rewrite IH. apply perm_swap.
Qed.

Lemma sort_by_score_desc_perm :
  forall l, Permutation (sort_by_score_desc l) l.
Proof.
  unfold sort_by_score_desc; induction l as [|x l IH]; cbn; [reflexivity|].
  rewrite insert_by_score_perm. now constructor.
Qed.





(** The first element of the sorted list is the first greatest element. *)
Lemma sort_head :
  forall pre m post,
    (forall x, In x pre -> (snd x < snd m)%Q) ->
    (forall x, In x post -> (snd x <= snd m)%Q) ->
    exists rest, sort_by_score_desc (pre ++ m :: post) = m :: rest.
Proof.
  unfold sort_by_score_desc.
  induction pre as [|x pre IH]; intros m post Hpre Hpost; cbn [app fold_right].
  - fold (sort_by_score_desc post).
    assert (Hall : Forall (fun y => (snd y <= snd m)%Q) (sort_by_score_desc post)).
    { eapply Permutation_Forall; [symmetry; apply sort_by_score_desc_perm|].
      now apply Forall_forall. }
    destruct (sort_by_score_desc post) as [|y l]; cbn; [now exists []|].
    inversion Hall as [|? ? Hy _]; subst.
    apply Qle_bool_iff in Hy. rewrite Hy. now eexists.
  - destruct (IH m post) as [rest Hrest]; auto.
    { intros; apply Hpre; now right. }
    rewrite Hrest. cbn.
    assert (E : Qle_bool (snd m) (snd x) = false).
    { destruct (Qle_bool (snd m) (snd x)) eqn:E; [|reflexivity].
      apply Qle_bool_iff in E. exfalso.
      apply (Qlt_not_le _ _ (Hpre x (or_introl eq_refl)) E). }
    rewrite E. now eexists.
Qed.

End WithMetric.

End BestMatchFacts.




(** X10. [find_best_match] and [find_all_matches] agree: a best match is the
    first entry of the list of all matches, with its score. *)
Theorem best_match_heads_all_matches :
  forall (M : Fuzz.StringMetric) (self : JobMatcher.t) (q : string)
         (cands : list string) (c : string),
    JobMatcher.find_best_match self q cands = Some c ->
    hd_error (JobMatcher.find_all_matches self q cands None)
    = Some (c, JobMatcher.calculate_similarity q c).
Proof.
  intros M self q cands c H.
  unfold JobMatcher.find_best_match, JobMatcher.find_best_match_with_score in H.
  destruct cands as [|x0 cands0] eqn:Ec; [discriminate|]. rewrite <- Ec in *.
  assert (Hnone : JobMatcher.find_all_matches self q cands None
                  = JobMatcher.sort_by_score_desc
                      (filter (fun m => Qle_bool (JobMatcher.similarity_threshold self)
                                                 (snd m))
                              (map (fun c => (c, JobMatcher.calculate_similarity q c))
                                   cands)))
    by (unfold JobMatcher.find_all_matches; rewrite Ec; reflexivity).
  rewrite Hnone. clear Hnone Ec x0 cands0.
  destruct (BestMatchFacts.scan_decompose q cands None 0%Q)
    as [[Hs _]|(pre & c' & post & Hc & Hs & Hlt & Hpre & Hpost)]; rewrite Hs in H.
  { destruct (Qle_bool _ 0); discriminate. }
  destruct (Qle_bool _ (JobMatcher.calculate_similarity q c')) eqn:E;
    cbn [fst] in H; [|discriminate].
  inversion H; subst c'. subst cands.
  rewrite map_app, filter_app. cbn [map filter snd]. rewrite E.
  destruct (BestMatchFacts.sort_head
              (filter (fun m => Qle_bool (JobMatcher.similarity_threshold self) (snd m))
                      (map (fun c => (c, JobMatcher.calculate_similarity q c)) pre))
              (c, JobMatcher.calculate_similarity q c)
              (filter (fun m => Qle_bool (JobMatcher.similarity_threshold self) (snd m))
                      (map (fun c => (c, JobMatcher.calculate_similarity q c)) post)))
    as [rest Hrest].
  - intros x Hx. apply filter_In in Hx. destruct Hx as [Hx _].
    apply in_map_iff in Hx. destruct Hx as (y & <- & Hy). cbn. auto.
  - intros x Hx. apply filter_In in Hx. destruct Hx as [Hx _].
    apply in_map_iff in Hx. destruct Hx as (y & <- & Hy). cbn. auto.
  - rewrite Hrest. reflexivity.
Qed.

Lemma best_match_heads_all_matches_witness :
  hd_error
    (@JobMatcher.find_all_matches
       RapidFuzz.metric {| JobMatcher.similarity_threshold := 85 # 100 |}
       "acme|senior engineer|san francisco"
       ["acme|engineer|boston"; "acme|senior engineer|san francisco";
        "acme|manager|new york"] None)
  = Some ("acme|senior engineer|san francisco",
          @JobMatcher.calculate_similarity
            RapidFuzz.metric "acme|senior engineer|san francisco"
            "acme|senior engineer|san francisco").
Proof.
  apply (best_match_heads_all_matches
           RapidFuzz.metric {| JobMatcher.similarity_threshold := 85 # 100 |}).
  reflexivity.
Defined.

(** X11. Under any threshold of at most 1, every signature built by
    [create_signature] matches itself, and searching it among candidates
    that contain it always returns a match with score 1. *)
Theorem signature_matches_itself :
  forall (M : Fuzz.StringMetric) (L : Fuzz.Lawful M) (self : JobMatcher.t)
         (company_id title location : string) (cands : list string),
    (JobMatcher.similarity_threshold self <= 1)%Q ->
    let s := JobNormalizer.create_signature company_id title location in
    JobMatcher.is_match self s s = true
    /\ (In s cands ->
        exists c, JobMatcher.find_best_match self s cands = Some c
                  /\ (JobMatcher.calculate_similarity s c == 1)%Q).
Proof.
  intros M L self company_id title location cands Hthr s.
  assert (Hone : (JobMatcher.calculate_similarity s s == 1)%Q).
  { apply MatcherFacts.calculate_similarity_same. right.
    apply MatcherFacts.signature_has_token. }
  split.
  - unfold JobMatcher.is_match. apply Qle_bool_iff. now rewrite Hone.
  - intro Hin.
    unfold JobMatcher.find_best_match, JobMatcher.find_best_match_with_score.
    destruct cands as [|x0 cands0] eqn:Ec; [contradiction|]. rewrite <- Ec in *.
    clear Ec x0 cands0.
    destruct (BestMatchFacts.scan_decompose s cands None 0%Q)
      as [[Hs Hall]|(pre & c & post & Hc & Hs & Hlt & Hpre & Hpost)]; rewrite Hs.
    + exfalso. specialize (Hall s Hin). rewrite Hone in Hall.
      unfold Qle in Hall; cbn in Hall; lia.
    + assert (Hge : (1 <= JobMatcher.calculate_similarity s c)%Q).
      { rewrite <- Hone. subst cands. apply in_app_or in Hin.
        destruct Hin as [Hx|[<-|Hx]]; auto using Qle_refl, Qlt_le_weak. }
      assert (Hle : (JobMatcher.calculate_similarity s c <= 1)%Q)
        by apply MatcherFacts.calculate_similarity_range.
      assert (E : Qle_bool (JobMatcher.similarity_threshold self)
                           (JobMatcher.calculate_similarity s c) = true)
        by (apply Qle_bool_iff; eapply Qle_trans; eauto).
      rewrite E. exists c. split; [reflexivity|]. now apply Qle_antisym.
Qed.

Lemma signature_matches_itself_witness :
  @JobMatcher.is_match
    RapidFuzz.metric {| JobMatcher.similarity_threshold := 9 # 10 |}
    (JobNormalizer.create_signature "acme" "Sr. Engineer" "SF, CA")
    (JobNormalizer.create_signature "acme" "Sr. Engineer" "SF, CA")
  = true.
Proof.
  apply (signature_matches_itself
           RapidFuzz.metric RapidFuzzFacts.lawful
           {| JobMatcher.similarity_threshold := 9 # 10 |}
           "acme" "Sr. Engineer" "SF, CA" []).
  unfold Qle; cbn; lia.
Defined.

(** ** The classifier: what every call keeps *)

Module TrackedFacts.

Import ClassifiedJob JobClassifier Tracked JobDictFacts.

Lemma observed_step_refl : forall s, observed_step s s.
Proof. intro s; now left. Qed.

(** The job [_update_existing_job] writes back, against the job it found. *)
Lemma observed_again_facts :
  forall (raw_job : RawJob.t) (now : PyTime.datetime) (j : ClassifiedJob.t),
    identity (observed_again raw_job now j) = identity j
    /\ observed_step (status j) (status (observed_again raw_job now j))
    /\ status (observed_again raw_job now j) <> MISSING
    /\ observations (observed_again raw_job now j)
       = (observations j ++ [observation_of raw_job now None])%list
    /\ url (observed_again raw_job now j) = url j
    /\ source_identifier (observed_again raw_job now j) = source_identifier j
    /\ classification_reasoning (observed_again raw_job now j)
       = classification_reasoning j
    /\ last_seen (observed_again raw_job now j) = now
    /\ updated_at (observed_again raw_job now j) = Some now.
Proof.
  intros raw now j. unfold observed_again.
  cbn [status append_observation set_updated_at set_last_seen].
  destruct (status j) eqn:E; cbn; rewrite ?E;
    repeat split; try reflexivity; try discriminate;
    unfold observed_step; auto.
Qed.

(** The job [_classify_as_reopened] writes back, against the job it found. *)
Lemma reopened_facts :
  forall (raw_job : RawJob.t) (now : PyTime.datetime) (j : ClassifiedJob.t),
    status j = CLOSED ->
    identity (reopened raw_job now j) = identity j
    /\ observed_step (status j) (status (reopened raw_job now j))
    /\ status (reopened raw_job now j) = REOPENED
    /\ observations (reopened raw_job now j)
       = (observations j
            ++ [observation_of raw_job now (Some "Job reopened")])%list
    /\ url (reopened raw_job now j) = RawJob.url raw_job
    /\ source_identifier (reopened raw_job now j) = RawJob.source_identifier raw_job
    /\ last_seen (reopened raw_job now j) = now
    /\ updated_at (reopened raw_job now j) = Some now.
Proof.
  intros raw now j Hst. unfold reopened. cbn.
  repeat split; try reflexivity. unfold observed_step. rewrite Hst. auto.
Qed.

Lemma store_nth :
  forall d i0 k0 j0 j0' i k j,
    nth_error d i0 = Some (k0, j0) ->
    nth_error d i = Some (k, j) ->
    (i = i0 /\ k = k0 /\ j = j0 /\ nth_error (JobDict.store i0 j0' d) i = Some (k, j0'))
    \/ (i <> i0 /\ nth_error (JobDict.store i0 j0' d) i = Some (k, j)).
Proof.
  intros d i0 k0 j0 j0' i k j H0 Hn.
  destruct (Nat.eq_dec i i0) as [->|Hi].
  - left. rewrite H0 in Hn. inversion Hn; subst.
    repeat split. eapply store_nth_same; eauto.
  - right. split; [exact Hi|]. now rewrite store_nth_other.
Qed.

Lemma store_keys :
  forall d i j, keys (JobDict.store i j d) = keys d.
Proof.
  unfold keys. induction d as [|[k0 j0] d IH]; intros i j; [destruct i; reflexivity|].
  destruct i as [|i]; cbn; [reflexivity|]. now rewrite IH.
Qed.

Lemma store_length :
  forall d i j, List.length (JobDict.store i j d) = List.length d.
Proof.
  intros d i j. pose proof (store_keys d i j) as H. unfold keys in H.
  apply (f_equal (@List.length string)) in H. now rewrite !length_map in H.
Qed.

Lemma set_keys :
  forall d key job,
    (In key (keys d) /\ keys (JobDict.set key job d) = keys d)
    \/ (~ In key (keys d) /\ keys (JobDict.set key job d) = (keys d ++ [key])%list).
Proof.
  unfold keys. induction d as [|[k0 j0] d IH]; intros key job; cbn.
  - right. split; [tauto | reflexivity].
  - destruct (String.eqb_spec k0 key) as [->|Hne]; cbn.
    + left. split; [now left | reflexivity].
    + destruct (IH key job) as [[Hin E]|[Hnin E]]; rewrite E.
      * left. split; [now right | reflexivity].
      * right. split; [|reflexivity]. intros [H|H]; auto.
Qed.

(** Where [d[key] = job] puts the job. *)
Lemma set_stores :
  forall d key job, exists i, nth_error (JobDict.set key job d) i = Some (key, job).
Proof.
  induction d as [|[k0 j0] d IH]; intros key job; cbn.
  - now exists 0%nat.
  - destruct (String.eqb_spec k0 key) as [->|Hne].
    + now exists 0%nat.
    + destruct (IH key job) as [i Hi]. now exists (S i).
Qed.

(** What a position of [d[key] = job] holds. *)
Lemma set_nth_inv :
  forall d key job i k j,
    nth_error (JobDict.set key job d) i = Some (k, j) ->
    nth_error d i = Some (k, j) \/ (k = key /\ j = job).
Proof.
  induction d as [|[k0 j0] d IH]; intros key job i k j H; cbn in H.
  - destruct i as [|[|i]]; cbn in H; try discriminate. inversion H; auto.
  - destruct (String.eqb_spec k0 key) as [->|Hne].
    + destruct i as [|i]; cbn in H |- *; [inversion H; auto | auto].
    + destruct i as [|i]; cbn in H |- *; [auto | eauto].
Qed.

Lemma store_nth_inv :
  forall d i0 j0' i k j,
    nth_error (JobDict.store i0 j0' d) i = Some (k, j) ->
    (i = i0 /\ j = j0' /\ exists j0, nth_error d i = Some (k, j0))
    \/ (i <> i0 /\ nth_error d i = Some (k, j)).
Proof.
  induction d as [|[k0 j1] d IH]; intros i0 j0' i k j H.
  - destruct i0, i; cbn in H; discriminate.
  - destruct i0 as [|i0], i as [|i]; cbn in H |- *.
    + inversion H; subst. left. repeat split. now exists j1.
    + right. split; [discriminate | exact H].
    + right. split; [discriminate | exact H].
    + destruct (IH _ _ _ _ _ H) as [(-> & -> & j0 & Hj0)|[Hne Hn]].
      * left. repeat split. now exists j0.
      * right. split; [congruence | exact Hn].
Qed.

End TrackedFacts.

Module CallFacts.

Import ClassifiedJob JobClassifier Tracked JobDictFacts TrackedFacts.

Section WithMetric.

Context {M : Fuzz.StringMetric}.

(** The five ways a call of [classify_job] can go, with the state and the
    result of each. *)
Lemma classify_job_cases :
  forall (self : JobClassifier.t) (raw_job : RawJob.t)
         (now : PyTime.datetime) (uuid4 : string),
    let exact := _find_by_source_id self (RawJob.company_id raw_job)
                                    (RawJob.source_identifier raw_job) in
    let call := classify_job self raw_job now uuid4 in
    (exists i k j,
        exact = Some (i, j)
        /\ nth_error (known_jobs self) i = Some (k, j)
        /\ call = (with_known_jobs self
                     (JobDict.store i (observed_again raw_job now j) (known_jobs self)),
                   Ok (observed_again raw_job now j)))
    \/ (exists e,
           exact = None
           /\ cutoff now (repost_window_days self) = Raise e
           /\ call = (self, Raise e))
    \/ (exists c r reasoning,
           exact = None
           /\ cutoff now (repost_window_days self) = Ok c
           /\ best_among self (signature_of raw_job)
                         (recent_jobs self (RawJob.company_id raw_job) c) = Some r
           /\ call = (with_known_jobs self
                        (JobDict.set uuid4
                           (fresh_job raw_job (signature_of raw_job) now uuid4
                                      REPOST reasoning)
                           (known_jobs self)),
                      Ok (fresh_job raw_job (signature_of raw_job) now uuid4
                                    REPOST reasoning)))
    \/ (exists c i k j,
           exact = None
           /\ cutoff now (repost_window_days self) = Ok c
           /\ best_among self (signature_of raw_job)
                         (recent_jobs self (RawJob.company_id raw_job) c) = None
           /\ best_among self (signature_of raw_job)
                         (closed_jobs self (RawJob.company_id raw_job)) = Some (i, j)
           /\ nth_error (known_jobs self) i = Some (k, j)
           /\ ClassifiedJob.company_id j = RawJob.company_id raw_job
           /\ status j = CLOSED
           /\ call = (with_known_jobs self
                        (JobDict.store i (reopened raw_job now j) (known_jobs self)),
                      Ok (reopened raw_job now j)))
    \/ (exists c,
           exact = None
           /\ cutoff now (repost_window_days self) = Ok c
           /\ best_among self (signature_of raw_job)
                         (recent_jobs self (RawJob.company_id raw_job) c) = None
           /\ best_among self (signature_of raw_job)
                         (closed_jobs self (RawJob.company_id raw_job)) = None
           /\ call = (with_known_jobs self
                        (JobDict.set uuid4
                           (fresh_job raw_job (signature_of raw_job) now uuid4 NEW
                                      "New job posting (no previous match found)")
                           (known_jobs self)),
                      Ok (fresh_job raw_job (signature_of raw_job) now uuid4 NEW
                                    "New job posting (no previous match found)"))).
Proof.
  intros self raw now uuid exact call. subst call. unfold classify_job.
  fold (signature_of raw). fold exact.
  destruct exact as [[i j]|] eqn:Hexact.
  - left. destruct (ClassifierFacts.find_by_source_id_Some _ _ _ _ _ Hexact)
      as (k & s & Hn & _).
    exists i, k, j. repeat split; auto.
  - right. unfold _find_similar_recent_job.
    destruct (cutoff now (repost_window_days self)) as [c|e] eqn:Hcut; cbn [bind].
    2:{ left. exists e. auto. }
    right.
    destruct (best_among self (signature_of raw)
                         (recent_jobs self (RawJob.company_id raw) c))
      as [r|] eqn:Hrecent.
    { left. exists c, r. eexists. repeat split; eauto. }
    right. unfold _find_closed_similar_job.
    destruct (best_among self (signature_of raw)
                         (closed_jobs self (RawJob.company_id raw)))
      as [[i j]|] eqn:Hclosed.
    + left.
      pose proof (best_among_In' := ClassifierFacts.best_among_In _ _ _ _ Hclosed).
      apply ClassifierFacts.closed_jobs_In in best_among_In'.
      cbn [snd] in best_among_In'. destruct best_among_In' as (Hin & Hc & Hs).
      destruct (values_In _ _ _ Hin) as [k Hk].
      exists c, i, k, j. repeat split; auto.
    + right. exists c. repeat split; auto.
Qed.

End WithMetric.

End CallFacts.

Module SweepFacts.

Import ClassifiedJob JobClassifier Tracked.

(** [mark_missing_jobs] as a pointwise update, and what it counts. *)
Lemma mark_missing_loop_pointwise :
  forall items ids now,
    mark_missing_loop items ids now
    = (map (fun kj : string * ClassifiedJob.t =>
              if unobserved_active ids kj
              then (fst kj, set_updated_at now (set_status MISSING (snd kj)))
              else kj)
           items,
       Z.of_nat (List.length (filter (unobserved_active ids) items))).
Proof.
  induction items as [|[job_id job] items IH]; intros ids now; [reflexivity|].
  cbn [mark_missing_loop map filter]. rewrite IH.
  change (unobserved_active ids (job_id, job))
    with (negb (observed ids job_id) && JobStatus_eqb (status job) ACTIVE).
  destruct (negb (observed ids job_id) && JobStatus_eqb (status job) ACTIVE);
    cbn [List.length fst snd]; f_equal; lia.
Qed.

(** [close_old_missing_jobs] as a pointwise update, and what it counts. *)
Lemma close_old_loop_pointwise :
  forall items c now,
    close_old_loop items c now
    = (map (fun kj : string * ClassifiedJob.t =>
              if stale_missing c kj
              then (fst kj, set_updated_at now (set_status CLOSED (snd kj)))
              else kj)
           items,
       Z.of_nat (List.length (filter (stale_missing c) items))).
Proof.
  induction items as [|[job_id job] items IH]; intros c now; [reflexivity|].
  cbn [close_old_loop map filter]. rewrite IH.
  change (stale_missing c (job_id, job))
    with (JobStatus_eqb (status job) MISSING && (last_seen job <? c)).
  destruct (JobStatus_eqb (status job) MISSING && (last_seen job <? c));
    cbn [List.length fst snd]; f_equal; lia.
Qed.

Lemma mark_missing_jobs_known :
  forall self ids now,
    known_jobs (fst (mark_missing_jobs self ids now))
    = map (fun kj : string * ClassifiedJob.t =>
             if unobserved_active ids kj
             then (fst kj, set_updated_at now (set_status MISSING (snd kj)))
             else kj)
          (known_jobs self).
Proof.
  intros. unfold mark_missing_jobs. now rewrite mark_missing_loop_pointwise.
Qed.

Lemma close_old_missing_jobs_known :
  forall self days now c,
    cutoff now days = Ok c ->
    close_old_missing_jobs self days now
    = (with_known_jobs self
         (map (fun kj : string * ClassifiedJob.t =>
                 if stale_missing c kj
                 then (fst kj, set_updated_at now (set_status CLOSED (snd kj)))
                 else kj)
              (known_jobs self)),
       Ok (Z.of_nat (List.length (filter (stale_missing c) (known_jobs self))))).
Proof.
  intros self days now c H. unfold close_old_missing_jobs.
  now rewrite H, close_old_loop_pointwise.
Qed.

Lemma close_old_missing_jobs_raises :
  forall self days now e,
    cutoff now days = Raise e ->
    close_old_missing_jobs self days now = (self, Raise e).
Proof. intros self days now e H. unfold close_old_missing_jobs. now rewrite H. Qed.

Lemma nth_error_map_pointwise :
  forall (f : string * ClassifiedJob.t -> string * ClassifiedJob.t) d i k j,
    nth_error d i = Some (k, j) -> nth_error (map f d) i = Some (f (k, j)).
Proof. intros f d i k j H. now rewrite nth_error_map, H. Qed.

Lemma cutoff_error :
  forall now days e, cutoff now days = Raise e -> e = OverflowError.
Proof.
  intros now days e. unfold cutoff, PyTime.timedelta_days, PyTime.sub.
  destruct (Z.abs days <=? 999999999); cbn [bind].
  - destruct (PyTime.in_range _); intro H; inversion H; reflexivity.
  - intro H; inversion H; reflexivity.
Qed.

End SweepFacts.

(** X12. Whatever path [classify_job] takes, a job already tracked under a
    key other than the identifier drawn for a new record stays at its place
    with the same id, company, title, location, signature, classification,
    first-seen time, department, description and creation time; its status
    stays or goes from Missing to Active or from Closed to Reopened; its
    observations stay or gain one entry at the end; and if it changed at all
    it is the job the call returns. *)
Theorem classify_job_keeps_tracked_jobs :
  forall (M : Fuzz.StringMetric) (self : JobClassifier.t) (raw_job : RawJob.t)
         (now : PyTime.datetime) (uuid4 : string)
         (i : nat) (k : string) (j : ClassifiedJob.t),
    nth_error (known_jobs self) i = Some (k, j) ->
    k <> uuid4 ->
    exists j',
      nth_error (known_jobs (fst (classify_job self raw_job now uuid4))) i
      = Some (k, j')
      /\ Tracked.identity j' = Tracked.identity j
      /\ Tracked.observed_step (status j) (status j')
      /\ (observations j' = observations j
          \/ exists o, observations j' = (observations j ++ [o])%list)
      /\ (j' = j \/ snd (classify_job self raw_job now uuid4) = Ok j').
Proof.
  intros M self raw now uuid i k j Hn Hk.
  destruct (CallFacts.classify_job_cases self raw now uuid)
    as [(i0 & k0 & j0 & _ & Hn0 & E)
       |[(e & _ & _ & E)
        |[(c & r & reasoning & _ & _ & _ & E)
         |[(c & i0 & k0 & j0 & _ & _ & _ & _ & Hn0 & _ & Hst & E)
          |(c & _ & _ & _ & _ & E)]]]];
    rewrite E; cbn [fst snd known_jobs with_known_jobs].
  - destruct (TrackedFacts.store_nth _ _ _ _ (Tracked.observed_again raw now j0)
                                     _ _ _ Hn0 Hn)
      as [(-> & -> & -> & H)|[Hne H]].
    + exists (Tracked.observed_again raw now j0). split; [exact H|].
      destruct (TrackedFacts.observed_again_facts raw now j0)
        as (H1 & H2 & _ & H4 & _).
      repeat split; auto. right. eexists; eauto.
    + exists j. split; [exact H|].
      repeat split; auto using TrackedFacts.observed_step_refl.
  - exists j. repeat split; auto using TrackedFacts.observed_step_refl.
  - exists j. split; [now apply JobDictFacts.set_nth_other_key|].
    repeat split; auto using TrackedFacts.observed_step_refl.
  - destruct (TrackedFacts.store_nth _ _ _ _ (Tracked.reopened raw now j0)
                                     _ _ _ Hn0 Hn)
      as [(-> & -> & -> & H)|[Hne H]].
    + exists (Tracked.reopened raw now j0). split; [exact H|].
      destruct (TrackedFacts.reopened_facts raw now j0 Hst)
        as (H1 & H2 & _ & H4 & _).
      repeat split; auto. right. eexists; eauto.
    + exists j. split; [exact H|].
      repeat split; auto using TrackedFacts.observed_step_refl.
  - exists j. split; [now apply JobDictFacts.set_nth_other_key|].
    repeat split; auto using TrackedFacts.observed_step_refl.
Qed.

Lemma classify_job_keeps_tracked_jobs_witness :
  exists j',
    nth_error
      (known_jobs
         (fst (Scenario.classify
                 (Scenario.classifier
                    [("j0", Scenario.missing_twin); ("j1", Scenario.closed_job)])
                 (Scenario.same_posting (Some "job-123")) Scenario.mar15 "u2")))
      0
    = Some ("j0", j')
    /\ Tracked.identity j' = Tracked.identity Scenario.missing_twin
    /\ Tracked.observed_step (status Scenario.missing_twin) (status j')
    /\ (observations j' = observations Scenario.missing_twin
        \/ exists o, observations j'
                     = (observations Scenario.missing_twin ++ [o])%list)
    /\ (j' = Scenario.missing_twin
        \/ snd (Scenario.classify
                  (Scenario.classifier
                     [("j0", Scenario.missing_twin); ("j1", Scenario.closed_job)])
                  (Scenario.same_posting (Some "job-123")) Scenario.mar15 "u2")
           = Ok j').
Proof.
  apply (classify_job_keeps_tracked_jobs
           RapidFuzz.metric
           (Scenario.classifier
              [("j0", Scenario.missing_twin); ("j1", Scenario.closed_job)])
           (Scenario.same_posting (Some "job-123")) Scenario.mar15 "u2"
           0%nat "j0" Scenario.missing_twin);
    [reflexivity | discriminate].
Defined.

(** X13. When the observation's non-empty source identifier is that of a
    tracked job of the same company, [classify_job] never fails and returns
    that job, whatever the observation's title, location and URL are: none of
    them, nor the signature, is refreshed. Only [last_seen] and [updated_at]
    are set to the current time, one observation is appended, and a Missing
    status becomes Active. *)
Theorem exact_match_reobserves_in_place :
  forall (M : Fuzz.StringMetric) (self : JobClassifier.t) (raw_job : RawJob.t)
         (now : PyTime.datetime) (uuid4 : string)
         (i : nat) (j : ClassifiedJob.t),
    _find_by_source_id self (RawJob.company_id raw_job)
                       (RawJob.source_identifier raw_job) = Some (i, j) ->
    exists j',
      snd (classify_job self raw_job now uuid4) = Ok j'
      /\ Tracked.identity j' = Tracked.identity j
      /\ url j' = url j
      /\ source_identifier j' = source_identifier j
      /\ classification_reasoning j' = classification_reasoning j
      /\ last_seen j' = now
      /\ updated_at j' = Some now
      /\ observations j' = (observations j ++ [observation_of raw_job now None])%list
      /\ status j' = (if JobStatus_eqb (status j) MISSING then ACTIVE else status j)
      /\ List.length (known_jobs (fst (classify_job self raw_job now uuid4)))
         = List.length (known_jobs self).
Proof.
  intros M self raw now uuid i j H.
  destruct (CallFacts.classify_job_cases self raw now uuid)
    as [(i0 & k0 & j0 & Hex & Hn0 & E)
       |[(e & Hex & _)
        |[(c & r & reasoning & Hex & _)
         |[(c & i0 & k0 & j0 & Hex & _)
          |(c & Hex & _)]]]];
    rewrite H in Hex; try discriminate.
  inversion Hex; subst i0 j0. rewrite E. cbn [fst snd known_jobs with_known_jobs].
  exists (Tracked.observed_again raw now j).
  destruct (TrackedFacts.observed_again_facts raw now j)
    as (H1 & _ & _ & H4 & H5 & H6 & H7 & H8 & H9).
  repeat split; auto.
  - unfold Tracked.observed_again. cbn [status append_observation set_updated_at
                                          set_last_seen].
    destruct (JobStatus_eqb (status j) MISSING); reflexivity.
  - apply TrackedFacts.store_length.
Qed.

Lemma exact_match_reobserves_in_place_witness :
  exists j',
    snd (Scenario.classify (Scenario.classifier [("j1", Scenario.active_job)])
           (Scenario.observation "Staff Accountant" "Berlin"
                                 "https://acme.com/jobs/999" (Some "job-123"))
           Scenario.mar15 "u2")
    = Ok j'
    /\ Tracked.identity j' = Tracked.identity Scenario.active_job
    /\ url j' = "https://acme.com/jobs/123"
    /\ source_identifier j' = Some "job-123"
    /\ classification_reasoning j' = "New job posting (no previous match found)"
    /\ last_seen j' = Scenario.mar15
    /\ updated_at j' = Some Scenario.mar15
    /\ observations j'
       = (observations Scenario.active_job
            ++ [observation_of
                  (Scenario.observation "Staff Accountant" "Berlin"
                                        "https://acme.com/jobs/999" (Some "job-123"))
                  Scenario.mar15 None])%list
    /\ status j' = ACTIVE
    /\ List.length
         (known_jobs
            (fst (Scenario.classify
                    (Scenario.classifier [("j1", Scenario.active_job)])
                    (Scenario.observation "Staff Accountant" "Berlin"
                                          "https://acme.com/jobs/999"
                                          (Some "job-123"))
                    Scenario.mar15 "u2")))
       = 1%nat.
Proof.
  apply (exact_match_reobserves_in_place
           RapidFuzz.metric (Scenario.classifier [("j1", Scenario.active_job)])
           (Scenario.observation "Staff Accountant" "Berlin"
                                 "https://acme.com/jobs/999" (Some "job-123"))
           Scenario.mar15 "u2" 0%nat Scenario.active_job).
  reflexivity.
Defined.

(** X14. No operation of the classifier deletes or reorders tracked jobs.
    [classify_job] keeps the keys of the dict in their order and adds at most
    one, the identifier drawn for a new record, at the end; the two sweeps
    keep the keys as they are. Keys that were distinct stay distinct. *)
Theorem operations_keep_the_keys :
  forall (M : Fuzz.StringMetric) (self : JobClassifier.t) (raw_job : RawJob.t)
         (now : PyTime.datetime) (uuid4 : string)
         (observed_job_ids : list string) (timeout_days : Z),
    (Tracked.keys (known_jobs (fst (classify_job self raw_job now uuid4)))
     = Tracked.keys (known_jobs self)
     \/ (~ In uuid4 (Tracked.keys (known_jobs self))
         /\ Tracked.keys (known_jobs (fst (classify_job self raw_job now uuid4)))
            = (Tracked.keys (known_jobs self) ++ [uuid4])%list
         /\ option_map id (ok_value (snd (classify_job self raw_job now uuid4)))
            = Some uuid4))
    /\ Tracked.keys (known_jobs (fst (mark_missing_jobs self observed_job_ids now)))
       = Tracked.keys (known_jobs self)
    /\ Tracked.keys (known_jobs (fst (close_old_missing_jobs self timeout_days now)))
       = Tracked.keys (known_jobs self)
    /\ (NoDup (Tracked.keys (known_jobs self)) ->
        NoDup (Tracked.keys (known_jobs (fst (classify_job self raw_job now uuid4))))).
Proof.
  intros M self raw now uuid ids days.
  assert (Hclassify :
            Tracked.keys (known_jobs (fst (classify_job self raw now uuid)))
            = Tracked.keys (known_jobs self)
            \/ (~ In uuid (Tracked.keys (known_jobs self))
                /\ Tracked.keys (known_jobs (fst (classify_job self raw now uuid)))
                   = (Tracked.keys (known_jobs self) ++ [uuid])%list
                /\ option_map id (ok_value (snd (classify_job self raw now uuid)))
                   = Some uuid)).
  { destruct (CallFacts.classify_job_cases self raw now uuid)
      as [(i0 & k0 & j0 & _ & Hn0 & E)
         |[(e & _ & _ & E)
          |[(c & r & reasoning & _ & _ & _ & E)
           |[(c & i0 & k0 & j0 & _ & _ & _ & _ & Hn0 & _ & Hst & E)
            |(c & _ & _ & _ & _ & E)]]]];
      rewrite E; cbn [fst snd known_jobs with_known_jobs ok_value option_map].
    - left. apply TrackedFacts.store_keys.
    - now left.
    - destruct (TrackedFacts.set_keys (known_jobs self) uuid
                  (fresh_job raw (Tracked.signature_of raw) now uuid REPOST reasoning))
        as [[_ H]|[Hn H]]; [now left | right; auto].
    - left. apply TrackedFacts.store_keys.
    - destruct (TrackedFacts.set_keys (known_jobs self) uuid
                  (fresh_job raw (Tracked.signature_of raw) now uuid NEW
                             "New job posting (no previous match found)"))
        as [[_ H]|[Hn H]]; [now left | right; auto]. }
  split; [exact Hclassify|]. split; [|split].
  - rewrite SweepFacts.mark_missing_jobs_known. unfold Tracked.keys.
    rewrite map_map. apply map_ext. intros kj.
    destruct (Tracked.unobserved_active ids kj); reflexivity.
  - destruct (cutoff now days) as [c|e] eqn:Hc.
    + rewrite (SweepFacts.close_old_missing_jobs_known _ _ _ _ Hc).
      cbn [fst known_jobs with_known_jobs]. unfold Tracked.keys.
      rewrite map_map. apply map_ext. intros kj.
      destruct (Tracked.stale_missing c kj); reflexivity.
    + now rewrite (SweepFacts.close_old_missing_jobs_raises _ _ _ _ Hc).
  - intro Hnd. destruct Hclassify as [H|(Hn & H & _)]; rewrite H; [exact Hnd|].
    apply NoDup_app; [exact Hnd | repeat constructor; intros [] | ].
    intros x Hx [<-|[]]. contradiction.
Qed.

Lemma operations_keep_the_keys_witness :
  NoDup
    (Tracked.keys
       (known_jobs
          (fst (Scenario.classify (Scenario.classifier [("j1", Scenario.active_job)])
                  (Scenario.observation "Staff Accountant" "Berlin"
                                        "https://acme.com/jobs/999" (Some "job-999"))
                  Scenario.mar15 "u2")))).
Proof.
  apply (operations_keep_the_keys
           RapidFuzz.metric (Scenario.classifier [("j1", Scenario.active_job)])
           (Scenario.observation "Staff Accountant" "Berlin"
                                 "https://acme.com/jobs/999" (Some "job-999"))
           Scenario.mar15 "u2" [] 14).
  repeat constructor; intros [].
Defined.

Module InvariantFacts.

Import ClassifiedJob JobClassifier Tracked JobDictFacts TrackedFacts.

Lemma Forall_store :
  forall (P : string * ClassifiedJob.t -> Prop) d i0 k0 j0 j0',
    Forall P d -> nth_error d i0 = Some (k0, j0) -> P (k0, j0') ->
    Forall P (JobDict.store i0 j0' d).
Proof.
  intros P; induction d as [|[k1 j1] d IH]; intros i0 k0 j0 j0' H Hn Hp.
  - destruct i0; discriminate.
  - inversion H; subst. destruct i0 as [|i0]; cbn in Hn |- *.
    + inversion Hn; subst. now constructor.
    + constructor; [assumption | eauto].
Qed.

Lemma Forall_set :
  forall (P : string * ClassifiedJob.t -> Prop) d key job,
    Forall P d -> P (key, job) -> Forall P (JobDict.set key job d).
Proof.
  intros P; induction d as [|[k1 j1] d IH]; intros key job H Hp; cbn.
  - now constructor.
  - inversion H; subst. destruct (String.eqb_spec k1 key) as [->|Hne].
    + now constructor.
    + constructor; auto.
Qed.

(** [d[key] = job] changes one position, the one that holds the job. *)
Lemma set_position :
  forall d key job,
    exists p,
      nth_error (JobDict.set key job d) p = Some (key, job)
      /\ forall i k j,
          i <> p -> nth_error (JobDict.set key job d) i = Some (k, j) ->
          nth_error d i = Some (k, j).
Proof.
  induction d as [|[k1 j1] d IH]; intros key job; cbn.
  - exists 0%nat. split; [reflexivity|]. intros [|[|i]] k j Hi H; cbn in H;
      congruence.
  - destruct (String.eqb_spec k1 key) as [->|Hne].
    + exists 0%nat. split; [reflexivity|]. intros [|i] k j Hi H; [congruence | exact H].
    + destruct (IH key job) as (p & Hp & Hother). exists (S p).
      split; [exact Hp|]. intros [|i] k j Hi H; cbn in H |- *; [exact H|].
      apply Hother; [congruence | exact H].
Qed.

Lemma nth_error_In_pair :
  forall (d : JobDict.t) i k j, nth_error d i = Some (k, j) -> In (k, j) d.
Proof. intros d i k j H. eapply nth_error_In; eauto. Qed.

End InvariantFacts.

(** ** One call of [classify_job], as the run loop sees it *)

Module StepFacts.

Import ClassifiedJob JobClassifier Tracked JobDictFacts TrackedFacts.

Lemma set_nth_fwd :
  forall d key job i k j,
    nth_error d i = Some (k, j) ->
    nth_error (JobDict.set key job d) i = Some (k, j)
    \/ (k = key /\ nth_error (JobDict.set key job d) i = Some (key, job)).
Proof.
  induction d as [|[k1 j1] d IH]; intros key job i k j H.
  - destruct i; discriminate.
  - cbn [JobDict.set]. destruct (String.eqb_spec k1 key) as [->|Hne].
    + destruct i as [|i]; cbn in H |- *.
      * inversion H; subst. right. auto.
      * left. exact H.
    + destruct i as [|i]; cbn in H |- *.
      * left. exact H.
      * apply IH; exact H.
Qed.

Lemma observed_In :
  forall ids job_id, In job_id ids -> observed ids job_id = true.
Proof.
  intros ids job_id H. unfold observed. apply existsb_exists.
  exists job_id. split; [exact H | apply String.eqb_refl].
Qed.

Section WithMetric.

Context {M : Fuzz.StringMetric}.

(** Jobs stay stored under their ids, and the job a call returns is then
    held under its id and is not Missing. *)
Lemma classify_job_keyed :
  forall self raw_job now uuid4,
    keyed_by_id (known_jobs self) ->
    keyed_by_id (known_jobs (fst (classify_job self raw_job now uuid4)))
    /\ forall job,
        snd (classify_job self raw_job now uuid4) = Ok job ->
        (exists i,
            nth_error (known_jobs (fst (classify_job self raw_job now uuid4))) i
            = Some (id job, job))
        /\ status job <> MISSING.
Proof.
  intros self raw now uuid Hk. unfold keyed_by_id in *. split.
  - destruct (CallFacts.classify_job_cases self raw now uuid)
      as [(i0 & k0 & j0 & _ & Hn0 & E)
         |[(e & _ & _ & E)
          |[(c & r & reasoning & _ & _ & _ & E)
           |[(c & i0 & k0 & j0 & _ & _ & _ & _ & Hn0 & _ & Hst & E)
            |(c & _ & _ & _ & _ & E)]]]];
      rewrite E; cbn [fst known_jobs with_known_jobs].
    + eapply InvariantFacts.Forall_store; eauto. cbn [fst snd].
      pose proof (proj1 (Forall_forall _ _) Hk _
                    (InvariantFacts.nth_error_In_pair _ _ _ _ Hn0)) as H.
      cbn in H. rewrite H.
      destruct (observed_again_facts raw now j0) as (H1 & _).
      unfold identity in H1. now inversion H1.
    + exact Hk.
    + apply InvariantFacts.Forall_set; [exact Hk | reflexivity].
    + eapply InvariantFacts.Forall_store; eauto. cbn [fst snd].
      pose proof (proj1 (Forall_forall _ _) Hk _
                    (InvariantFacts.nth_error_In_pair _ _ _ _ Hn0)) as H.
      cbn in H. rewrite H. reflexivity.
    + apply InvariantFacts.Forall_set; [exact Hk | reflexivity].
  - intros job Hjob.
    destruct (CallFacts.classify_job_cases self raw now uuid)
      as [(i0 & k0 & j0 & _ & Hn0 & E)
         |[(e & _ & _ & E)
          |[(c & r & reasoning & _ & _ & _ & E)
           |[(c & i0 & k0 & j0 & _ & _ & _ & _ & Hn0 & _ & Hst & E)
            |(c & _ & _ & _ & _ & E)]]]];
      rewrite E in Hjob |- *; cbn [fst snd known_jobs with_known_jobs] in *;
      inversion Hjob; subst job.
    + destruct (observed_again_facts raw now j0) as (H1 & _ & H3 & _).
      split; [|exact H3]. exists i0.
      pose proof (proj1 (Forall_forall _ _) Hk _
                    (InvariantFacts.nth_error_In_pair _ _ _ _ Hn0)) as H.
      cbn in H. unfold identity in H1.
      replace (id (observed_again raw now j0)) with k0
        by (rewrite H; now inversion H1).
      eapply store_nth_same; eauto.
    + split; [apply set_stores | cbn; discriminate].
    + destruct (reopened_facts raw now j0 Hst) as (_ & _ & H3 & _).
      split; [|rewrite H3; discriminate]. exists i0.
      pose proof (proj1 (Forall_forall _ _) Hk _
                    (InvariantFacts.nth_error_In_pair _ _ _ _ Hn0)) as H.
      cbn in H.
      replace (id (reopened raw now j0)) with k0 by (rewrite H; reflexivity).
      eapply store_nth_same; eauto.
    + split; [apply set_stores | cbn; discriminate].
Qed.

(** A call never makes a job Missing. *)
Lemma classify_job_keeps_seen :
  forall self raw_job now uuid4 job_id,
    seen (known_jobs self) job_id ->
    seen (known_jobs (fst (classify_job self raw_job now uuid4))) job_id.
Proof.
  intros self raw now uuid job_id (i & j & Hn & Hs). unfold seen.
  destruct (CallFacts.classify_job_cases self raw now uuid)
    as [(i0 & k0 & j0 & _ & Hn0 & E)
       |[(e & _ & _ & E)
        |[(c & r & reasoning & _ & _ & _ & E)
         |[(c & i0 & k0 & j0 & _ & _ & _ & _ & Hn0 & _ & Hst & E)
          |(c & _ & _ & _ & _ & E)]]]];
    rewrite E; cbn [fst known_jobs with_known_jobs].
  - destruct (store_nth _ _ _ _ (observed_again raw now j0) _ _ _ Hn0 Hn)
      as [(-> & -> & -> & H)|[Hne H]].
    + exists i0. eexists. split; [exact H|].
      now destruct (observed_again_facts raw now j0) as (_ & _ & H3 & _).
    + exists i, j. auto.
  - exists i, j. auto.
  - destruct (set_nth_fwd _ uuid
                (fresh_job raw (signature_of raw) now uuid REPOST reasoning)
                _ _ _ Hn) as [H|[-> H]].
    + exists i, j. auto.
    + exists i. eexists. split; [exact H | cbn; discriminate].
  - destruct (store_nth _ _ _ _ (reopened raw now j0) _ _ _ Hn0 Hn)
      as [(-> & -> & -> & H)|[Hne H]].
    + exists i0. eexists. split; [exact H|].
      destruct (reopened_facts raw now j0 Hst) as (_ & _ & H3 & _).
      rewrite H3. discriminate.
    + exists i, j. auto.
  - destruct (set_nth_fwd _ uuid
                (fresh_job raw (signature_of raw) now uuid NEW
                           "New job posting (no previous match found)")
                _ _ _ Hn) as [H|[-> H]].
    + exists i, j. auto.
    + exists i. eexists. split; [exact H | cbn; discriminate].
Qed.

(** A call leaves the classification EXISTING unused. *)
Lemma classify_job_none_existing :
  forall self raw_job now uuid4,
    none_existing (known_jobs self) ->
    none_existing (known_jobs (fst (classify_job self raw_job now uuid4)))
    /\ forall job,
        snd (classify_job self raw_job now uuid4) = Ok job ->
        classification job <> EXISTING.
Proof.
  intros self raw now uuid Hk. unfold none_existing in *.
  assert (Hat : forall i k j, nth_error (known_jobs self) i = Some (k, j) ->
                              classification j <> EXISTING).
  { intros i k j Hn.
    exact (proj1 (Forall_forall _ _) Hk _
                 (InvariantFacts.nth_error_In_pair _ _ _ _ Hn)). }
  assert (Hobs : forall j0, classification (observed_again raw now j0)
                            = classification j0).
  { intro j0. destruct (observed_again_facts raw now j0) as (H1 & _).
    unfold identity in H1. now inversion H1. }
  assert (Hre : forall j0, classification (reopened raw now j0)
                           = classification j0) by reflexivity.
  split.
  - destruct (CallFacts.classify_job_cases self raw now uuid)
      as [(i0 & k0 & j0 & _ & Hn0 & E)
         |[(e & _ & _ & E)
          |[(c & r & reasoning & _ & _ & _ & E)
           |[(c & i0 & k0 & j0 & _ & _ & _ & _ & Hn0 & _ & Hst & E)
            |(c & _ & _ & _ & _ & E)]]]];
      rewrite E; cbn [fst known_jobs with_known_jobs].
    + eapply InvariantFacts.Forall_store; eauto. cbn [fst snd].
      rewrite Hobs. eauto.
    + exact Hk.
    + apply InvariantFacts.Forall_set; [exact Hk | cbn; discriminate].
    + eapply InvariantFacts.Forall_store; eauto. cbn [fst snd].
      rewrite Hre. eauto.
    + apply InvariantFacts.Forall_set; [exact Hk | cbn; discriminate].
  - intros job Hjob.
    destruct (CallFacts.classify_job_cases self raw now uuid)
      as [(i0 & k0 & j0 & _ & Hn0 & E)
         |[(e & _ & _ & E)
          |[(c & r & reasoning & _ & _ & _ & E)
           |[(c & i0 & k0 & j0 & _ & _ & _ & _ & Hn0 & _ & Hst & E)
            |(c & _ & _ & _ & _ & E)]]]];
      rewrite E in Hjob; cbn [snd] in Hjob; inversion Hjob; subst job.
    + rewrite Hobs. eauto.
    + cbn; discriminate.
    + rewrite Hre. eauto.
    + cbn; discriminate.
Qed.

End WithMetric.

End StepFacts.

(** X15. If every job is stored under its own id, it stays so after
    [classify_job], [mark_missing_jobs] and [close_old_missing_jobs], and the
    job a successful [classify_job] returns is the one the dict then holds
    under that job's id. *)
Theorem jobs_stay_keyed_by_id :
  forall (M : Fuzz.StringMetric) (self : JobClassifier.t) (raw_job : RawJob.t)
         (now : PyTime.datetime) (uuid4 : string)
         (observed_job_ids : list string) (timeout_days : Z),
    Tracked.keyed_by_id (known_jobs self) ->
    Tracked.keyed_by_id (known_jobs (fst (classify_job self raw_job now uuid4)))
    /\ Tracked.keyed_by_id
         (known_jobs (fst (mark_missing_jobs self observed_job_ids now)))
    /\ Tracked.keyed_by_id
         (known_jobs (fst (close_old_missing_jobs self timeout_days now)))
    /\ (forall job,
           snd (classify_job self raw_job now uuid4) = Ok job ->
           exists i,
             nth_error (known_jobs (fst (classify_job self raw_job now uuid4))) i
             = Some (id job, job)).
Proof.
  intros M self raw now uuid ids days Hk.
  destruct (StepFacts.classify_job_keyed self raw now uuid Hk) as [Hstep Hret].
  unfold Tracked.keyed_by_id in *.
  split; [exact Hstep | split; [|split]].
  - rewrite SweepFacts.mark_missing_jobs_known. apply Forall_map.
    eapply Forall_impl; [|exact Hk]. intros [k j] H.
    destruct (Tracked.unobserved_active ids (k, j)); exact H.
  - destruct (cutoff now days) as [c|e] eqn:Hc.
    + rewrite (SweepFacts.close_old_missing_jobs_known _ _ _ _ Hc).
      cbn [fst known_jobs with_known_jobs]. apply Forall_map.
      eapply Forall_impl; [|exact Hk]. intros [k j] H.
      destruct (Tracked.stale_missing c (k, j)); exact H.
    + now rewrite (SweepFacts.close_old_missing_jobs_raises _ _ _ _ Hc).
  - intros job Hjob. exact (proj1 (Hret job Hjob)).
Qed.

Lemma jobs_stay_keyed_by_id_witness :
  Tracked.keyed_by_id
    (known_jobs
       (fst (Scenario.classify (Scenario.classifier [("j1", Scenario.closed_job)])
               (Scenario.reworded_posting (Some "job-789")) Scenario.mar15 "u2"))).
Proof.
  apply (jobs_stay_keyed_by_id
           RapidFuzz.metric (Scenario.classifier [("j1", Scenario.closed_job)])
           (Scenario.reworded_posting (Some "job-789")) Scenario.mar15 "u2" [] 14).
  repeat constructor.
Defined.

(** X16. If no two tracked jobs of one company carry the same non-empty
    source identifier, this still holds after [classify_job] (a record is
    created or re-identified only when the exact-identifier lookup found
    nothing) and after both sweeps. *)
Theorem source_identifiers_stay_unique :
  forall (M : Fuzz.StringMetric) (self : JobClassifier.t) (raw_job : RawJob.t)
         (now : PyTime.datetime) (uuid4 : string)
         (observed_job_ids : list string) (timeout_days : Z),
    Tracked.unique_source_ids (known_jobs self) ->
    Tracked.unique_source_ids (known_jobs (fst (classify_job self raw_job now uuid4)))
    /\ Tracked.unique_source_ids
         (known_jobs (fst (mark_missing_jobs self observed_job_ids now)))
    /\ Tracked.unique_source_ids
         (known_jobs (fst (close_old_missing_jobs self timeout_days now))).
Proof.
  intros M self raw now uuid ids days Hu.
  (* A state whose jobs carry, position by position, the company and source
     identifier of jobs of [self] inherits the uniqueness. *)
  assert (Hsame :
            forall d',
              (forall i k j',
                  nth_error d' i = Some (k, j') ->
                  exists j, nth_error (known_jobs self) i = Some (k, j)
                            /\ ClassifiedJob.company_id j' = ClassifiedJob.company_id j
                            /\ source_identifier j' = source_identifier j) ->
              Tracked.unique_source_ids d').
  { intros d' H i i' k k' j j' sid Hi Hi' Hc Hs Hs' Hne.
    destruct (H _ _ _ Hi) as (j0 & Hj0 & Hc0 & Hs0).
    destruct (H _ _ _ Hi') as (j0' & Hj0' & Hc0' & Hs0').
    eapply (Hu i i' k k' j0 j0' sid); eauto; congruence. }
  (* A fresh or re-identified job at one position, after a failed lookup. *)
  assert (Hone :
            forall d' p kp jp,
              _find_by_source_id self (RawJob.company_id raw)
                                 (RawJob.source_identifier raw) = None ->
              nth_error d' p = Some (kp, jp) ->
              ClassifiedJob.company_id jp = RawJob.company_id raw ->
              source_identifier jp = RawJob.source_identifier raw ->
              (forall i k j, i <> p -> nth_error d' i = Some (k, j) ->
                             nth_error (known_jobs self) i = Some (k, j)) ->
              Tracked.unique_source_ids d').
  { intros d' p kp jp Hex Hp Hcp Hsp Hother i i' k k' j j' sid Hi Hi' Hc Hs Hs' Hne.
    destruct (Nat.eq_dec i p) as [->|Hip]; destruct (Nat.eq_dec i' p) as [->|Hip'];
      try reflexivity.
    - rewrite Hp in Hi. inversion Hi; subst k j. exfalso.
      destruct (ClassifierFacts.find_by_source_id_None _ _ _ Hex) as [H|[H|H]].
      + congruence.
      + rewrite Hsp, H in Hs. inversion Hs. congruence.
      + eapply (H i' k' j'); eauto; congruence.
    - rewrite Hp in Hi'. inversion Hi'; subst k' j'. exfalso.
      destruct (ClassifierFacts.find_by_source_id_None _ _ _ Hex) as [H|[H|H]].
      + congruence.
      + rewrite Hsp, H in Hs'. inversion Hs'. congruence.
      + eapply (H i k j); eauto; congruence.
    - eapply (Hu i i' k k' j j' sid); eauto. }
  split; [|split].
  - destruct (CallFacts.classify_job_cases self raw now uuid)
      as [(i0 & k0 & j0 & _ & Hn0 & E)
         |[(e & _ & _ & E)
          |[(c & r & reasoning & Hex & _ & _ & E)
           |[(c & i0 & k0 & j0 & Hex & _ & _ & _ & Hn0 & Hc0 & Hst & E)
            |(c & Hex & _ & _ & _ & E)]]]];
      rewrite E; cbn [fst known_jobs with_known_jobs].
    + apply Hsame. intros i k j' Hi.
      destruct (TrackedFacts.store_nth_inv _ _ _ _ _ _ Hi)
        as [(-> & -> & j1 & Hj1)|[Hne Hn]].
      * rewrite Hn0 in Hj1. inversion Hj1; subst. exists j1. split; [exact Hn0|].
        destruct (TrackedFacts.observed_again_facts raw now j1)
          as (H1 & _ & _ & _ & _ & H6 & _).
        unfold Tracked.identity in H1. split; [now inversion H1 | exact H6].
      * exists j'. auto.
    + exact Hu.
    + destruct (InvariantFacts.set_position (known_jobs self) uuid
                  (fresh_job raw (Tracked.signature_of raw) now uuid REPOST reasoning))
        as (p & Hp & Hother).
      eapply Hone; eauto.
    + eapply (Hone _ i0 k0 (Tracked.reopened raw now j0)); eauto.
      * eapply JobDictFacts.store_nth_same; eauto.
      * intros i k j Hi H. now rewrite JobDictFacts.store_nth_other in H.
    + destruct (InvariantFacts.set_position (known_jobs self) uuid
                  (fresh_job raw (Tracked.signature_of raw) now uuid NEW
                             "New job posting (no previous match found)"))
        as (p & Hp & Hother).
      eapply Hone; eauto.
  - apply Hsame. intros i k j' Hi.
    rewrite SweepFacts.mark_missing_jobs_known, nth_error_map in Hi.
    destruct (nth_error (known_jobs self) i) as [[k0 j0]|]; [|discriminate].
    cbn in Hi. exists j0.
    destruct (Tracked.unobserved_active ids (k0, j0)); inversion Hi; subst; auto.
  - destruct (cutoff now days) as [c|e] eqn:Hc.
    + apply Hsame. intros i k j' Hi.
      rewrite (SweepFacts.close_old_missing_jobs_known _ _ _ _ Hc) in Hi.
      cbn [fst known_jobs with_known_jobs] in Hi. rewrite nth_error_map in Hi.
      destruct (nth_error (known_jobs self) i) as [[k0 j0]|]; [|discriminate].
      cbn in Hi. exists j0.
      destruct (Tracked.stale_missing c (k0, j0)); inversion Hi; subst; auto.
    + now rewrite (SweepFacts.close_old_missing_jobs_raises _ _ _ _ Hc).
Qed.

Lemma source_identifiers_stay_unique_witness :
  Tracked.unique_source_ids
    (known_jobs
       (fst (Scenario.classify (Scenario.classifier [("j1", Scenario.closed_job)])
               (Scenario.reworded_posting (Some "job-789")) Scenario.mar15 "u2"))).
Proof.
  apply (source_identifiers_stay_unique
           RapidFuzz.metric (Scenario.classifier [("j1", Scenario.closed_job)])
           (Scenario.reworded_posting (Some "job-789")) Scenario.mar15 "u2" [] 14).
  intros [|[|i]] [|[|i']] k k' j j' sid H H'; cbn in H, H'; try discriminate;
    reflexivity.
Defined.

(** X17. [classify_job] and [close_old_missing_jobs] can fail in one way
    only: the cutoff [current_time - timedelta(days=...)] raises
    [OverflowError], because the number of days exceeds 999999999 in
    magnitude or the cutoff falls outside the years 1..9999. [classify_job]
    fails so exactly when the exact-identifier lookup finds nothing and the
    cutoff raises. A failed call leaves the tracked jobs untouched. *)
Theorem operations_fail_only_on_cutoff_overflow :
  forall (M : Fuzz.StringMetric) (self : JobClassifier.t) (raw_job : RawJob.t)
         (now : PyTime.datetime) (uuid4 : string) (days : Z),
    (forall e,
        snd (classify_job self raw_job now uuid4) = Raise e
        <-> _find_by_source_id self (RawJob.company_id raw_job)
                               (RawJob.source_identifier raw_job) = None
            /\ cutoff now (repost_window_days self) = Raise e)
    /\ (forall e,
           snd (classify_job self raw_job now uuid4) = Raise e ->
           e = OverflowError /\ fst (classify_job self raw_job now uuid4) = self)
    /\ (forall e,
           snd (close_old_missing_jobs self days now) = Raise e
           <-> cutoff now days = Raise e)
    /\ (forall e,
           snd (close_old_missing_jobs self days now) = Raise e ->
           e = OverflowError /\ fst (close_old_missing_jobs self days now) = self)
    /\ (forall c,
           cutoff now days = Ok c
           <-> Z.abs days <= 999999999
               /\ c = now - days * PyTime.us_per_day
               /\ 0 <= c < PyTime.max_ordinal * PyTime.us_per_day).
Proof.
  intros M self raw now uuid days.
  assert (Hclassify :
            forall e,
              snd (classify_job self raw now uuid) = Raise e
              <-> _find_by_source_id self (RawJob.company_id raw)
                                     (RawJob.source_identifier raw) = None
                  /\ cutoff now (repost_window_days self) = Raise e).
  { intro e.
    destruct (CallFacts.classify_job_cases self raw now uuid)
      as [(i0 & k0 & j0 & Hex & Hn0 & E)
         |[(e' & Hex & Hcut & E)
          |[(c & r & reasoning & Hex & Hcut & _ & E)
           |[(c & i0 & k0 & j0 & Hex & Hcut & _ & _ & _ & _ & _ & E)
            |(c & Hex & Hcut & _ & _ & E)]]]];
      rewrite E; cbn [snd]; split;
      try discriminate; try (intros [H1 H2]; congruence).
    intro H; inversion H; subst. auto. }
  assert (Hclose : forall e,
             snd (close_old_missing_jobs self days now) = Raise e
             <-> cutoff now days = Raise e).
  { intro e. destruct (cutoff now days) as [c|e'] eqn:Hc.
    - rewrite (SweepFacts.close_old_missing_jobs_known _ _ _ _ Hc).
      cbn [snd]. split; discriminate.
    - rewrite (SweepFacts.close_old_missing_jobs_raises _ _ _ _ Hc).
      cbn [snd]. tauto. }
  split; [exact Hclassify|]. split; [|split; [exact Hclose|split]].
  - intros e H. pose proof (proj1 (Hclassify e) H) as [Hex Hcut].
    split; [eapply SweepFacts.cutoff_error; eauto|].
    unfold classify_job. rewrite Hex. unfold _find_similar_recent_job.
    rewrite Hcut. reflexivity.
  - intros e H. pose proof (proj1 (Hclose e) H) as Hcut.
    split; [eapply SweepFacts.cutoff_error; eauto|].
    now rewrite (SweepFacts.close_old_missing_jobs_raises _ _ _ _ Hcut).
  - intro c. unfold cutoff, PyTime.timedelta_days, PyTime.sub, PyTime.in_range.
    destruct (Z.leb_spec (Z.abs days) 999999999) as [Hd|Hd]; cbn [bind].
    + destruct (Z.leb_spec 0 (now - days * PyTime.us_per_day)) as [H0|H0];
        destruct (Z.ltb_spec (now - days * PyTime.us_per_day)
                             (PyTime.max_ordinal * PyTime.us_per_day)) as [H1|H1];
        cbn [andb]; split; intro H;
        try (inversion H; subst; repeat split; (assumption || reflexivity));
        try discriminate;
        try (destruct H as (_ & -> & H2 & H3); lia).
      destruct H as (_ & -> & H2 & H3). reflexivity.
    + split; [discriminate | intros (H & _); lia].
Qed.

(** X18. Matching never crosses companies. A call of [classify_job] leaves
    every tracked job of another company exactly as it was, and when no
    tracked job belongs to the observation's company the call creates a New
    record, whatever the titles and locations of the other companies' jobs. *)
Theorem companies_are_isolated :
  forall (M : Fuzz.StringMetric) (self : JobClassifier.t) (raw_job : RawJob.t)
         (now : PyTime.datetime) (uuid4 : string),
    (forall i k j,
        nth_error (known_jobs self) i = Some (k, j) ->
        ClassifiedJob.company_id j <> RawJob.company_id raw_job ->
        k <> uuid4 ->
        nth_error (known_jobs (fst (classify_job self raw_job now uuid4))) i
        = Some (k, j))
    /\ ((forall i k j,
            nth_error (known_jobs self) i = Some (k, j) ->
            ClassifiedJob.company_id j <> RawJob.company_id raw_job) ->
        forall c,
          cutoff now (repost_window_days self) = Ok c ->
          classify_job self raw_job now uuid4
          = (with_known_jobs self
               (JobDict.set uuid4
                  (fresh_job raw_job (Tracked.signature_of raw_job) now uuid4 NEW
                             "New job posting (no previous match found)")
                  (known_jobs self)),
             Ok (fresh_job raw_job (Tracked.signature_of raw_job) now uuid4 NEW
                           "New job posting (no previous match found)"))).
Proof.
  intros M self raw now uuid. split.
  - intros i k j Hn Hc Hk.
    destruct (CallFacts.classify_job_cases self raw now uuid)
      as [(i0 & k0 & j0 & Hex & Hn0 & E)
         |[(e & _ & _ & E)
          |[(c & r & reasoning & _ & _ & _ & E)
           |[(c & i0 & k0 & j0 & _ & _ & _ & _ & Hn0 & Hc0 & Hst & E)
            |(c & _ & _ & _ & _ & E)]]]];
      rewrite E; cbn [fst known_jobs with_known_jobs].
    + destruct (ClassifierFacts.find_by_source_id_Some _ _ _ _ _ Hex)
        as (_ & _ & _ & _ & _ & Hc0 & _).
      rewrite JobDictFacts.store_nth_other; [exact Hn|].
      intros ->. rewrite Hn0 in Hn. inversion Hn; subst. contradiction.
    + exact Hn.
    + now apply JobDictFacts.set_nth_other_key.
    + rewrite JobDictFacts.store_nth_other; [exact Hn|].
      intros ->. rewrite Hn0 in Hn. inversion Hn; subst. contradiction.
    + now apply JobDictFacts.set_nth_other_key.
  - intros Hnone c Hcut.
    destruct (CallFacts.classify_job_cases self raw now uuid)
      as [(i0 & k0 & j0 & Hex & Hn0 & E)
         |[(e & _ & Hcut' & E)
          |[(c' & r & reasoning & _ & Hcut' & Hbest & E)
           |[(c' & i0 & k0 & j0 & _ & _ & _ & _ & Hn0 & Hc0 & Hst & E)
            |(c' & _ & _ & _ & _ & E)]]]].
    + exfalso.
      destruct (ClassifierFacts.find_by_source_id_Some _ _ _ _ _ Hex)
        as (_ & _ & _ & _ & _ & Hc0 & _).
      exact (Hnone _ _ _ Hn0 Hc0).
    + congruence.
    + exfalso. apply ClassifierFacts.best_among_In in Hbest.
      apply ClassifierFacts.recent_jobs_In in Hbest.
      destruct Hbest as (Hin & Hc0 & _). destruct r as [i j]. cbn [snd] in *.
      destruct (JobDictFacts.values_In _ _ _ Hin) as [k Hk].
      exact (Hnone _ _ _ Hk Hc0).
    + exfalso. exact (Hnone _ _ _ Hn0 Hc0).
    + exact E.
Qed.

Lemma companies_are_isolated_witness :
  nth_error
    (known_jobs
       (fst (Scenario.classify (Scenario.classifier [("j1", Scenario.active_job)])
               {| RawJob.company_id := "globex";
                  RawJob.company_name := "Globex";
                  RawJob.title := "Senior Software Engineer";
                  RawJob.location := "San Francisco, CA";
                  RawJob.url := "https://globex.com/jobs/1";
                  RawJob.source_identifier := Some "job-123";
                  RawJob.posted_date := None;
                  RawJob.updated_date := None;
                  RawJob.department := None;
                  RawJob.description := None |}
               Scenario.mar15 "u2")))
    0
  = Some ("j1", Scenario.active_job).
Proof.
  apply (proj1 (companies_are_isolated
                  RapidFuzz.metric (Scenario.classifier [("j1", Scenario.active_job)])
                  {| RawJob.company_id := "globex";
                     RawJob.company_name := "Globex";
                     RawJob.title := "Senior Software Engineer";
                     RawJob.location := "San Francisco, CA";
                     RawJob.url := "https://globex.com/jobs/1";
                     RawJob.source_identifier := Some "job-123";
                     RawJob.posted_date := None;
                     RawJob.updated_date := None;
                     RawJob.department := None;
                     RawJob.description := None |}
                  Scenario.mar15 "u2"));
    [reflexivity | discriminate | discriminate].
Defined.

(** X19. [mark_missing_jobs] returns the number of tracked jobs that are
    Active and whose key is not among the observed ids; exactly these jobs
    become Missing with [updated_at] set to the current time. Every other
    job, in particular a Reopened one that was not observed, is left exactly
    as it was, and no job changes in any field but [status] and
    [updated_at]. *)
Theorem mark_missing_jobs_effect :
  forall (self : JobClassifier.t) (observed_job_ids : list string)
         (now : PyTime.datetime),
    snd (mark_missing_jobs self observed_job_ids now)
    = Z.of_nat (List.length (filter (Tracked.unobserved_active observed_job_ids)
                                    (known_jobs self)))
    /\ List.length (known_jobs (fst (mark_missing_jobs self observed_job_ids now)))
       = List.length (known_jobs self)
    /\ forall i k j,
        nth_error (known_jobs self) i = Some (k, j) ->
        exists j',
          nth_error (known_jobs (fst (mark_missing_jobs self observed_job_ids now))) i
          = Some (k, j')
          /\ Tracked.unswept j' = Tracked.unswept j
          /\ (observed observed_job_ids k = false -> status j = ACTIVE ->
              status j' = MISSING /\ updated_at j' = Some now)
          /\ (observed observed_job_ids k = true \/ status j <> ACTIVE -> j' = j).
Proof.
  intros self ids now. split; [|split].
  - unfold mark_missing_jobs. now rewrite SweepFacts.mark_missing_loop_pointwise.
  - rewrite SweepFacts.mark_missing_jobs_known. apply length_map.
  - intros i k j Hn. rewrite SweepFacts.mark_missing_jobs_known.
    rewrite (SweepFacts.nth_error_map_pointwise _ _ _ _ _ Hn).
    unfold Tracked.unobserved_active. cbn [fst snd].
    destruct (observed ids k) eqn:Eo; cbn [negb andb].
    + exists j. repeat split; auto; discriminate.
    + destruct (status j) eqn:Es; cbn [JobStatus_eqb].
      * eexists. split; [reflexivity|]. repeat split.
        intros [H|H]; [discriminate | congruence].
      * exists j. repeat split; auto; discriminate.
      * exists j. repeat split; auto; discriminate.
      * exists j. repeat split; auto; discriminate.
Qed.

Lemma mark_missing_jobs_effect_witness :
  exists j',
    nth_error
      (known_jobs
         (fst (mark_missing_jobs
                 (Scenario.classifier
                    [("j1", Scenario.active_job); ("j2", Scenario.reopened_job)])
                 [] Scenario.mar15)))
      1
    = Some ("j2", j')
    /\ Tracked.unswept j' = Tracked.unswept Scenario.reopened_job
    /\ (observed [] "j2" = false -> status Scenario.reopened_job = ACTIVE ->
        status j' = MISSING /\ updated_at j' = Some Scenario.mar15)
    /\ (observed [] "j2" = true \/ status Scenario.reopened_job <> ACTIVE ->
        j' = Scenario.reopened_job).
Proof.
  apply (proj2 (proj2 (mark_missing_jobs_effect
                         (Scenario.classifier
                            [("j1", Scenario.active_job);
                             ("j2", Scenario.reopened_job)])
                         [] Scenario.mar15))
               1%nat "j2" Scenario.reopened_job).
  reflexivity.
Defined.

(** X20. When the cutoff [current_time - timeout_days] can be computed,
    [close_old_missing_jobs] returns the number of Missing jobs last seen
    strictly before it, and exactly these become Closed: a Missing job last
    seen at the cutoff itself stays Missing, and no job that is not Missing is
    touched. The sweep changes [status] and [updated_at] only, and running it
    again with the same arguments closes nothing more. *)
Theorem close_old_missing_jobs_effect :
  forall (self : JobClassifier.t) (timeout_days : Z) (now c : PyTime.datetime),
    cutoff now timeout_days = Ok c ->
    snd (close_old_missing_jobs self timeout_days now)
    = Ok (Z.of_nat (List.length (filter (Tracked.stale_missing c) (known_jobs self))))
    /\ (forall i k j,
           nth_error (known_jobs self) i = Some (k, j) ->
           exists j',
             nth_error (known_jobs (fst (close_old_missing_jobs self timeout_days now)))
                       i
             = Some (k, j')
             /\ Tracked.unswept j' = Tracked.unswept j
             /\ (status j = MISSING -> last_seen j < c ->
                 status j' = CLOSED /\ updated_at j' = Some now)
             /\ (status j <> MISSING \/ c <= last_seen j -> j' = j))
    /\ close_old_missing_jobs (fst (close_old_missing_jobs self timeout_days now))
                              timeout_days now
       = (fst (close_old_missing_jobs self timeout_days now), Ok 0).
Proof.
  intros self days now c Hc.
  rewrite (SweepFacts.close_old_missing_jobs_known _ _ _ _ Hc).
  cbn [fst snd known_jobs with_known_jobs]. split; [reflexivity|]. split.
  - intros i k j Hn.
    rewrite (SweepFacts.nth_error_map_pointwise _ _ _ _ _ Hn).
    unfold Tracked.stale_missing. cbn [fst snd].
    destruct (status j) eqn:Es; cbn [JobStatus_eqb andb];
      try (exists j; repeat split; auto; discriminate).
    destruct (Z.ltb_spec (last_seen j) c) as [Hlt|Hge].
    + eexists. split; [reflexivity|]. repeat split.
      intros [H|H]; [congruence | lia].
    + exists j. repeat split; auto; lia.
  - rewrite (SweepFacts.close_old_missing_jobs_known _ _ _ _ Hc).
    cbn [known_jobs with_known_jobs].
    assert (Hmap :
              forall d,
                map (fun kj : string * ClassifiedJob.t =>
                       if Tracked.stale_missing c kj
                       then (fst kj, set_updated_at now (set_status CLOSED (snd kj)))
                       else kj)
                    (map (fun kj : string * ClassifiedJob.t =>
                            if Tracked.stale_missing c kj
                            then (fst kj,
                                  set_updated_at now (set_status CLOSED (snd kj)))
                            else kj) d)
                = map (fun kj : string * ClassifiedJob.t =>
                         if Tracked.stale_missing c kj
                         then (fst kj, set_updated_at now (set_status CLOSED (snd kj)))
                         else kj) d
                /\ filter (Tracked.stale_missing c)
                          (map (fun kj : string * ClassifiedJob.t =>
                                  if Tracked.stale_missing c kj
                                  then (fst kj,
                                        set_updated_at now (set_status CLOSED (snd kj)))
                                  else kj) d)
                   = []).
    { induction d as [|[k j] d [IH1 IH2]]; [split; reflexivity|].
      cbn [map filter]. rewrite IH1.
      destruct (Tracked.stale_missing c (k, j)) eqn:E; cbn [fst snd].
      - change (Tracked.stale_missing c (k, set_updated_at now (set_status CLOSED j)))
          with false. now rewrite IH2.
      - rewrite E. now rewrite IH2. }
    destruct (Hmap (known_jobs self)) as [H1 H2].
    unfold with_known_jobs. cbn [repost_window_days matcher known_jobs].
    rewrite H1, H2. reflexivity.
Qed.

Lemma close_old_missing_jobs_effect_witness :
  snd (close_old_missing_jobs
         (Scenario.classifier
            [("j0", Scenario.missing_twin);
             ("j1", Scenario.tracked "j1" MISSING Scenario.jan15
                                     (Scenario.jan15 + Scenario.days 14)
                                     (Some "job-9"))])
         14 (Scenario.jan15 + Scenario.days 28))
  = Ok 1.
Proof.
  apply (close_old_missing_jobs_effect
           (Scenario.classifier
              [("j0", Scenario.missing_twin);
               ("j1", Scenario.tracked "j1" MISSING Scenario.jan15
                                       (Scenario.jan15 + Scenario.days 14)
                                       (Some "job-9"))])
           14 (Scenario.jan15 + Scenario.days 28)
           (Scenario.jan15 + Scenario.days 14)).
  reflexivity.
Defined.

(** ** What a search result says about the candidates *)

Module SearchFacts.

Import ClassifiedJob JobClassifier JobMatcher MatcherFacts Tracked.

Section WithMetric.

Context {M : Fuzz.StringMetric}.




End WithMetric.

Section WithLawfulMetric.

Context {M : Fuzz.StringMetric} {L : Fuzz.Lawful M}.


End WithLawfulMetric.

Section Calls.

Context {M : Fuzz.StringMetric}.


End Calls.

End SearchFacts.

(** X21. No operation of the classifier ever gives a job the classification
    EXISTING: if no tracked job carries it, none does after [classify_job],
    [mark_missing_jobs] or [close_old_missing_jobs], and the job
    [classify_job] returns does not carry it either, also when the
    observation matched a tracked job by its source identifier. *)
Theorem classifier_never_assigns_existing :
  forall (M : Fuzz.StringMetric) (self : JobClassifier.t) (raw_job : RawJob.t)
         (now : PyTime.datetime) (uuid4 : string)
         (observed_job_ids : list string) (timeout_days : Z),
    Forall (fun kj : string * ClassifiedJob.t => classification (snd kj) <> EXISTING)
           (known_jobs self) ->
    Forall (fun kj : string * ClassifiedJob.t => classification (snd kj) <> EXISTING)
           (known_jobs (fst (classify_job self raw_job now uuid4)))
    /\ (forall job,
           snd (classify_job self raw_job now uuid4) = Ok job ->
           classification job <> EXISTING)
    /\ Forall (fun kj : string * ClassifiedJob.t => classification (snd kj) <> EXISTING)
              (known_jobs (fst (mark_missing_jobs self observed_job_ids now)))
    /\ Forall (fun kj : string * ClassifiedJob.t => classification (snd kj) <> EXISTING)
              (known_jobs (fst (close_old_missing_jobs self timeout_days now))).
Proof.
  intros M self raw now uuid ids days Hk.
  destruct (StepFacts.classify_job_none_existing self raw now uuid Hk)
    as [Hstep Hret].
  split; [exact Hstep | split; [exact Hret | split]].
  - rewrite SweepFacts.mark_missing_jobs_known. apply Forall_map.
    eapply Forall_impl; [|exact Hk]. intros [k j] H.
    destruct (Tracked.unobserved_active ids (k, j)); exact H.
  - destruct (cutoff now days) as [c|e] eqn:Hc.
    + rewrite (SweepFacts.close_old_missing_jobs_known _ _ _ _ Hc).
      cbn [fst known_jobs with_known_jobs]. apply Forall_map.
      eapply Forall_impl; [|exact Hk]. intros [k j] H.
      destruct (Tracked.stale_missing c (k, j)); exact H.
    + now rewrite (SweepFacts.close_old_missing_jobs_raises _ _ _ _ Hc).
Qed.

Lemma classifier_never_assigns_existing_witness :
  Forall (fun kj : string * ClassifiedJob.t => classification (snd kj) <> EXISTING)
         (known_jobs
            (fst (Scenario.classify (Scenario.classifier [("j1", Scenario.active_job)])
                                    (Scenario.same_posting (Some "job-123"))
                                    Scenario.mar15 "u2"))).
Proof.
  apply (proj1 (classifier_never_assigns_existing
                  RapidFuzz.metric
                  (Scenario.classifier [("j1", Scenario.active_job)])
                  (Scenario.same_posting (Some "job-123"))
                  Scenario.mar15 "u2" [] 14
                  ltac:(repeat constructor; discriminate))).
Defined.





(** ** The run loop *)

Module RunFacts.

Import ClassifiedJob JobClassifier Tracked Orchestrator.

Lemma counted_count :
  forall c cnt,
    counted (count (JobClassification_value c) cnt) = counted cnt + 1
    /\ (c <> EXISTING ->
        existing (count (JobClassification_value c) cnt) = existing cnt).
Proof.
  intros [] cnt; unfold counted, count; cbn; split; try lia; congruence.
Qed.

Section WithMetric.

Context {M : Fuzz.StringMetric}.

Lemma classify_job_window :
  forall self raw_job now uuid4,
    repost_window_days (fst (classify_job self raw_job now uuid4))
    = repost_window_days self.
Proof.
  intros self raw now uuid.
  destruct (CallFacts.classify_job_cases self raw now uuid)
    as [(i0 & k0 & j0 & _ & _ & E)
       |[(e & _ & _ & E)
        |[(c & r & reasoning & _ & _ & _ & E)
         |[(c & i0 & k0 & j0 & _ & _ & _ & _ & _ & _ & _ & E)
          |(c & _ & _ & _ & _ & E)]]]];
    rewrite E; reflexivity.
Qed.

Lemma classify_job_succeeds :
  forall self raw_job now uuid4 c e,
    cutoff now (repost_window_days self) = Ok c ->
    snd (classify_job self raw_job now uuid4) <> Raise e.
Proof.
  intros self raw now uuid c0 e0 Hc.
  destruct (CallFacts.classify_job_cases self raw now uuid)
    as [(i0 & k0 & j0 & _ & _ & E)
       |[(e & _ & Hcut & E)
        |[(c & r & reasoning & _ & _ & _ & E)
         |[(c & i0 & k0 & j0 & _ & _ & _ & _ & _ & _ & _ & E)
          |(c & _ & _ & _ & _ & E)]]]];
    rewrite E; cbn [snd]; congruence.
Qed.

(** The loop keeps the jobs under their ids, and every id it has collected
    is the key of a job that is not Missing. *)
Lemma classify_all_seen :
  forall raws classifier now ids cnt,
    keyed_by_id (known_jobs classifier) ->
    Forall (seen (known_jobs classifier)) ids ->
    keyed_by_id (known_jobs (fst (fst (classify_all classifier raws now ids cnt))))
    /\ Forall (seen (known_jobs (fst (fst (classify_all classifier raws now ids cnt)))))
              (snd (fst (classify_all classifier raws now ids cnt))).
Proof.
  induction raws as [|[raw uuid] raws IH]; intros classifier now ids cnt Hk Hs;
    cbn [classify_all].
  - auto.
  - pose proof (StepFacts.classify_job_keyed classifier raw now uuid Hk) as [Hk' Hret].
    assert (Hs' : Forall (seen (known_jobs (fst (classify_job classifier raw now uuid))))
                         ids).
    { eapply Forall_impl; [|exact Hs]. intros job_id Hid.
      now apply StepFacts.classify_job_keeps_seen. }
    destruct (classify_job classifier raw now uuid) as [classifier' [job|e]] eqn:E;
      cbn [fst snd] in *.
    + apply IH; [exact Hk'|]. apply Forall_app. split; [exact Hs'|].
      constructor; [|constructor].
      destruct (Hret job eq_refl) as [[i Hi] Hst]. exists i, job. auto.
    + apply IH; assumption.
Qed.

(** What the loop adds to its accumulators. *)
Lemma classify_all_counts :
  forall raws classifier now ids cnt,
    exists added,
      snd (fst (classify_all classifier raws now ids cnt)) = (ids ++ added)%list
      /\ (List.length added <= List.length raws)%nat
      /\ counted (snd (classify_all classifier raws now ids cnt))
         = counted cnt + Z.of_nat (List.length added)
      /\ ((exists c, cutoff now (repost_window_days classifier) = Ok c) ->
          List.length added = List.length raws)
      /\ (none_existing (known_jobs classifier) ->
          existing (snd (classify_all classifier raws now ids cnt)) = existing cnt).
Proof.
  induction raws as [|[raw uuid] raws IH]; intros classifier now ids cnt;
    cbn [classify_all].
  - exists []. rewrite app_nil_r. cbn. repeat split; auto; lia.
  - pose proof (classify_job_window classifier raw now uuid) as Hw.
    pose proof (StepFacts.classify_job_none_existing classifier raw now uuid) as Hne.
    pose proof (classify_job_succeeds classifier raw now uuid) as Hok.
    destruct (classify_job classifier raw now uuid) as [classifier' [job|e]] eqn:E;
      cbn [fst snd] in *.
    + destruct (IH classifier' now (ids ++ [id job])%list
                   (count (JobClassification_value (classification job)) cnt))
        as (added & Hids & Hlen & Hcnt & Hall & Hex).
      destruct (counted_count (classification job) cnt) as [Hc1 Hc2].
      exists (id job :: added). rewrite Hids, <- app_assoc. cbn [app List.length].
      repeat split.
      * lia.
      * rewrite Hcnt, Hc1. lia.
      * intros Hcut. rewrite Hw in Hall. rewrite (Hall Hcut). reflexivity.
      * intros Hn. destruct (Hne Hn) as [Hn1 Hn2].
        rewrite (Hex Hn1). apply Hc2. now apply Hn2.
    + destruct (IH classifier' now ids cnt) as (added & Hids & Hlen & Hcnt & Hall & Hex).
      exists added. repeat split; auto.
      * cbn [List.length]. lia.
      * intros [c Hcut]. exfalso. exact (Hok c e Hcut eq_refl).
      * intros Hn. apply Hex. now apply Hne.
Qed.

Lemma classify_fetched_eq :
  forall classifier raws now,
    classify_fetched classifier raws now
    = (fst (fst (classify_all classifier raws now [] no_counts)),
       {| jobs_fetched := Z.of_nat (List.length raws);
          jobs_classified :=
            Z.of_nat (List.length
                        (snd (fst (classify_all classifier raws now [] no_counts))));
          new_jobs := new (snd (classify_all classifier raws now [] no_counts));
          repost_jobs := repost (snd (classify_all classifier raws now [] no_counts));
          existing_jobs := existing (snd (classify_all classifier raws now [] no_counts));
          observed_job_ids :=
            snd (fst (classify_all classifier raws now [] no_counts)) |}).
Proof.
  intros classifier raws now. unfold classify_fetched.
  destruct (classify_all classifier raws now [] no_counts) as [[c ids] cnt].
  reflexivity.
Qed.

End WithMetric.

End RunFacts.

(** X24. The counts [_process_company] reports add up: every classified job
    is counted under exactly one of new, repost and existing, no more jobs
    are classified than were fetched, and all of them are when the repost
    cutoff can be computed. As long as no tracked job is classified EXISTING,
    the existing count is 0: a job found again by its source identifier is
    counted under the classification it was created with. *)
Theorem company_result_counts :
  forall (M : Fuzz.StringMetric) (classifier : JobClassifier.t)
         (all_raw_jobs : list (RawJob.t * string)) (now : PyTime.datetime),
    Orchestrator.jobs_classified
      (snd (Orchestrator.classify_fetched classifier all_raw_jobs now))
    = Z.of_nat (List.length
                  (Orchestrator.observed_job_ids
                     (snd (Orchestrator.classify_fetched classifier all_raw_jobs now))))
    /\ Orchestrator.new_jobs
         (snd (Orchestrator.classify_fetched classifier all_raw_jobs now))
       + Orchestrator.repost_jobs
           (snd (Orchestrator.classify_fetched classifier all_raw_jobs now))
       + Orchestrator.existing_jobs
           (snd (Orchestrator.classify_fetched classifier all_raw_jobs now))
       = Orchestrator.jobs_classified
           (snd (Orchestrator.classify_fetched classifier all_raw_jobs now))
    /\ Orchestrator.jobs_classified
         (snd (Orchestrator.classify_fetched classifier all_raw_jobs now))
       <= Orchestrator.jobs_fetched
            (snd (Orchestrator.classify_fetched classifier all_raw_jobs now))
    /\ ((exists c, cutoff now (repost_window_days classifier) = Ok c) ->
        Orchestrator.jobs_classified
          (snd (Orchestrator.classify_fetched classifier all_raw_jobs now))
        = Orchestrator.jobs_fetched
            (snd (Orchestrator.classify_fetched classifier all_raw_jobs now)))
    /\ (Tracked.none_existing (known_jobs classifier) ->
        Orchestrator.existing_jobs
          (snd (Orchestrator.classify_fetched classifier all_raw_jobs now))
        = 0).
Proof.
  intros M classifier raws now. rewrite RunFacts.classify_fetched_eq.
  cbn [snd Orchestrator.jobs_classified Orchestrator.observed_job_ids
           Orchestrator.new_jobs Orchestrator.repost_jobs
           Orchestrator.existing_jobs Orchestrator.jobs_fetched].
  destruct (RunFacts.classify_all_counts raws classifier now [] Orchestrator.no_counts)
    as (added & Hids & Hlen & Hcnt & Hall & Hex).
  rewrite Hids. cbn [app]. unfold Orchestrator.counted in Hcnt. cbn in Hcnt.
  repeat split.
  - lia.
  - lia.
  - intro Hc. rewrite (Hall Hc). reflexivity.
  - intro Hn. rewrite (Hex Hn). reflexivity.
Qed.

(** X25. Within one run, a job that was observed is not swept: when the jobs
    are stored under their ids, every id that the classification loop
    collects is the key of a job that is not Missing after the loop, and the
    lifecycle sweeps that follow, called with the collected ids, leave that
    job exactly as the loop left it. *)
Theorem observed_jobs_are_not_swept :
  forall (M : Fuzz.StringMetric) (classifier : JobClassifier.t)
         (all_raw_jobs : list (RawJob.t * string)) (start_time : PyTime.datetime)
         (close_timeout_days : Z) (job_id : string),
    Tracked.keyed_by_id (known_jobs classifier) ->
    In job_id
       (Orchestrator.observed_job_ids
          (snd (Orchestrator.classify_fetched classifier all_raw_jobs start_time))) ->
    exists i job,
      nth_error
        (known_jobs
           (fst (Orchestrator.classify_fetched classifier all_raw_jobs start_time))) i
      = Some (job_id, job)
      /\ status job <> MISSING
      /\ nth_error
           (known_jobs
              (fst (Orchestrator.lifecycle
                      (fst (Orchestrator.classify_fetched classifier all_raw_jobs
                                                          start_time))
                      (Orchestrator.observed_job_ids
                         (snd (Orchestrator.classify_fetched classifier all_raw_jobs
                                                             start_time)))
                      start_time close_timeout_days))) i
         = Some (job_id, job).
Proof.
  intros M classifier raws start days job_id Hk.
  rewrite RunFacts.classify_fetched_eq.
  cbn [fst snd Orchestrator.observed_job_ids].
  destruct (RunFacts.classify_all_seen raws classifier start []
                                       Orchestrator.no_counts Hk (Forall_nil _))
    as [_ Hseen].
  set (after := fst (fst (Orchestrator.classify_all classifier raws start []
                                                    Orchestrator.no_counts))) in *.
  set (ids := snd (fst (Orchestrator.classify_all classifier raws start []
                                                  Orchestrator.no_counts))) in *.
  intro Hin.
  destruct (proj1 (Forall_forall _ _) Hseen _ Hin) as (i & job & Hn & Hst).
  exists i, job. split; [exact Hn|]. split; [exact Hst|].
  unfold Orchestrator.lifecycle.
  pose proof (SweepFacts.mark_missing_jobs_known after ids start) as Hmark.
  destruct (mark_missing_jobs after ids start) as [marked missing_count].
  cbn [fst] in Hmark.
  assert (Hn1 : nth_error (known_jobs marked) i = Some (job_id, job)).
  { rewrite Hmark, (SweepFacts.nth_error_map_pointwise _ _ _ _ _ Hn).
    unfold Tracked.unobserved_active. cbn [fst snd].
    now rewrite (StepFacts.observed_In _ _ Hin). }
  destruct (cutoff start days) as [c|e] eqn:Hc.
  - rewrite (SweepFacts.close_old_missing_jobs_known _ _ _ _ Hc).
    cbn [fst known_jobs with_known_jobs].
    rewrite (SweepFacts.nth_error_map_pointwise _ _ _ _ _ Hn1).
    unfold Tracked.stale_missing. cbn [fst snd].
    destruct (status job); try reflexivity. contradiction.
  - rewrite (SweepFacts.close_old_missing_jobs_raises _ _ _ _ Hc).
    cbn [fst]. exact Hn1.
Qed.

Lemma observed_jobs_are_not_swept_witness :
  exists i job,
    nth_error
      (known_jobs
         (fst (@Orchestrator.classify_fetched
                 RapidFuzz.metric
                 (Scenario.classifier [("j1", Scenario.active_job)])
                 [(Scenario.same_posting (Some "job-123"), "u2")]
                 Scenario.mar15))) i
    = Some ("j1", job)
    /\ status job <> MISSING
    /\ nth_error
         (known_jobs
            (fst (Orchestrator.lifecycle
                    (fst (@Orchestrator.classify_fetched
                            RapidFuzz.metric
                            (Scenario.classifier [("j1", Scenario.active_job)])
                            [(Scenario.same_posting (Some "job-123"), "u2")]
                            Scenario.mar15))
                    (Orchestrator.observed_job_ids
                       (snd (@Orchestrator.classify_fetched
                               RapidFuzz.metric
                               (Scenario.classifier [("j1", Scenario.active_job)])
                               [(Scenario.same_posting (Some "job-123"), "u2")]
                               Scenario.mar15)))
                    Scenario.mar15 14))) i
       = Some ("j1", job).
Proof.
  apply (observed_jobs_are_not_swept
           RapidFuzz.metric (Scenario.classifier [("j1", Scenario.active_job)])
           [(Scenario.same_posting (Some "job-123"), "u2")] Scenario.mar15 14 "j1").
  - repeat constructor.
  - vm_compute. left. reflexivity.
Defined.

(** ** Validation of company ids *)

Module ValidationFacts.

Import Validation.

(** The function on ids of the kinds its checks tell apart. *)
Example validate_company_id_examples :
  validate_company_id "acme-corp" = (true, None)
  /\ validate_company_id "" = (false, Some "Company ID must be a non-empty string")
  /\ validate_company_id "Acme"
     = (false, Some "Company ID must be lowercase alphanumeric with hyphens only")
  /\ validate_company_id "-acme"
     = (false, Some "Company ID cannot start or end with a hyphen")
  /\ validate_company_id "acme-"
     = (false, Some "Company ID cannot start or end with a hyphen")
  /\ validate_company_id "acme--corp"
     = (false, Some "Company ID cannot contain consecutive hyphens").
Proof. repeat split. Qed.

Lemma is_company_char_not_pipe :
  forall c, is_company_char c = true -> Text.not_pipe c = true.
Proof.
  intros c H. unfold Text.not_pipe.
  destruct (Ascii.eqb_spec c "|"%char) as [->|]; [discriminate H | reflexivity].
Qed.

(** The pattern: a non-empty run of the class, then at most one newline. *)
Lemma match_company_pattern_from_spec :
  forall s seen_one,
    match_company_pattern_from seen_one s = true
    <-> exists body,
        (s = body \/ s = body ++ String "010"%char "")
        /\ Text.all_chars is_company_char body = true
        /\ (seen_one = true \/ body <> "").
Proof.
  induction s as [|c s IH]; intros seen_one; cbn [match_company_pattern_from].
  - split.
    + intros ->. exists "". cbn. auto.
    + intros (body & [Hs|Hs] & _ & Hne).
      * subst body. destruct Hne as [H|H]; [exact H | congruence].
      * destruct body; discriminate.
  - destruct (is_company_char c) eqn:Ec.
    + rewrite IH. split.
      * intros (body & Hs & Hall & _). exists (String c body).
        cbn [Text.all_chars append]. rewrite Ec, Hall. repeat split.
        -- destruct Hs as [->| ->]; [left|right]; reflexivity.
        -- right; discriminate.
      * intros (body & Hs & Hall & _). destruct body as [|c' body].
        -- destruct Hs as [Hs|Hs]; [discriminate|]. cbn in Hs.
           inversion Hs; subst. vm_compute in Ec. discriminate.
        -- exists body. cbn in Hall. apply andb_true_iff in Hall.
           destruct Hall as [_ Hall]. repeat split; auto.
           destruct Hs as [Hs|Hs]; cbn in Hs; inversion Hs; auto.
    + split.
      * intro H. apply andb_true_iff in H. destruct H as [H H3].
        apply andb_true_iff in H. destruct H as [H1 H2].
        apply Ascii.eqb_eq in H2. subst c. apply negb_true_iff in H3.
        apply ClassifierFacts.truthy_false in H3. subst s.
        exists "". cbn. repeat split; auto.
      * intros (body & Hs & Hall & Hne). destruct body as [|c' body].
        -- destruct Hs as [Hs|Hs]; [discriminate|]. cbn in Hs.
           inversion Hs; subst. destruct Hne as [->|H]; [reflexivity | congruence].
        -- exfalso. cbn in Hall.
           assert (Hc : c' = c)
             by (destruct Hs as [Hs|Hs]; cbn in Hs; inversion Hs; auto).
           subst. rewrite Ec in Hall. discriminate.
Qed.

Lemma validate_company_id_true :
  forall s,
    fst (validate_company_id s) = true
    <-> PyStr.truthy s = true
        /\ match_company_pattern s = true
        /\ startswith "-"%char s = false
        /\ endswith "-"%char s = false
        /\ has_double_hyphen s = false.
Proof.
  intro s. unfold validate_company_id.
  destruct (PyStr.truthy s), (match_company_pattern s), (startswith "-"%char s),
    (endswith "-"%char s), (has_double_hyphen s); cbn; intuition congruence.
Qed.

Lemma validate_company_id_message :
  forall s,
    fst (validate_company_id s) = true <-> snd (validate_company_id s) = None.
Proof.
  intro s. unfold validate_company_id.
  destruct (PyStr.truthy s), (match_company_pattern s), (startswith "-"%char s),
    (endswith "-"%char s), (has_double_hyphen s); cbn; intuition congruence.
Qed.

End ValidationFacts.

(** X26. [validate_company_id] accepts exactly the ids that are a non-empty
    run of lowercase letters, digits and hyphens, followed by at most one
    newline (which the pattern's [$] lets through), that neither start nor end
    with a hyphen and hold no two hyphens in a row; the error message is
    [None] exactly for these. An accepted id holds no pipe, so a signature
    built from it splits on the pipe into exactly its three components. *)
Theorem validate_company_id_accepts :
  forall company_id : string,
    (fst (Validation.validate_company_id company_id) = true
     <-> (exists body,
             (company_id = body \/ company_id = body ++ String "010"%char "")
             /\ body <> ""
             /\ Text.all_chars Validation.is_company_char body = true)
         /\ Validation.startswith "-"%char company_id = false
         /\ Validation.endswith "-"%char company_id = false
         /\ Validation.has_double_hyphen company_id = false)
    /\ (fst (Validation.validate_company_id company_id) = true
        <-> snd (Validation.validate_company_id company_id) = None)
    /\ (fst (Validation.validate_company_id company_id) = true ->
        Text.all_chars Text.not_pipe company_id = true
        /\ forall title location,
            PyStr.split_on "|"%char
                           (JobNormalizer.create_signature company_id title location)
            = [company_id; JobNormalizer.normalize_title title;
               JobNormalizer.normalize_location location]).
Proof.
  intro company_id.
  assert (Hshape :
            Validation.match_company_pattern company_id = true
            <-> exists body,
                (company_id = body \/ company_id = body ++ String "010"%char "")
                /\ body <> ""
                /\ Text.all_chars Validation.is_company_char body = true).
  { unfold Validation.match_company_pattern.
    rewrite ValidationFacts.match_company_pattern_from_spec. split.
    - intros (body & Hs & Hall & [H|H]); [discriminate|]. exists body; auto.
    - intros (body & Hs & Hne & Hall). exists body; auto. }
  split; [|split].
  - rewrite ValidationFacts.validate_company_id_true, Hshape. split.
    + intros (_ & H & H1 & H2 & H3). auto.
    + intros (H & H1 & H2 & H3). repeat split; auto.
      destruct H as (body & Hs & Hne & _).
      destruct body as [|c body]; [congruence|].
      destruct Hs as [->| ->]; reflexivity.
  - apply ValidationFacts.validate_company_id_message.
  - intro Hv. apply ValidationFacts.validate_company_id_true in Hv.
    destruct Hv as (_ & Hm & _). apply Hshape in Hm.
    destruct Hm as (body & Hs & _ & Hall).
    assert (Hc : Text.all_chars Text.not_pipe company_id = true).
    { pose proof (TextFacts.all_chars_weaken _ _ body
                    ValidationFacts.is_company_char_not_pipe Hall) as Hb.
      destruct Hs as [->| ->]; [exact Hb|].
      rewrite TextFacts.all_chars_app, Hb. reflexivity. }
    split; [exact Hc|]. intros title location.
    unfold JobNormalizer.create_signature, PyStr.split_on.
    pose proof (NormalizerFacts.clean_not_pipe _
                  (NormalizerFacts.normalize_title_clean title)) as Ht.
    pose proof (NormalizerFacts.clean_not_pipe _
                  (NormalizerFacts.normalize_location_clean location)) as Hl.
    change ("|" ++ ?x) with (String "|"%char x).
    rewrite (NormalizerFacts.split_on_from_app "|"%char company_id "" _ Hc).
    change ("|" ++ ?x) with (String "|"%char x).
    rewrite (NormalizerFacts.split_on_from_app "|"%char _ "" _ Ht).
    rewrite (NormalizerFacts.split_on_from_free "|"%char _ "" Hl).
    reflexivity.
Qed.

(** ** Loading and archiving the tracked jobs *)

Module StoreFacts.

Import ClassifiedJob Tracked JobStore JobArchiver.








(** Deleting a key. *)
Lemma del_length :
  forall d key, has_key key d = true -> S (List.length (del key d)) = List.length d.
Proof.
  induction d as [|[k j] d IH]; intros key H; [discriminate|].
  cbn in H |- *. destruct (String.eqb k key); [reflexivity|].
  cbn in H |- *. now rewrite IH.
Qed.

Lemma del_In :
  forall d key kj, In kj (del key d) -> In kj d.
Proof.
  induction d as [|[k j] d IH]; intros key kj H; [destruct H|].
  cbn in H. destruct (String.eqb k key); [now right|].
  destruct H as [<-|H]; [now left | right; eauto].
Qed.

Lemma del_In_other :
  forall d key kj, In kj d -> fst kj <> key -> In kj (del key d).
Proof.
  induction d as [|[k j] d IH]; intros key kj H Hne; [destruct H|].
  cbn. destruct (String.eqb_spec k key) as [->|Hk].
  - destruct H as [<-|H]; [cbn in Hne; congruence | exact H].
  - destruct H as [<-|H]; [now left | right; auto].
Qed.

Lemma del_NoDup :
  forall d key, NoDup (keys d) -> NoDup (keys (del key d)).
Proof.
  unfold keys. induction d as [|[k j] d IH]; intros key H; [exact H|].
  cbn in H |- *. inversion H as [|? ? Hn Hd]; subst.
  destruct (String.eqb k key); [exact Hd|]. cbn. constructor; [|auto].
  intro Hin. apply Hn. apply in_map_iff in Hin. destruct Hin as (kj & <- & Hkj).
  apply in_map. eapply del_In; eauto.
Qed.

Lemma del_keyed :
  forall d key, keyed_by_id d -> keyed_by_id (del key d).
Proof.
  unfold keyed_by_id. intros d key H. apply Forall_forall. intros kj Hin.
  apply (proj1 (Forall_forall _ _) H). eapply del_In; eauto.
Qed.

Lemma keys_unique :
  forall (d : JobDict.t) k a b,
    NoDup (keys d) -> In (k, a) d -> In (k, b) d -> a = b.
Proof.
  unfold keys. induction d as [|[k1 j1] d IH]; intros k a b Hnd Ha Hb;
    [destruct Ha|].
  cbn in Hnd. inversion Hnd as [|? ? Hn Hd]; subst.
  destruct Ha as [Ha|Ha], Hb as [Hb|Hb].
  - congruence.
  - inversion Ha; subst. exfalso. apply Hn. apply (in_map fst _ _ Hb).
  - inversion Hb; subst. exfalso. apply Hn. apply (in_map fst _ _ Ha).
  - eauto.
Qed.

Lemma filter_none :
  forall (p : string * ClassifiedJob.t -> bool) d,
    filter p d = [] -> filter (fun kj => negb (p kj)) d = d.
Proof.
  intros p; induction d as [|kj d IH]; cbn; [reflexivity|].
  destruct (p kj); [discriminate|]. cbn. intro H. now rewrite IH.
Qed.

(** Deleting the id of the first entry a test selects removes that entry. *)
Lemma del_first_selected :
  forall (p : string * ClassifiedJob.t -> bool) d kj l,
    NoDup (keys d) -> keyed_by_id d -> filter p d = kj :: l ->
    has_key (id (snd kj)) d = true
    /\ filter p (del (id (snd kj)) d) = l
    /\ filter (fun kj => negb (p kj)) (del (id (snd kj)) d)
       = filter (fun kj => negb (p kj)) d.
Proof.
  intros p; induction d as [|[k1 j1] d IH]; intros kj l Hnd Hk Hf; [discriminate|].
  unfold keyed_by_id in Hk. inversion Hk as [|? ? Hk1 Hkd]; subst. cbn in Hk1.
  unfold keys in Hnd. cbn in Hnd. inversion Hnd as [|? ? Hn Hd]; subst.
  cbn [filter] in Hf |- *. destruct (p (id j1, j1)) eqn:Ep.
  - inversion Hf; subst. cbn [snd has_key existsb fst del].
    rewrite String.eqb_refl. cbn. auto.
  - assert (Hin : In kj d).
    { assert (H : In kj (filter p d)) by (rewrite Hf; now left).
      apply filter_In in H. tauto. }
    assert (Hkey : fst kj = id (snd kj))
      by exact (proj1 (Forall_forall _ _) Hkd _ Hin).
    assert (Hne : String.eqb (id j1) (id (snd kj)) = false).
    { apply String.eqb_neq. intro E. apply Hn. rewrite E, <- Hkey.
      apply (in_map fst _ _ Hin). }
    destruct (IH kj l Hd Hkd Hf) as (H1 & H2 & H3).
    cbn [has_key existsb fst del]. rewrite Hne. cbn [orb filter].
    rewrite Ep. cbn [negb]. rewrite H2, H3. auto.
Qed.

Lemma archive_loop_accounting :
  forall to_archive written n jobs cnt,
    snd (archive_loop to_archive written n jobs cnt)
    + Z.of_nat (List.length (fst (archive_loop to_archive written n jobs cnt)))
    = cnt + Z.of_nat (List.length jobs)
    /\ cnt <= snd (archive_loop to_archive written n jobs cnt)
       <= cnt + Z.of_nat (List.length to_archive)
    /\ forall kj, In kj (fst (archive_loop to_archive written n jobs cnt)) ->
                  In kj jobs.
Proof.
  induction to_archive as [|job rest IH]; intros written n jobs cnt;
    cbn [archive_loop].
  - cbn. repeat split; auto; lia.
  - destruct (written n && has_key (id job) jobs) eqn:E.
    + apply andb_true_iff in E. destruct E as [_ Hkey].
      destruct (IH written (S n) (del (id job) jobs) (cnt + 1)) as (H1 & H2 & H3).
      pose proof (del_length _ _ Hkey) as Hl. cbn [List.length].
      repeat split; try lia. intros kj Hin. eapply del_In; eauto.
    + destruct (IH written (S n) jobs cnt) as (H1 & H2 & H3).
      cbn [List.length]. repeat split; auto; lia.
Qed.

Lemma archive_loop_keeps :
  forall (p : string * ClassifiedJob.t -> bool) jobs0,
    NoDup (keys jobs0) ->
    forall to_archive written n jobs cnt kj,
      (forall job, In job to_archive -> exists k, In (k, job) jobs0 /\ k = id job
                                              /\ p (k, job) = true) ->
      In kj jobs0 -> p kj = false -> In kj jobs ->
      In kj (fst (archive_loop to_archive written n jobs cnt)).
Proof.
  intros p jobs0 Hnd.
  induction to_archive as [|job rest IH]; intros written n jobs cnt kj Hta H0 Hp Hin;
    cbn [archive_loop]; [exact Hin|].
  assert (Hrest : forall job', In job' rest ->
                               exists k, In (k, job') jobs0 /\ k = id job'
                                         /\ p (k, job') = true).
  { intros job' H. apply Hta. now right. }
  destruct (written n && has_key (id job) jobs); [|now apply IH].
  apply IH; auto. apply del_In_other; [exact Hin|].
  intro E. destruct (Hta job (or_introl eq_refl)) as (k & Hk & -> & Hpk).
  destruct kj as [k' j']. cbn in E. subst k'.
  rewrite (keys_unique _ _ _ _ Hnd H0 Hk) in Hp. congruence.
Qed.

Lemma archive_loop_all_written :
  forall (p : string * ClassifiedJob.t -> bool) written,
    (forall n, written n = true) ->
    forall l jobs n cnt,
      NoDup (keys jobs) -> keyed_by_id jobs -> filter p jobs = l ->
      archive_loop (map snd l) written n jobs cnt
      = (filter (fun kj => negb (p kj)) jobs, cnt + Z.of_nat (List.length l)).
Proof.
  intros p written Hw. induction l as [|kj l IH]; intros jobs n cnt Hnd Hk Hf;
    cbn [map archive_loop].
  - rewrite (filter_none _ _ Hf). cbn. f_equal. lia.
  - destruct (del_first_selected p jobs kj l Hnd Hk Hf) as (H1 & H2 & H3).
    rewrite Hw, H1. cbn [andb].
    rewrite (IH (del (id (snd kj)) jobs) (S n) (cnt + 1)
                (del_NoDup _ _ Hnd) (del_keyed _ _ Hk) H2).
    rewrite H3. f_equal. cbn [List.length]. lia.
Qed.

End StoreFacts.


(** X28. [archive_old_jobs] accounts for every job: it fails only when the
    cutoff cannot be computed, and then leaves the dict alone; otherwise the
    jobs it reports as archived and as remaining add up to the jobs it was
    given, the remaining count is the size of the dict it leaves, the dict
    only loses entries, no more jobs are archived than are Closed and last
    seen before the cutoff, and the statistics lack the cutoff date exactly
    when no job was eligible. *)
Theorem archive_old_jobs_accounting :
  forall (self : JobArchiver.t) (written : nat -> bool) (jobs : JobDict.t)
         (now : PyTime.datetime),
    (forall e,
        cutoff now (JobArchiver.retention_days self) = Raise e ->
        JobArchiver.archive_old_jobs self written jobs now = (jobs, Raise e))
    /\ (forall c,
           cutoff now (JobArchiver.retention_days self) = Ok c ->
           exists st,
             snd (JobArchiver.archive_old_jobs self written jobs now) = Ok st
             /\ JobArchiver.archived st + JobArchiver.remaining st
                = Z.of_nat (List.length jobs)
             /\ JobArchiver.remaining st
                = Z.of_nat
                    (List.length
                       (fst (JobArchiver.archive_old_jobs self written jobs now)))
             /\ 0 <= JobArchiver.archived st
                <= Z.of_nat (List.length (filter (JobArchiver.eligible c) jobs))
             /\ (forall kj,
                    In kj (fst (JobArchiver.archive_old_jobs self written jobs now)) ->
                    In kj jobs)
             /\ (JobArchiver.cutoff_date st = None
                 <-> filter (JobArchiver.eligible c) jobs = [])).
Proof.
  intros self written jobs now. unfold JobArchiver.archive_old_jobs. split.
  - intros e ->. reflexivity.
  - intros c ->.
    destruct (filter (JobArchiver.eligible c) jobs) as [|kj l] eqn:Ef; cbn [map].
    + eexists. split; [reflexivity|]. cbn. repeat split; auto; lia.
    + destruct (StoreFacts.archive_loop_accounting
                  (snd kj :: map snd l) written 0 jobs 0) as (H1 & H2 & H3).
      destruct (JobArchiver.archive_loop (snd kj :: map snd l) written 0 jobs 0)
        as [jobs' cnt'].
      cbn [fst snd] in *. eexists. split; [reflexivity|].
      cbn [JobArchiver.archived JobArchiver.remaining JobArchiver.cutoff_date].
      cbn [List.length] in H2 |- *. rewrite length_map in H2.
      repeat split; auto; try lia; discriminate.
Qed.

(** X29. On a well-formed dict (jobs under their ids, no key twice)
    [archive_old_jobs] removes only jobs that are Closed and were last seen
    strictly before the cutoff: every other job stays. When every archive
    write succeeds, what is left is exactly the jobs that are not eligible,
    in their order, and the archived count is the number of eligible jobs. *)
Theorem archive_old_jobs_removes_only_stale_closed :
  forall (self : JobArchiver.t) (written : nat -> bool) (jobs : JobDict.t)
         (now c : PyTime.datetime),
    NoDup (Tracked.keys jobs) ->
    Tracked.keyed_by_id jobs ->
    cutoff now (JobArchiver.retention_days self) = Ok c ->
    (forall k job,
        In (k, job) jobs ->
        status job <> CLOSED \/ c <= last_seen job ->
        In (k, job) (fst (JobArchiver.archive_old_jobs self written jobs now)))
    /\ ((forall n, written n = true) ->
        fst (JobArchiver.archive_old_jobs self written jobs now)
        = filter (fun kj => negb (JobArchiver.eligible c kj)) jobs
        /\ option_map JobArchiver.archived
                      (ok_value (snd (JobArchiver.archive_old_jobs self written jobs now)))
           = Some (Z.of_nat (List.length (filter (JobArchiver.eligible c) jobs)))).
Proof.
  intros self written jobs now c Hnd Hk Hc.
  unfold JobArchiver.archive_old_jobs. rewrite Hc. split.
  - intros k job Hin Hne.
    assert (Hp : JobArchiver.eligible c (k, job) = false).
    { unfold JobArchiver.eligible. cbn [snd].
      destruct Hne as [H|H].
      - destruct (status job); try reflexivity. congruence.
      - replace (last_seen job <? c) with false
          by (symmetry; apply Z.ltb_ge; exact H).
        apply andb_false_r. }
    destruct (filter (JobArchiver.eligible c) jobs) as [|kj l] eqn:Ef;
      cbn [map]; [exact Hin|].
    pose proof (StoreFacts.archive_loop_keeps
                  (JobArchiver.eligible c) jobs Hnd
                  (snd kj :: map snd l) written 0%nat jobs 0 (k, job)) as Hkeep.
    destruct (JobArchiver.archive_loop (snd kj :: map snd l) written 0 jobs 0)
      as [jobs' cnt'].
    cbn [fst] in *. apply Hkeep; auto.
    intros job' Hjob'.
    assert (Hin' : In job' (map snd (filter (JobArchiver.eligible c) jobs)))
      by (rewrite Ef; exact Hjob').
    apply in_map_iff in Hin'. destruct Hin' as ([k' j'] & <- & Hf).
    apply filter_In in Hf. destruct Hf as [Hf1 Hf2].
    pose proof (proj1 (Forall_forall _ _) Hk _ Hf1) as Hid. cbn in Hid.
    exists k'. cbn [snd]. auto.
  - intro Hw.
    pose proof (StoreFacts.archive_loop_all_written
                  (JobArchiver.eligible c) written Hw
                  (filter (JobArchiver.eligible c) jobs) jobs 0%nat 0 Hnd Hk eq_refl)
      as Hall.
    destruct (filter (JobArchiver.eligible c) jobs) as [|kj l] eqn:Ef.
    + cbn [map fst snd ok_value option_map JobArchiver.archived List.length].
      split; [|reflexivity].
      symmetry. apply (StoreFacts.filter_none _ _ Ef).
    + cbn [map] in Hall |- *. rewrite Hall.
      cbn [fst snd ok_value option_map JobArchiver.archived].
      split; [reflexivity|]. f_equal.
Qed.

Lemma archive_old_jobs_removes_only_stale_closed_witness :
  In ("j1", Scenario.active_job)
     (fst (JobArchiver.archive_old_jobs
             {| JobArchiver.retention_days := 30 |} (fun _ => true)
             [("j0", Scenario.tracked "j0" CLOSED Scenario.jan15 Scenario.jan15
                                      (Some "job-1"));
              ("j1", Scenario.active_job)]
             Scenario.mar15)).
Proof.
  apply (proj1 (archive_old_jobs_removes_only_stale_closed
                  {| JobArchiver.retention_days := 30 |} (fun _ => true)
                  [("j0", Scenario.tracked "j0" CLOSED Scenario.jan15 Scenario.jan15
                                           (Some "job-1"));
                   ("j1", Scenario.active_job)]
                  Scenario.mar15 (Scenario.mar15 - Scenario.days 30)
                  ltac:(repeat constructor; cbn; intuition discriminate)
                  ltac:(repeat constructor)
                  ltac:(reflexivity))
               "j1" Scenario.active_job).
  - right. left. reflexivity.
  - left. discriminate.
Defined.
